(** * tts-tiny-dataset: pack.py and unpack.py

    A shallow embedding of the two scripts of the repository,
    [scripts/pack.py] (flat layout to partitioned layout) and
    [scripts/unpack.py] (partitioned layout back to flat layout), and the
    properties of their grouping, batching, path mapping and filtering.

    Modelling conventions.
    - Python [str] is [string]; characters are bytes, and the case and
      white-space functions below act on the ASCII range.
    - A [pathlib] path is handled through its parts (POSIX flavour): the
      components between slashes, empty components and [.] dropped.
    - A data frame keeps the three required columns as record fields of
      type [string], as the source annotates them ([sanitise(value: str)],
      [original_rel: str]).  A cell of metadata.csv is the text of its
      field: [pd.read_csv] reads the texts of [Pandas.na_values] as a
      missing value, and [groupby] leaves out a row whose audio_source or
      speaker is missing.  The audio_path of a row is a string.  The
      remaining columns travel in [passthrough].
    - The file system is explicit state.  The flat source is read only; the
      partitioned tree is a record of the shards in [metadata/], the
      directories and the regular files below the root.  [metadata/]
      holds files only, so that [to_parquet] raises [OSError] for a shard
      name with a slash in it: the directory it names does not exist.
      [shutil.copy2], [mkdir], [iterdir] and the other writes are taken to
      succeed: a path that exists and is copied names a regular file, and
      no file stands where a directory is listed or made.
    - [print] and the mutating calls are recorded in a log of events. *)

From Stdlib Require Import String Ascii List ZArith Lia Bool Arith PeanoNat.
From Stdlib Require Import Permutation DecimalString.
From Stdlib Require Decimal DecimalN.
Import ListNotations.
Open Scope string_scope.
Open Scope list_scope.

(** ** Python string primitives *)

Module PyStr.

(** [s.split(sep)] for a one-character separator: never empty. *)
Fixpoint split (sep : ascii) (s : string) : list string :=
  match s with
  | EmptyString => [EmptyString]
  | String c r =>
      if Ascii.eqb c sep then EmptyString :: split sep r
      else match split sep r with
           | h :: t => String c h :: t
           | [] => [String c EmptyString]
           end
  end.

(** [str.isspace] on the ASCII range: TAB, LF, VT, FF, CR, FS, GS, RS, US
    and the space. *)
Definition is_space (c : ascii) : bool :=
  let n := nat_of_ascii c in
  ((9 <=? n)%nat && (n <=? 13)%nat) || ((28 <=? n)%nat && (n <=? 32)%nat).

Fixpoint lstrip (s : string) : string :=
  match s with
  | EmptyString => EmptyString
  | String c r => if is_space c then lstrip r else s
  end.

Fixpoint rstrip (s : string) : string :=
  match s with
  | EmptyString => EmptyString
  | String c r =>
      match rstrip r with
      | EmptyString => if is_space c then EmptyString else String c EmptyString
      | r' => String c r'
      end
  end.

Definition strip (s : string) : string := rstrip (lstrip s).

Definition lower_ascii (c : ascii) : ascii :=
  let n := nat_of_ascii c in
  if ((65 <=? n)%nat && (n <=? 90)%nat) then ascii_of_nat (n + 32) else c.

Fixpoint map_chars (f : ascii -> ascii) (s : string) : string :=
  match s with
  | EmptyString => EmptyString
  | String c r => String (f c) (map_chars f r)
  end.

(** [s.lower()] *)
Definition lower (s : string) : string := map_chars lower_ascii s.

(** [s.replace(a, b)] for one-character [a] and [b]. *)
Definition replace (a b : ascii) (s : string) : string :=
  map_chars (fun c => if Ascii.eqb c a then b else c) s.

(** [s.startswith(p)] *)
Definition startswith (s p : string) : bool := String.prefix p s.

(** [sub in s], the test behind [str.contains(sub, regex=False)]. *)
Fixpoint contains (s sub : string) : bool :=
  String.prefix sub s ||
  match s with
  | EmptyString => false
  | String _ r => contains r sub
  end.

(** [s.endswith(p)] *)
Definition endswith (s p : string) : bool :=
  (String.length p <=? String.length s)%nat &&
  String.eqb (String.substring (String.length s - String.length p)
                               (String.length p) s) p.

Definition is_digit (c : ascii) : bool :=
  let n := nat_of_ascii c in (48 <=? n)%nat && (n <=? 57)%nat.

Definition digit_val (c : ascii) : Z := Z.of_nat (nat_of_ascii c - 48).

(** Value of a non-empty run of decimal digits, [None] otherwise. *)
Fixpoint digits_val (acc : Z) (s : string) : option Z :=
  match s with
  | EmptyString => Some acc
  | String c r =>
      if is_digit c then digits_val (10 * acc + digit_val c)%Z r else None
  end.

Definition unsigned_int (s : string) : option Z :=
  match s with
  | EmptyString => None
  | _ => digits_val 0%Z s
  end.

(** [int(s)]: surrounding white space stripped, an optional sign, then
    decimal digits; [None] stands for [ValueError].  (The digit-group
    underscore of Python literals cannot occur in the callers' tokens,
    which are cut at underscores.) *)
Definition int (s : string) : option Z :=
  match strip s with
  | String "-" r => option_map Z.opp (unsigned_int r)
  | String "+" r => unsigned_int r
  | t => unsigned_int t
  end.

(** [str(n)] for a natural number. *)
Definition of_N (n : N) : string := NilZero.string_of_uint (N.to_uint n).

Fixpoint zeros (k : nat) : string :=
  match k with
  | O => EmptyString
  | S k' => String "0" (zeros k')
  end.

Definition zfill (w : nat) (s : string) : string :=
  (zeros (w - String.length s) ++ s)%string.

(** [f"{z:04d}"]: the sign counts in the width. *)
Definition format_04d (z : Z) : string :=
  if (z <? 0)%Z then String "-" (zfill 3 (of_N (Z.to_N (- z))))
  else zfill 4 (of_N (Z.to_N z)).

End PyStr.

(** ** pathlib, POSIX flavour *)

Module PyPath.

Definition keep_part (c : string) : bool :=
  negb (String.eqb c "") && negb (String.eqb c ".").

(** The parts of [Path(s)] below the root. *)
Definition parts (s : string) : list string :=
  filter keep_part (PyStr.split "/" s).

Definition is_absolute (s : string) : bool := String.prefix "/" s.

(** [Path(s).name] *)
Definition name (s : string) : string := last (parts s) "".

(** [(Path(base) / s).name]: an absolute right operand replaces the left
    one. *)
Definition join_name (base s : string) : string :=
  if is_absolute s then name s else last (parts base ++ parts s) "".

End PyPath.

(** ** Data model *)

Record Row := mkRow {
  audio_path : string;
  speaker : string;
  audio_source : string;
  passthrough : list string
}.

Record DataFrame := mkFrame {
  columns : list string;
  rows : list Row
}.

Definition with_audio_path (r : Row) (p : string) : Row :=
  mkRow p (speaker r) (audio_source r) (passthrough r).

(** [df["audio_path"] = paths] on a copy of the frame. *)
Definition assign_audio_path (rs : list Row) (paths : list string) : list Row :=
  map (fun rp => with_audio_path (fst rp) (snd rp)) (combine rs paths).

(** The flat layout read by pack: [metadata.csv] when it exists, and, when
    [wavs/] is a directory, the names [n] for which
    [(wavs_dir / n).exists()] answers [True]. *)
Record Source := mkSource {
  metadata_csv : option DataFrame;
  wavs : option (list string)
}.

(** The partitioned layout, written by pack and read by unpack: the files
    of [metadata/] by name when the directory exists, the directories
    created below the root ([mkdir(parents=True)]: a directory stands for
    its ancestors too) and the regular files, both as part lists relative
    to the root. *)
Record Tree := mkTree {
  metadata : option (list (string * DataFrame));
  dirs : list (list string);
  files : list (list string)
}.

(** The flat layout written by unpack. *)
Record Flat := mkFlat {
  flat_root_exists : bool;
  flat_csv : option DataFrame;
  flat_wavs : option (list string)
}.

Inductive outcome :=
| Finished
| SysExit (msg : string)      (* sys.exit(msg): exit status 1 *)
| Raised (exn : string).      (* an uncaught exception *)

Definition exit_status (o : outcome) : Z :=
  match o with
  | Finished => 0%Z
  | SysExit _ => 1%Z
  | Raised _ => 1%Z
  end.

(** What a run prints and which mutating calls it makes, in order.  The
    banner lines at the start of a run are left out. *)
Inductive event :=
| Warn (src : string)                        (* [WARN] ... *)
| DryCopy (src : string) (dest : list string) (* [DRY] src -> dest *)
| Mkdir (d : list string)                    (* Path.mkdir(parents, exist_ok) *)
| Copy (src : string) (dest : list string)   (* shutil.copy2(src, dest) *)
| DryMetadata (name : string) (n : nat)      (* [DRY] metadata -> name (n rows) *)
| Saved (name : string) (df : DataFrame)     (* to_parquet / to_csv, and its [INFO] line *)
| Loaded (n_rows n_files : nat)              (* [INFO] Loaded ... *)
| AfterFilters (n_rows original_len : nat)   (* [INFO] After filters ... *)
| Done (n_copied n_skipped : nat)            (* [DONE] ... with the two counts *)
| Hint                                       (* [HINT] ... *)
| DryDone.                                   (* [DONE] Dry-run complete *)

(** Python truthiness of an optional string argument: [None] and the empty
    string are false. *)
Definition truthy (o : option string) : bool :=
  match o with
  | Some s => negb (String.eqb s "")
  | None => false
  end.

(** ** Missing values of [pd.read_csv] *)

Module Pandas.

(** The texts that [pd.read_csv] reads as a missing value, with its
    default arguments. *)
Definition na_values : list string :=
  [""; "#N/A"; "#N/A N/A"; "#NA"; "-1.#IND"; "-1.#QNAN"; "-NaN"; "-nan";
   "1.#IND"; "1.#QNAN"; "<NA>"; "N/A"; "NA"; "NULL"; "NaN"; "None"; "n/a";
   "nan"; "null"].

Definition isna (cell : string) : bool :=
  existsb (String.eqb cell) na_values.

End Pandas.

(** ** File-system primitives on the tree *)

Module FS.

Fixpoint strip_prefix (p d : list string) : option (list string) :=
  match p, d with
  | [], _ => Some d
  | x :: p', y :: d' => if String.eqb x y then strip_prefix p' d' else None
  | _ :: _, [] => None
  end.

Definition is_some {A} (o : option A) : bool :=
  match o with Some _ => true | None => false end.

(** The directories and the regular files of the tree, [metadata/] and
    its shards included. *)
Definition dir_paths (t : Tree) : list (list string) :=
  dirs t ++ match metadata t with Some _ => [["metadata"]] | None => [] end.

Definition file_paths (t : Tree) : list (list string) :=
  files t ++ match metadata t with
             | Some l => map (fun x => "metadata" :: PyPath.parts (fst x)) l
             | None => []
             end.

(** [p.exists()] for a path at or below a root that exists. *)
Definition path_exists (t : Tree) (p : list string) : bool :=
  match p with
  | [] => true
  | _ => existsb (fun d => is_some (strip_prefix p d))
                 (dir_paths t ++ file_paths t)
  end.

(** [p.iterdir()] as pairs of a name and [is_dir()].  A name may be listed
    more than once. *)
Definition iterdir (t : Tree) (p : list string) : list (string * bool) :=
  flat_map (fun d => match strip_prefix p d with
                     | Some (n :: _) => [(n, true)]
                     | _ => []
                     end) (dir_paths t) ++
  flat_map (fun f => match strip_prefix p f with
                     | Some [n] => [(n, false)]
                     | Some (n :: _) => [(n, true)]
                     | _ => []
                     end) (file_paths t).

Definition parts_eqb (a b : list string) : bool :=
  (length a =? length b)%nat && is_some (strip_prefix a b).

Definition add_path (p : list string) (l : list (list string)) :=
  if existsb (parts_eqb p) l then l else l ++ [p].

Definition mkdir (d : list string) (t : Tree) : Tree :=
  mkTree (metadata t) (add_path d (dirs t)) (files t).

Definition copy_to (dest : list string) (t : Tree) : Tree :=
  mkTree (metadata t) (dirs t) (add_path dest (files t)).

Definition mkdir_metadata (t : Tree) : Tree :=
  mkTree (Some (match metadata t with Some l => l | None => [] end))
         (dirs t) (files t).

Fixpoint put {A} (k : string) (v : A) (l : list (string * A)) :=
  match l with
  | [] => [(k, v)]
  | (k', v') :: l' =>
      if String.eqb k k' then (k, v) :: l' else (k', v') :: put k v l'
  end.

(** The tree with the file [name] of [metadata/] holding [df]: an
    existing file of that name is replaced. *)
Definition put_shard (name : string) (df : DataFrame) (t : Tree) : Tree :=
  mkTree (Some (put name df (match metadata t with Some l => l | None => [] end)))
         (dirs t) (files t).

(** [df.to_parquet(meta_dir / name)]: [None] is the [OSError] of a name
    that points into a directory below [metadata/]. *)
Definition write_shard (name : string) (df : DataFrame) (t : Tree)
  : option Tree :=
  if PyStr.contains name "/" then None else Some (put_shard name df t).

End FS.

Inductive result (A : Type) :=
| Ok (a : A)
| Exit (msg : string).
Arguments Ok {A} a.
Arguments Exit {A} msg.

(** ** pack.py *)

Module Pack.

(** [sanitise]: [str(value).strip().lower().replace(" ", "_").replace("/", "-")] *)
Definition sanitise (value : string) : string :=
  PyStr.replace "/" "-"
    (PyStr.replace " " "_" (PyStr.lower (PyStr.strip value))).

Definition required : list string := ["audio_path"; "speaker"; "audio_source"].

Definition load_metadata (src : Source) : result DataFrame :=
  match metadata_csv src with
  | None => Exit "[ERROR] metadata.csv not found"
  | Some df =>
      if forallb (fun c => existsb (String.eqb c) (columns df)) required
      then Ok df
      else Exit "[ERROR] metadata.csv is missing columns"
  end.

(** The number parsed from one directory entry, as the loop body of
    [get_next_batch_num] reads it. *)
Definition folder_num (folder : string * bool) : option Z :=
  if snd folder && PyStr.startswith (fst folder) "batch_"
  then PyStr.int (last (PyStr.split "_" (fst folder)) "")
  else None.

(** The body of [for folder in speaker_dir.iterdir()]. *)
Definition batch_step (max_num : Z) (folder : string * bool) : Z :=
  match folder_num folder with
  | Some num => Z.max max_num num
  | None => max_num
  end.

Definition get_next_batch_num (out : Tree) (audio_source speaker : string) : Z :=
  let speaker_dir :=
    ["audio"] ++ PyPath.parts audio_source ++ PyPath.parts speaker in
  if negb (FS.path_exists out speaker_dir) then 1%Z
  else (fold_left batch_step (FS.iterdir out speaker_dir) 0 + 1)%Z.

(** *** [df.groupby(["audio_source", "speaker"])]: the distinct key pairs
    in ascending order, each with its rows in table order. *)

Definition key := (string * string)%type.

Definition key_of (r : Row) : key := (audio_source r, speaker r).

Definition key_eqb (a b : key) : bool :=
  String.eqb (fst a) (fst b) && String.eqb (snd a) (snd b).

Definition key_leb (a b : key) : bool :=
  match String.compare (fst a) (fst b) with
  | Lt => true
  | Gt => false
  | Eq => match String.compare (snd a) (snd b) with
          | Gt => false
          | _ => true
          end
  end.

Fixpoint insert_key (k : key) (l : list key) : list key :=
  match l with
  | [] => [k]
  | h :: t => if key_leb k h then k :: l else h :: insert_key k t
  end.

Fixpoint sort_keys (l : list key) : list key :=
  match l with
  | [] => []
  | h :: t => insert_key h (sort_keys t)
  end.

Fixpoint unique_keys (l : list key) : list key :=
  match l with
  | [] => []
  | h :: t => if existsb (key_eqb h) t then unique_keys t
              else h :: unique_keys t
  end.

(** The groups of a table in which no key is missing. *)
Definition group_rows (rs : list Row) : list (key * list Row) :=
  map (fun k => (k, filter (fun r => key_eqb (key_of r) k) rs))
      (sort_keys (unique_keys (map key_of rs))).

(** Both keys of the row are there. *)
Definition has_keys (r : Row) : bool :=
  negb (Pandas.isna (audio_source r)) && negb (Pandas.isna (speaker r)).

(** [dropna=True], the default: a row with a missing key is in no group. *)
Definition groupby (rs : list Row) : list (key * list Row) :=
  group_rows (filter has_keys rs).

(** *** Chunking *)

Fixpoint range_from (fuel i stop step : nat) : list nat :=
  match fuel with
  | O => []
  | S fuel' =>
      if (i <? stop)%nat then i :: range_from fuel' (i + step) stop step
      else []
  end.

(** [range(0, stop, step)]; [None] is the [ValueError] of a zero step. *)
Definition range0 (stop : nat) (step : Z) : option (list nat) :=
  if (step =? 0)%Z then None
  else if (step <? 0)%Z then Some []
  else Some (range_from stop 0 stop (Z.to_nat step)).

(** [df[i:j]] for [0 <= i <= j] *)
Definition slice (rs : list Row) (i j : nat) : list Row :=
  firstn (j - i) (skipn i rs).

Definition chunks (exact_batch : option string) (max_rows : Z)
    (group_df : list Row) : option (list (list Row)) :=
  if truthy exact_batch then Some [group_df]
  else option_map
         (map (fun i => slice group_df i (i + Z.to_nat max_rows)))
         (range0 (length group_df) max_rows).

Definition batch_label (exact_batch : option string) (start_batch_num : Z)
    (idx : nat) : string :=
  if truthy exact_batch
  then match exact_batch with Some b => b | None => "" end
  else ("batch_" ++ PyStr.format_04d (start_batch_num + Z.of_nat idx))%string.

(** *** The run *)

Record State := mkState {
  tree : Tree;
  log : list event;
  moved : nat;
  skipped : nat
}.

Record RowAcc := mkAcc {
  st : State;
  new_audio_paths : list string;
  chunk_moved : nat
}.

Definition dest_dir_of (audio_source speaker current_batch : string)
  : list string :=
  ["audio"] ++ PyPath.parts audio_source ++ PyPath.parts speaker
            ++ PyPath.parts current_batch.

Definition new_rel_of (audio_source speaker current_batch wav_filename : string)
  : string :=
  ("audio/" ++ audio_source ++ "/" ++ speaker ++ "/" ++ current_batch
            ++ "/" ++ wav_filename)%string.

(** The body of [for _, row in chunk.iterrows()]. *)
Definition pack_row (wav_names : list string)
    (audio_source speaker current_batch : string) (dry_run : bool)
    (a : RowAcc) (row : Row) : RowAcc :=
  let s := st a in
  let original_rel := audio_path row in
  let wav_filename := PyPath.name original_rel in
  if negb (existsb (String.eqb wav_filename) wav_names) then
    mkAcc (mkState (tree s) (log s ++ [Warn wav_filename]) (moved s)
                   (S (skipped s)))
          (new_audio_paths a ++ [original_rel]) (chunk_moved a)
  else
    let dest_dir := dest_dir_of audio_source speaker current_batch in
    let dest_file := dest_dir ++ PyPath.parts wav_filename in
    let new_rel := new_rel_of audio_source speaker current_batch wav_filename in
    if dry_run then
      mkAcc (mkState (tree s) (log s ++ [DryCopy wav_filename dest_file])
                     (moved s) (skipped s))
            (new_audio_paths a ++ [new_rel]) (chunk_moved a)
    else
      mkAcc (mkState (FS.copy_to dest_file (FS.mkdir dest_dir (tree s)))
                     (log s ++ [Mkdir dest_dir; Copy wav_filename dest_file])
                     (moved s) (skipped s))
            (new_audio_paths a ++ [new_rel]) (S (chunk_moved a)).

Definition parquet_name_of (audio_source speaker current_batch : string)
  : string :=
  (audio_source ++ "_" ++ speaker ++ "_" ++ current_batch ++ ".parquet")%string.

(** The body of [for idx, chunk in enumerate(chunks)]; [Raised] when
    [to_parquet] cannot write the shard. *)
Definition pack_chunk (cols : list string) (wav_names : list string)
    (audio_source speaker : string) (exact_batch : option string)
    (start_batch_num : Z) (dry_run : bool)
    (s : State) (ic : nat * list Row) : outcome * State :=
  let idx := fst ic in
  let chunk := snd ic in
  let current_batch := batch_label exact_batch start_batch_num idx in
  let a := fold_left
             (pack_row wav_names audio_source speaker current_batch dry_run)
             chunk (mkAcc s [] 0) in
  let s1 := st a in
  let moved1 := moved s1 + chunk_moved a in
  let chunk_copy := mkFrame cols (assign_audio_path chunk (new_audio_paths a)) in
  let parquet_name := parquet_name_of audio_source speaker current_batch in
  if dry_run then
    (Finished,
     mkState (tree s1)
             (log s1 ++ [DryMetadata parquet_name (length (rows chunk_copy))])
             moved1 (skipped s1))
  else
    match FS.write_shard parquet_name chunk_copy (tree s1) with
    | Some t =>
        (Finished,
         mkState t (log s1 ++ [Saved parquet_name chunk_copy])
                 moved1 (skipped s1))
    | None => (Raised "OSError", mkState (tree s1) (log s1) moved1 (skipped s1))
    end.

(** [for idx, chunk in enumerate(chunks)] *)
Fixpoint pack_chunks (cols : list string) (wav_names : list string)
    (audio_source speaker : string) (exact_batch : option string)
    (start_batch_num : Z) (dry_run : bool)
    (ics : list (nat * list Row)) (s : State) : outcome * State :=
  match ics with
  | [] => (Finished, s)
  | ic :: ics' =>
      match pack_chunk cols wav_names audio_source speaker exact_batch
                       start_batch_num dry_run s ic with
      | (Finished, s') =>
          pack_chunks cols wav_names audio_source speaker exact_batch
                      start_batch_num dry_run ics' s'
      | stop => stop
      end
  end.

(** The body of the [groupby] loop; [Raised] when [range] refuses a zero
    step or a shard cannot be written. *)
Definition pack_group (cols : list string) (wav_names : list string)
    (exact_batch : option string) (max_rows : Z) (dry_run : bool)
    (s : State) (g : key * list Row) : outcome * State :=
  let audio_source := sanitise (fst (fst g)) in
  let speaker := sanitise (snd (fst g)) in
  match chunks exact_batch max_rows (snd g) with
  | None => (Raised "ValueError", s)
  | Some cs =>
      let start_batch_num :=
        if negb (truthy exact_batch)
        then get_next_batch_num (tree s) audio_source speaker
        else 0%Z in
      pack_chunks cols wav_names audio_source speaker exact_batch
                  start_batch_num dry_run (combine (seq 0 (length cs)) cs) s
  end.

Fixpoint pack_groups (cols : list string) (wav_names : list string)
    (exact_batch : option string) (max_rows : Z) (dry_run : bool)
    (gs : list (key * list Row)) (s : State) : outcome * State :=
  match gs with
  | [] => (Finished, s)
  | g :: gs' =>
      match pack_group cols wav_names exact_batch max_rows dry_run s g with
      | (Finished, s') =>
          pack_groups cols wav_names exact_batch max_rows dry_run gs' s'
      | stop => stop
      end
  end.

Definition pack (src : Source) (out : Tree) (exact_batch : option string)
    (max_rows : Z) (dry_run : bool) : outcome * State :=
  let s0 := mkState out [] 0 0 in
  match load_metadata src with
  | Exit msg => (SysExit msg, s0)
  | Ok df =>
      match wavs src with
      | None => (SysExit "[ERROR] wavs/ directory not found", s0)
      | Some wav_names =>
          let s1 := if dry_run then s0
                    else mkState (FS.mkdir_metadata out) [Mkdir ["metadata"]] 0 0 in
          match pack_groups (columns df) wav_names exact_batch max_rows dry_run
                            (groupby (rows df)) s1 with
          | (Finished, s2) =>
              (Finished,
               mkState (tree s2)
                       (log s2 ++ [if dry_run then DryDone
                                   else Done (moved s2) (skipped s2)])
                       (moved s2) (skipped s2))
          | stop => stop
          end
      end
  end.

End Pack.

(** ** unpack.py *)

Module Unpack.

(** [pd.concat(frames, ignore_index=True)]: the union of the columns in
    order of first appearance, the rows in order. *)
Definition concat_frames (frames : list DataFrame) : DataFrame :=
  mkFrame
    (fold_left (fun acc df =>
                  fold_left (fun acc' c =>
                               if existsb (String.eqb c) acc' then acc'
                               else acc' ++ [c]) (columns df) acc)
               frames [])
    (flat_map rows frames).

(** [meta_dir.glob("*.parquet")], in directory order. *)
Definition parquet_files (meta : list (string * DataFrame))
  : list (string * DataFrame) :=
  filter (fun f => PyStr.endswith (fst f) ".parquet") meta.

Definition load_all_metadata (meta : list (string * DataFrame))
  : result DataFrame * list event :=
  let fs := parquet_files meta in
  match fs with
  | [] => (Exit "[ERROR] No .parquet files found", [])
  | _ =>
      let df := concat_frames (map snd fs) in
      (Ok df, [Loaded (length (rows df)) (length fs)])
  end.

Definition arg (o : option string) : string :=
  match o with Some s => s | None => "" end.

Definition speaker_matches (f : string) (r : Row) : bool :=
  String.eqb (PyStr.lower (speaker r)) (PyStr.lower f).

Definition audio_source_matches (f : string) (r : Row) : bool :=
  String.eqb (PyStr.lower (audio_source r)) (PyStr.lower f).

Definition batch_matches (f : string) (r : Row) : bool :=
  PyStr.contains (audio_path r) ("/" ++ f ++ "/")%string.

(** The three [if] statements of [apply_filters]. *)
Definition filter_rows (rs : list Row) (speaker audio_source batch : option string)
  : list Row :=
  let rs1 := if truthy speaker
             then filter (speaker_matches (arg speaker)) rs else rs in
  let rs2 := if truthy audio_source
             then filter (audio_source_matches (arg audio_source)) rs1 else rs1 in
  if truthy batch then filter (batch_matches (arg batch)) rs2 else rs2.

Definition apply_filters (df : DataFrame)
    (speaker audio_source batch : option string)
  : result DataFrame * list event :=
  let original_len := length (rows df) in
  let rs := filter_rows (rows df) speaker audio_source batch in
  let line := [AfterFilters (length rs) original_len] in
  match rs with
  | [] => (Exit "[ERROR] No rows match the specified filters. Aborting.", line)
  | _ => (Ok (mkFrame (columns df) rs), line)
  end.

Record State := mkState {
  flat : Flat;
  log : list event;
  copied : nat;
  missing : nat;
  flat_audio_paths : list string
}.

Definition mkdir_wavs (o : Flat) : Flat :=
  mkFlat true (flat_csv o)
         (Some (match flat_wavs o with Some l => l | None => [] end)).

Definition copy_wav (wav_filename : string) (o : Flat) : Flat :=
  mkFlat (flat_root_exists o) (flat_csv o)
         (option_map (fun l => if existsb (String.eqb wav_filename) l then l
                               else l ++ [wav_filename]) (flat_wavs o)).

Definition write_csv (df : DataFrame) (o : Flat) : Flat :=
  mkFlat true (Some df) (flat_wavs o).

(** The body of [for _, row in df.iterrows()].  [dataset_dir] is the
    resolved path of the dataset root. *)
Definition unpack_row (dataset : Tree) (dataset_dir : string) (dry_run : bool)
    (s : State) (row : Row) : State :=
  let wav_filename := PyPath.join_name dataset_dir (audio_path row) in
  let dest_file := ["wavs"] ++ PyPath.parts wav_filename in
  let paths := flat_audio_paths s ++ [("wavs/" ++ wav_filename)%string] in
  if negb (FS.path_exists dataset (PyPath.parts (audio_path row))) then
    mkState (flat s) (log s ++ [Warn (audio_path row)]) (copied s)
            (S (missing s)) paths
  else if dry_run then
    mkState (flat s) (log s ++ [DryCopy (audio_path row) dest_file])
            (copied s) (missing s) paths
  else
    mkState (copy_wav wav_filename (mkdir_wavs (flat s)))
            (log s ++ [Mkdir ["wavs"]; Copy (audio_path row) dest_file])
            (S (copied s)) (missing s) paths.

Definition unpack (dataset : Tree) (dataset_dir : string) (out : Flat)
    (speaker audio_source batch : option string) (dry_run : bool)
  : outcome * State :=
  let s0 := mkState out [] 0 0 [] in
  match metadata dataset with
  | None => (SysExit "[ERROR] metadata/ directory not found", s0)
  | Some meta =>
      match load_all_metadata meta with
      | (Exit msg, l1) => (SysExit msg, mkState out l1 0 0 [])
      | (Ok df0, l1) =>
          match apply_filters df0 speaker audio_source batch with
          | (Exit msg, l2) => (SysExit msg, mkState out (l1 ++ l2) 0 0 [])
          | (Ok df, l2) =>
              let s := fold_left (unpack_row dataset dataset_dir dry_run)
                                 (rows df) (mkState out (l1 ++ l2) 0 0 []) in
              let df' := mkFrame (columns df)
                           (assign_audio_path (rows df) (flat_audio_paths s)) in
              if dry_run then
                (Finished,
                 mkState (flat s)
                         (log s ++ [DryMetadata "metadata.csv" (length (rows df'));
                                    DryDone])
                         (copied s) (missing s) (flat_audio_paths s))
              else
                (Finished,
                 mkState (write_csv df' (flat s))
                         (log s ++ [Mkdir []; Saved "metadata.csv" df';
                                    Done (copied s) (missing s)]
                                ++ (if (0 <? missing s)%nat then [Hint] else []))
                         (copied s) (missing s) (flat_audio_paths s))
          end
      end
  end.

End Unpack.

(** ** Reading a log *)

Module Log.

(** The events that change the file system. *)
Definition is_mutation (e : event) : bool :=
  match e with
  | Mkdir _ | Copy _ _ | Saved _ _ => true
  | _ => false
  end.

Definition mutations (l : list event) : list event := filter is_mutation l.

(** The source -> destination pairs a run logs (dry) or copies (real). *)
Definition copy_pair (e : event) : list (string * list string) :=
  match e with
  | DryCopy s d | Copy s d => [(s, d)]
  | _ => []
  end.

Definition copy_plan (l : list event) : list (string * list string) :=
  flat_map copy_pair l.

(** The metadata files a run logs (dry) or writes (real), with their row
    counts. *)
Definition shard_count (e : event) : list (string * nat) :=
  match e with
  | DryMetadata n k => [(n, k)]
  | Saved n df => [(n, length (rows df))]
  | _ => []
  end.

Definition shard_plan (l : list event) : list (string * nat) :=
  flat_map shard_count l.

Definition saved_frame (e : event) : list (string * DataFrame) :=
  match e with
  | Saved n df => [(n, df)]
  | _ => []
  end.

(** The [to_parquet] / [to_csv] calls of a run, in order. *)
Definition saved (l : list event) : list (string * DataFrame) :=
  flat_map saved_frame l.

Definition saved_rows (l : list event) : list Row :=
  flat_map (fun x => rows (snd x)) (saved l).

Definition warning (e : event) : list string :=
  match e with
  | Warn s => [s]
  | _ => []
  end.

Definition warnings (l : list event) : list string := flat_map warning l.

End Log.

(** ** Closed forms of the loop bodies

    What one row and one chunk contribute, written without the
    accumulators; the lemmas below show that the loops of [Pack] and
    [Unpack] compute exactly these. *)

Module Plan.

Definition wav_present (wav_names : list string) (r : Row) : bool :=
  existsb (String.eqb (PyPath.name (audio_path r))) wav_names.

Definition mapped_path (wav_names : list string)
    (audio_source speaker current_batch : string) (r : Row) : string :=
  if wav_present wav_names r
  then Pack.new_rel_of audio_source speaker current_batch
                       (PyPath.name (audio_path r))
  else audio_path r.

Definition mapped_row (wav_names : list string)
    (audio_source speaker current_batch : string) (r : Row) : Row :=
  with_audio_path r (mapped_path wav_names audio_source speaker current_batch r).

Definition row_events (wav_names : list string)
    (audio_source speaker current_batch : string) (dry_run : bool) (r : Row)
  : list event :=
  let w := PyPath.name (audio_path r) in
  let dest_dir := Pack.dest_dir_of audio_source speaker current_batch in
  if wav_present wav_names r then
    if dry_run then [DryCopy w (dest_dir ++ PyPath.parts w)]
    else [Mkdir dest_dir; Copy w (dest_dir ++ PyPath.parts w)]
  else [Warn w].

Definition chunk_events (cols : list string) (wav_names : list string)
    (audio_source speaker current_batch : string) (dry_run : bool)
    (chunk : list Row) : list event :=
  flat_map (row_events wav_names audio_source speaker current_batch dry_run)
           chunk ++
  [if dry_run
   then DryMetadata (Pack.parquet_name_of audio_source speaker current_batch)
                    (length chunk)
   else Saved (Pack.parquet_name_of audio_source speaker current_batch)
              (mkFrame cols
                 (map (mapped_row wav_names audio_source speaker current_batch)
                      chunk))].

(** The file names a run of pack warns about: those of the rows whose wav
    file is absent from [wavs/]. *)
Definition missing_names (wav_names : list string) (rs : list Row)
  : list string :=
  map (fun r => PyPath.name (audio_path r))
      (filter (fun r => negb (wav_present wav_names r)) rs).

(** Number of rows of a table whose wav file is absent from [wavs/]. *)
Definition count_missing (wav_names : list string) (rs : list Row) : nat :=
  length (filter (fun r => negb (wav_present wav_names r)) rs).

(** Number of files a run copies for the rows [rs]. *)
Definition copied_in (wav_names : list string) (dry_run : bool)
    (rs : list Row) : nat :=
  if dry_run then 0%nat else length (filter (wav_present wav_names) rs).

(** A row of a shard written by pack, against the input row it comes from. *)
Definition packed (wav_names : list string) (r r' : Row) : Prop :=
  if wav_present wav_names r
  then exists audio_source speaker current_batch,
         r' = with_audio_path r
                (Pack.new_rel_of audio_source speaker current_batch
                                 (PyPath.name (audio_path r)))
  else r' = r.

(** What processing the rows [rs] adds to a state of pack: the events, with
    one shard row per input row, and the counters. *)
Definition extends (wav_names : list string) (dry_run : bool)
    (rs : list Row) (s s' : Pack.State) : Prop :=
  (exists ev,
      Pack.log s' = Pack.log s ++ ev
      /\ list_sum (map snd (Log.shard_plan ev)) = length rs
      /\ (dry_run = false -> Forall2 (packed wav_names) rs (Log.saved_rows ev))
      /\ Log.warnings ev = missing_names wav_names rs
      /\ length (Log.copy_plan ev)
         = (length rs - count_missing wav_names rs)%nat
      /\ (dry_run = true -> Log.mutations ev = []))
  /\ Pack.skipped s' = (Pack.skipped s + count_missing wav_names rs)%nat
  /\ Pack.moved s' = (Pack.moved s + copied_in wav_names dry_run rs)%nat
  /\ (dry_run = true -> Pack.tree s' = Pack.tree s).

(** The row test of one group of [groupby]. *)
Definition has_key (k : Pack.key) (r : Row) : bool :=
  Pack.key_eqb (Pack.key_of r) k.

(** A group that the chunking of pack covers exactly. *)
Definition chunkable (exact_batch : option string) (max_rows : Z)
    (g : Pack.key * list Row) : Prop :=
  exists cs, Pack.chunks exact_batch max_rows (snd g) = Some cs
             /\ concat cs = snd g.

(** The files of [metadata/] after the [to_parquet] calls [l] on the
    files [m]. *)
Definition replay_saved (l m : list (string * DataFrame))
  : list (string * DataFrame) :=
  fold_left (fun m x => FS.put (fst x) (snd x) m) l m.

(** A real run of pack from [s] to [s']: [metadata/] holds what the logged
    writes leave there, and every file written is named *.parquet. *)
Definition writes (s s' : Pack.State) : Prop :=
  exists ev,
    Pack.log s' = Pack.log s ++ ev
    /\ (forall m, metadata (Pack.tree s) = Some m ->
                  metadata (Pack.tree s')
                  = Some (replay_saved (Log.saved ev) m))
    /\ Forall (fun x => PyStr.endswith (fst x) ".parquet" = true)
              (Log.saved ev).

(** The state in which a chunk leaves pack when its shard is written (or,
    in a dry run, announced). *)
Definition chunk_done (cols : list string) (wav_names : list string)
    (audio_source speaker : string) (exact_batch : option string)
    (start_batch_num : Z) (dry_run : bool)
    (s : Pack.State) (ic : nat * list Row) : Pack.State :=
  let idx := fst ic in
  let chunk := snd ic in
  let current_batch := Pack.batch_label exact_batch start_batch_num idx in
  let a := fold_left
             (Pack.pack_row wav_names audio_source speaker current_batch
                            dry_run)
             chunk (Pack.mkAcc s [] 0) in
  let s1 := Pack.st a in
  let moved1 := (Pack.moved s1 + Pack.chunk_moved a)%nat in
  let chunk_copy :=
    mkFrame cols (assign_audio_path chunk (Pack.new_audio_paths a)) in
  let parquet_name :=
    Pack.parquet_name_of audio_source speaker current_batch in
  if dry_run then
    Pack.mkState (Pack.tree s1)
                 (Pack.log s1
                  ++ [DryMetadata parquet_name (length (rows chunk_copy))])
                 moved1 (Pack.skipped s1)
  else
    Pack.mkState (FS.put_shard parquet_name chunk_copy (Pack.tree s1))
                 (Pack.log s1 ++ [Saved parquet_name chunk_copy])
                 moved1 (Pack.skipped s1).

(** The state in which a chunk leaves pack when its shard cannot be
    written: the rows were handled, the shard was not. *)
Definition chunk_failed (wav_names : list string)
    (audio_source speaker : string) (exact_batch : option string)
    (start_batch_num : Z) (s : Pack.State) (ic : nat * list Row)
  : Pack.State :=
  let a := fold_left
             (Pack.pack_row wav_names audio_source speaker
                (Pack.batch_label exact_batch start_batch_num (fst ic)) false)
             (snd ic) (Pack.mkAcc s [] 0) in
  Pack.mkState (Pack.tree (Pack.st a)) (Pack.log (Pack.st a))
               (Pack.moved (Pack.st a) + Pack.chunk_moved a)%nat
               (Pack.skipped (Pack.st a)).

(** The label of the run leaves the shard names without a slash: it is
    automatic, or given without a slash. *)
Definition slash_free (exact_batch : option string) : bool :=
  match exact_batch with
  | Some b => negb (truthy exact_batch && PyStr.contains b "/")
  | None => true
  end.

(** The rows of a table that [groupby] keeps. *)
Definition keyed (rs : list Row) : list Row := filter Pack.has_keys rs.

(** Unpack: the flat path of a row and whether its source file exists. *)
Definition flat_path (dataset_dir : string) (r : Row) : string :=
  ("wavs/" ++ PyPath.join_name dataset_dir (audio_path r))%string.

Definition src_present (dataset : Tree) (r : Row) : bool :=
  FS.path_exists dataset (PyPath.parts (audio_path r)).

Definition count_absent (dataset : Tree) (rs : list Row) : nat :=
  length (filter (fun r => negb (src_present dataset r)) rs).

(** The destination of a row's file below the flat root. *)
Definition flat_dest (dataset_dir : string) (r : Row) : list string :=
  ["wavs"] ++ PyPath.parts (PyPath.join_name dataset_dir (audio_path r)).

(** What unpack logs for one row. *)
Definition unpack_row_events (dataset : Tree) (dataset_dir : string)
    (dry_run : bool) (r : Row) : list event :=
  let dest := flat_dest dataset_dir r in
  if src_present dataset r then
    if dry_run then [DryCopy (audio_path r) dest]
    else [Mkdir ["wavs"]; Copy (audio_path r) dest]
  else [Warn (audio_path r)].

(** The copies unpack plans for the rows [rs]. *)
Definition flat_copies (dataset : Tree) (dataset_dir : string)
    (rs : list Row) : list (string * list string) :=
  map (fun r => (audio_path r, flat_dest dataset_dir r))
      (filter (src_present dataset) rs).

End Plan.

(** ** Shapes of strings and trees used in statements *)

Module Shape.

Definition chars (s : string) : list ascii := list_ascii_of_string s.

(** No white space at the start, resp. at the end. *)
Definition starts_clean (s : string) : bool :=
  match s with
  | EmptyString => true
  | String c _ => negb (PyStr.is_space c)
  end.

Fixpoint ends_clean (s : string) : bool :=
  match s with
  | EmptyString => true
  | String c EmptyString => negb (PyStr.is_space c)
  | String _ r => ends_clean r
  end.

Definition is_upper (c : ascii) : bool :=
  let n := nat_of_ascii c in ((65 <=? n)%nat && (n <=? 90)%nat).

(** The largest number among directory entries, as the loop of
    [get_next_batch_num] accumulates it. *)
Definition max_num (l : list (string * bool)) : Z :=
  fold_left Pack.batch_step l 0%Z.

(** The directory whose entries [get_next_batch_num] lists. *)
Definition speaker_dir (audio_source speaker : string) : list string :=
  ["audio"] ++ PyPath.parts audio_source ++ PyPath.parts speaker.

(** The entry of [p.iterdir()] that a directory path, resp. a file path,
    of the tree gives rise to. *)
Definition dir_entry (p d : list string) : list (string * bool) :=
  match FS.strip_prefix p d with
  | Some (n :: _) => [(n, true)]
  | _ => []
  end.

Definition file_entry (p f : list string) : list (string * bool) :=
  match FS.strip_prefix p f with
  | Some [n] => [(n, false)]
  | Some (n :: _) => [(n, true)]
  | _ => []
  end.

(** Every path of [t] is a path of [t']: [t'] is [t] with more directories
    and files. *)
Definition grows (t t' : Tree) : Prop :=
  incl (FS.dir_paths t) (FS.dir_paths t')
  /\ incl (FS.file_paths t) (FS.file_paths t').

(** Every entry of the directory [p] in [t'] that [t] does not have is
    named [B]. *)
Definition labelled (p : list string) (B : string) (t t' : Tree) : Prop :=
  forall f, In f (FS.iterdir t' p) -> In f (FS.iterdir t p) \/ fst f = B.

(** A row of a shard that can be followed: its audio_path names a regular
    file of the tree [t], or the row is a row of the table [rs] whose wav
    file is absent from [wavs/]. *)
Definition resolves (wav_names : list string) (rs : list Row) (t : Tree)
    (r' : Row) : Prop :=
  In (PyPath.parts (audio_path r')) (FS.file_paths t)
  \/ (In r' rs /\ Plan.wav_present wav_names r' = false).

(** The value that the writes [l], replayed in order, leave under the
    name [k] when it held [d] before. *)
Fixpoint last_value {A} (l : list (string * A)) (k : string) (d : A) : A :=
  match l with
  | [] => d
  | (k', v') :: l' => last_value l' k (if String.eqb k k' then v' else d)
  end.

(** The flat output has the file [wavs/n]. *)
Definition has_wav (o : Flat) (n : string) : Prop :=
  match flat_wavs o with
  | Some l => In n l
  | None => False
  end.

End Shape.

(** ** Small datasets for the examples *)

Module Examples.

Definition header : list string := ["audio_path"; "speaker"; "audio_source"].









Definition empty_tree : Tree := mkTree None [] [].

(** A partitioned dataset of one shard with two rows; only a.wav is in the
    tree. *)
Definition shard : DataFrame :=
  mkFrame header
    [mkRow "audio/yt/bob/batch_0001/a.wav" "bob" "yt" [];
     mkRow "audio/yt/bob/batch_0001/gone.wav" "bob" "yt" []].

Definition dataset : Tree :=
  mkTree (Some [("yt_bob_batch_0001.parquet", shard)])
         [["audio"; "yt"; "bob"; "batch_0001"]]
         [["audio"; "yt"; "bob"; "batch_0001"; "a.wav"]].

Definition empty_flat : Flat := mkFlat false None None.

End Examples.

(** * Properties *)

(** ** The primitives on examples *)

Example split_ex : PyStr.split "_" "batch_2026_01" = ["batch"; "2026"; "01"].
Proof. reflexivity. Qed.
Example int_ex1 : PyStr.int "0007" = Some 7%Z. Proof. reflexivity. Qed.
Example int_ex2 : PyStr.int "final" = None. Proof. reflexivity. Qed.
Example int_ex3 : PyStr.int "" = None. Proof. reflexivity. Qed.
Example int_ex4 : PyStr.int " -12 " = Some (-12)%Z. Proof. reflexivity. Qed.
Example fmt_ex1 : PyStr.format_04d 7 = "0007". Proof. reflexivity. Qed.
Example fmt_ex2 : PyStr.format_04d 12345 = "12345". Proof. reflexivity. Qed.
Example name_ex1 : PyPath.name "wavs/a.wav" = "a.wav". Proof. reflexivity. Qed.
Example name_ex2 : PyPath.name "." = "". Proof. reflexivity. Qed.
Example name_ex3 : PyPath.name "a//b/" = "b". Proof. reflexivity. Qed.
Example strip_ex : PyStr.strip "  a b  " = "a b". Proof. reflexivity. Qed.
Example ends_ex : PyStr.endswith "x.parquet" ".parquet" = true.
Proof. reflexivity. Qed.

(** ** Strings *)

Section StringFacts.

Lemma prefix_iff_append (p s : string) :
  String.prefix p s = true <-> exists post, s = (p ++ post)%string.
Proof.
  revert s; induction p as [|c p IH]; intros s; simpl.
  - split; [intros _; exists s; reflexivity | destruct s; reflexivity].
  - destruct s as [|d s]; simpl.
    + split; [discriminate | intros [post H]; discriminate].
    + destruct (Ascii.ascii_dec c d) as [Hcd|Hcd].
      * subst d. rewrite IH. split; intros [post H]; exists post.
        -- now rewrite H.
        -- now inversion H.
      * split; [discriminate | intros [post H]; inversion H; congruence].
Qed.

Lemma contains_iff_infix (s sub : string) :
  PyStr.contains s sub = true <->
  exists pre post, s = (pre ++ sub ++ post)%string.
Proof.
  induction s as [|c s IH]; cbn [PyStr.contains].
  - rewrite orb_false_r, prefix_iff_append. split.
    + intros [post H]. exists EmptyString, post. exact H.
    + intros [pre [post H]]. destruct pre; simpl in H.
      * exists post; exact H.
      * discriminate.
  - rewrite orb_true_iff, IH, prefix_iff_append. split.
    + intros [[post H] | [pre [post H]]].
      * exists EmptyString, post. exact H.
      * exists (String c pre), post. simpl. now rewrite H.
    + intros [pre [post H]]. destruct pre as [|d pre]; simpl in H.
      * left. exists post. exact H.
      * right. exists pre, post. now inversion H.
Qed.

End StringFacts.

(** ** Filter engine of unpack *)

Section Filters.

Variables (speaker_f audio_source_f batch_f : option string).

Lemma filter_rows_eq (rs : list Row) :
  Unpack.filter_rows rs speaker_f audio_source_f batch_f =
  filter (fun r =>
            (negb (truthy speaker_f)
               || Unpack.speaker_matches (Unpack.arg speaker_f) r)
            && (negb (truthy audio_source_f)
               || Unpack.audio_source_matches (Unpack.arg audio_source_f) r)
            && (negb (truthy batch_f)
               || Unpack.batch_matches (Unpack.arg batch_f) r)) rs.
Proof.
  unfold Unpack.filter_rows.
  destruct (truthy speaker_f), (truthy audio_source_f), (truthy batch_f);
    simpl;
    induction rs as [|r rs IH]; simpl; try reflexivity;
    repeat match goal with
           | |- context [if ?b then _ else _] => destruct b eqn:?; simpl
           end;
    try rewrite IH; try reflexivity; try congruence.
Qed.

End Filters.

Lemma filter_rows_In (speaker_f audio_source_f batch_f : option string)
    (rs : list Row) (r : Row) :
  In r (Unpack.filter_rows rs speaker_f audio_source_f batch_f) <->
  In r rs
  /\ (truthy speaker_f = true ->
      PyStr.lower (speaker r) = PyStr.lower (Unpack.arg speaker_f))
  /\ (truthy audio_source_f = true ->
      PyStr.lower (audio_source r) = PyStr.lower (Unpack.arg audio_source_f))
  /\ (truthy batch_f = true ->
      exists pre post,
        audio_path r = (pre ++ ("/" ++ Unpack.arg batch_f ++ "/") ++ post)%string).
Proof.
  rewrite filter_rows_eq, filter_In, !andb_true_iff, !orb_true_iff,
          !negb_true_iff.
  unfold Unpack.speaker_matches, Unpack.audio_source_matches,
         Unpack.batch_matches.
  rewrite !String.eqb_eq, contains_iff_infix.
  destruct (truthy speaker_f), (truthy audio_source_f), (truthy batch_f);
    intuition congruence.
Qed.

(** C5. The filter engine of unpack keeps a row iff every predicate that is
    given holds for it: speaker and audio_source equal to their filters up
    to case, and "/" + batch + "/" occurring in audio_path.  [apply_filters]
    returns exactly the kept rows, or exits when none is kept.  Filtering
    with batch_0002 keeps the row below /batch_0002/ and drops the one below
    /batch_0020/; adding filters only removes rows. *)
Theorem C5_filters_are_conjoined :
  forall (df : DataFrame) (speaker_f audio_source_f batch_f : option string),
    (forall r,
        In r (Unpack.filter_rows (rows df) speaker_f audio_source_f batch_f) <->
        In r (rows df)
        /\ (truthy speaker_f = true ->
            PyStr.lower (speaker r) = PyStr.lower (Unpack.arg speaker_f))
        /\ (truthy audio_source_f = true ->
            PyStr.lower (audio_source r)
            = PyStr.lower (Unpack.arg audio_source_f))
        /\ (truthy batch_f = true ->
            exists pre post,
              audio_path r
              = (pre ++ ("/" ++ Unpack.arg batch_f ++ "/") ++ post)%string))
    /\ fst (Unpack.apply_filters df speaker_f audio_source_f batch_f)
       = match Unpack.filter_rows (rows df) speaker_f audio_source_f batch_f with
         | [] => Exit "[ERROR] No rows match the specified filters. Aborting."
         | kept => Ok (mkFrame (columns df) kept)
         end
    /\ Unpack.filter_rows
         [mkRow "audio/yt/bob/batch_0002/a.wav" "bob" "yt" [];
          mkRow "audio/yt/bob/batch_0020/b.wav" "bob" "yt" []]
         None None (Some "batch_0002")
       = [mkRow "audio/yt/bob/batch_0002/a.wav" "bob" "yt" []]
    /\ incl (Unpack.filter_rows (rows df) speaker_f audio_source_f batch_f)
            (Unpack.filter_rows (rows df) speaker_f None None)
    /\ incl (Unpack.filter_rows (rows df) speaker_f audio_source_f batch_f)
            (Unpack.filter_rows (rows df) None audio_source_f None)
    /\ incl (Unpack.filter_rows (rows df) speaker_f audio_source_f batch_f)
            (Unpack.filter_rows (rows df) None None batch_f).
Proof.
  intros df sf af bf. split; [|split; [|split; [|repeat split]]].
  - intros r. apply filter_rows_In.
  - unfold Unpack.apply_filters.
    destruct (Unpack.filter_rows (rows df) sf af bf); reflexivity.
  - reflexivity.
  - intros r. rewrite !filter_rows_In. simpl. intuition discriminate.
  - intros r. rewrite !filter_rows_In. simpl. intuition discriminate.
  - intros r. rewrite !filter_rows_In. simpl. intuition discriminate.
Qed.

(** ** Pre-flight checks *)

Section Preflight.

Lemma existsb_eqb_In (c : string) (l : list string) :
  existsb (String.eqb c) l = true <-> In c l.
Proof.
  rewrite existsb_exists. split.
  - intros [x [Hx He]]. apply String.eqb_eq in He. now subst.
  - intros H. exists c. split; [exact H | apply String.eqb_refl].
Qed.

Lemma columns_check (cols : list string) :
  forallb (fun c => existsb (String.eqb c) cols) Pack.required = true <->
  (forall c, In c Pack.required -> In c cols).
Proof.
  rewrite forallb_forall. split; intros H c Hc.
  - apply existsb_eqb_In. now apply H.
  - apply existsb_eqb_In. now apply H.
Qed.

Lemma load_metadata_ok (src : Source) (df : DataFrame) :
  metadata_csv src = Some df ->
  (forall c, In c Pack.required -> In c (columns df)) ->
  Pack.load_metadata src = Ok df.
Proof.
  intros Hcsv Hcols. unfold Pack.load_metadata. rewrite Hcsv.
  apply columns_check in Hcols. now rewrite Hcols.
Qed.

Lemma load_metadata_exits (src : Source) :
  metadata_csv src = None
  \/ (exists df c, metadata_csv src = Some df
                   /\ In c Pack.required /\ ~ In c (columns df)) ->
  exists msg, Pack.load_metadata src = Exit msg.
Proof.
  unfold Pack.load_metadata. intros [H | [df [c [H [Hc Hn]]]]]; rewrite H.
  - eexists; reflexivity.
  - destruct (forallb _ Pack.required) eqn:E.
    + exfalso. apply Hn. now apply (proj1 (columns_check _) E).
    + eexists; reflexivity.
Qed.

End Preflight.

(** C7. The fatal errors are pre-flight.  Pack exits, with a non-zero
    status, when metadata.csv is missing, a required column is missing or
    wavs/ is not a directory; unpack exits when metadata/ is missing, holds
    no shard, or no row passes the filters.  In each case the run has made
    no mkdir, copy or write, and the output is what it was. *)
Theorem C7_fatal_errors_precede_mutation :
  (forall (src : Source) (out : Tree) (exact_batch : option string)
          (max_rows : Z) (dry_run : bool),
      metadata_csv src = None
      \/ (exists df c, metadata_csv src = Some df
                       /\ In c Pack.required /\ ~ In c (columns df))
      \/ wavs src = None ->
      exists msg,
        Pack.pack src out exact_batch max_rows dry_run
        = (SysExit msg, Pack.mkState out [] 0 0)
        /\ exit_status (SysExit msg) <> 0%Z)
  /\
  (forall (dataset : Tree) (dataset_dir : string) (out : Flat)
          (speaker_f audio_source_f batch_f : option string) (dry_run : bool),
      metadata dataset = None
      \/ (exists meta, metadata dataset = Some meta
                       /\ Unpack.parquet_files meta = [])
      \/ (exists meta, metadata dataset = Some meta
                       /\ Unpack.filter_rows
                            (rows (Unpack.concat_frames
                                     (map snd (Unpack.parquet_files meta))))
                            speaker_f audio_source_f batch_f = []) ->
      exists msg l,
        Unpack.unpack dataset dataset_dir out speaker_f audio_source_f batch_f
                      dry_run
        = (SysExit msg, Unpack.mkState out l 0 0 [])
        /\ Log.mutations l = []
        /\ exit_status (SysExit msg) <> 0%Z).
Proof.
  split.
  - intros src out eb mr dry H. unfold Pack.pack.
    destruct (Pack.load_metadata src) as [df|msg] eqn:L.
    + destruct H as [H | [H | H]].
      * destruct (load_metadata_exits src (or_introl H)) as [m Hm]. congruence.
      * destruct (load_metadata_exits src (or_intror H)) as [m Hm]. congruence.
      * rewrite H. eexists. split; [reflexivity | discriminate].
    + eexists. split; [reflexivity | discriminate].
  - intros dataset dir out sf af bf dry H. unfold Unpack.unpack.
    destruct (metadata dataset) as [meta|] eqn:M.
    + unfold Unpack.load_all_metadata.
      destruct (Unpack.parquet_files meta) as [|f fs] eqn:P.
      * do 2 eexists. split; [reflexivity | split; [reflexivity | discriminate]].
      * destruct H as [H | [[m [Hm H]] | [m [Hm H]]]]; try discriminate.
        -- congruence.
        -- assert (m = meta) by congruence. subst m. rewrite P in H.
           unfold Unpack.apply_filters. rewrite H.
           do 2 eexists. split; [reflexivity | split; [reflexivity | discriminate]].
    + do 2 eexists. split; [reflexivity | split; [reflexivity | discriminate]].
Qed.

(** C7 at a source without metadata.csv and a dataset whose metadata/ is
    empty. *)
Lemma C7_witness :
  (exists msg,
      Pack.pack (mkSource None (Some ["a.wav"])) (mkTree None [] []) None
                10000 false
      = (SysExit msg, Pack.mkState (mkTree None [] []) [] 0 0)
      /\ exit_status (SysExit msg) <> 0%Z)
  /\
  (exists msg l,
      Unpack.unpack (mkTree (Some []) [] []) "/data/ds" (mkFlat false None None)
                    None None None false
      = (SysExit msg, Unpack.mkState (mkFlat false None None) l 0 0 [])
      /\ Log.mutations l = []
      /\ exit_status (SysExit msg) <> 0%Z).
Proof.
  split.
  - apply (proj1 C7_fatal_errors_precede_mutation). left. reflexivity.
  - apply (proj2 C7_fatal_errors_precede_mutation). right. left.
    exists []. split; reflexivity.
Defined.

(** ** Chunking *)

Section Chunking.

Variable group_df : list Row.
Variable m : nat.
Hypothesis m_pos : (0 < m)%nat.

Local Abbreviation n := (length group_df).

Lemma slice_step (j : nat) :
  Pack.slice group_df j (j + m) = firstn m (skipn j group_df).
Proof. unfold Pack.slice. now replace (j + m - j)%nat with m by lia. Qed.

Lemma range_from_nth (fuel i k j : nat) :
  nth_error (Pack.range_from fuel i n m) k = Some j ->
  j = (i + k * m)%nat /\ (j < n)%nat.
Proof.
  revert i k. induction fuel as [|fuel IH]; intros i k; simpl.
  - destruct k; discriminate.
  - destruct (i <? n)%nat eqn:E.
    + destruct k as [|k]; simpl.
      * intros H. inversion H. subst. apply Nat.ltb_lt in E. lia.
      * intros H. apply IH in H. lia.
    + destruct k; discriminate.
Qed.

Lemma range_from_concat (fuel i : nat) :
  (n - i <= fuel)%nat ->
  concat (map (fun j => Pack.slice group_df j (j + m))
              (Pack.range_from fuel i n m))
  = skipn i group_df.
Proof.
  revert i. induction fuel as [|fuel IH]; intros i Hf; simpl.
  - symmetry. apply skipn_all2. lia.
  - destruct (i <? n)%nat eqn:E; simpl.
    + rewrite IH by (apply Nat.ltb_lt in E; lia).
      rewrite slice_step, Nat.add_comm, <- skipn_skipn.
      apply firstn_skipn.
    + apply Nat.ltb_ge in E. symmetry. apply skipn_all2. lia.
Qed.

Lemma range_from_length_bound (fuel i k : nat) :
  (S k < length (Pack.range_from fuel i n m))%nat ->
  (i + S k * m < n)%nat.
Proof.
  intros H.
  destruct (nth_error (Pack.range_from fuel i n m) (S k)) as [j|] eqn:E.
  - apply range_from_nth in E. lia.
  - apply nth_error_None in E. lia.
Qed.

Lemma slice_length (j : nat) :
  length (Pack.slice group_df j (j + m)) = Nat.min m (n - j).
Proof. now rewrite slice_step, length_firstn, length_skipn. Qed.

End Chunking.

Lemma chunks_auto (group_df : list Row) (max_rows : Z) (exact_batch : option string) :
  (0 < max_rows)%Z -> truthy exact_batch = false ->
  exists cs,
    Pack.chunks exact_batch max_rows group_df = Some cs
    /\ concat cs = group_df
    /\ (forall i c, nth_error cs i = Some c ->
          (0 < length c <= Z.to_nat max_rows)%nat
          /\ (S i < length cs -> length c = Z.to_nat max_rows)).
Proof.
  intros Hpos Hf. unfold Pack.chunks, Pack.range0. rewrite Hf.
  destruct (Z.eqb_spec max_rows 0); [lia|].
  destruct (Z.ltb_spec max_rows 0); [lia|].
  assert (Hm : (0 < Z.to_nat max_rows)%nat) by lia.
  eexists. split; [reflexivity|]. split.
  - rewrite range_from_concat by (assumption || lia). reflexivity.
  - intros i c Hc. rewrite nth_error_map in Hc.
    destruct (nth_error _ i) as [j|] eqn:E; [|discriminate].
    simpl in Hc. inversion Hc; subst c; clear Hc.
    pose proof E as E'. apply range_from_nth in E'; [|exact Hm].
    destruct E' as [Hj Hlt].
    rewrite slice_length by assumption. split; [lia|].
    intros Hlen. rewrite length_map in Hlen.
    apply range_from_length_bound in Hlen; [|exact Hm]. simpl in Hj. nia.
Qed.

Lemma chunks_explicit (group_df : list Row) (max_rows : Z) (exact_batch : option string) :
  truthy exact_batch = true ->
  Pack.chunks exact_batch max_rows group_df = Some [group_df].
Proof. intros H. unfold Pack.chunks. now rewrite H. Qed.

(** ** Characters of sanitised names and batch labels *)

Section Sanitise.

Lemma chars_map (f : ascii -> ascii) (s : string) :
  Shape.chars (PyStr.map_chars f s) = map f (Shape.chars s).
Proof.
  unfold Shape.chars. induction s as [|c s IH]; simpl; [reflexivity|].
  now rewrite IH.
Qed.

Lemma map_chars_id (f : ascii -> ascii) (s : string) :
  (forall c, In c (Shape.chars s) -> f c = c) -> PyStr.map_chars f s = s.
Proof.
  unfold Shape.chars. induction s as [|c s IH]; simpl; intros H; [reflexivity|].
  rewrite H by now left. rewrite IH; [reflexivity|]. intros d Hd. apply H.
  now right.
Qed.

Lemma lower_ascii_idem (c : ascii) :
  PyStr.lower_ascii (PyStr.lower_ascii c) = PyStr.lower_ascii c.
Proof.
  destruct c as [b0 b1 b2 b3 b4 b5 b6 b7];
    destruct b0, b1, b2, b3, b4, b5, b6, b7; reflexivity.
Qed.

Lemma lower_ascii_not_upper (c : ascii) :
  Shape.is_upper (PyStr.lower_ascii c) = false.
Proof.
  destruct c as [b0 b1 b2 b3 b4 b5 b6 b7];
    destruct b0, b1, b2, b3, b4, b5, b6, b7; reflexivity.
Qed.

Lemma lower_ascii_space (c : ascii) :
  PyStr.is_space (PyStr.lower_ascii c) = PyStr.is_space c.
Proof.
  destruct c as [b0 b1 b2 b3 b4 b5 b6 b7];
    destruct b0, b1, b2, b3, b4, b5, b6, b7; reflexivity.
Qed.

Lemma not_upper_fixed (c : ascii) :
  Shape.is_upper c = false -> PyStr.lower_ascii c = c.
Proof.
  unfold Shape.is_upper, PyStr.lower_ascii. intros H. now rewrite H.
Qed.

Lemma lstrip_clean (s : string) : Shape.starts_clean (PyStr.lstrip s) = true.
Proof.
  induction s as [|c s IH]; simpl; [reflexivity|].
  destruct (PyStr.is_space c) eqn:E; [exact IH|]. simpl. now rewrite E.
Qed.

Lemma lstrip_fixed (s : string) :
  Shape.starts_clean s = true -> PyStr.lstrip s = s.
Proof.
  destruct s as [|c s]; simpl; [reflexivity|].
  intros H. apply negb_true_iff in H. now rewrite H.
Qed.

Lemma rstrip_clean (s : string) : Shape.ends_clean (PyStr.rstrip s) = true.
Proof.
  induction s as [|c s IH]; simpl; [reflexivity|].
  destruct (PyStr.rstrip s) as [|d r] eqn:E.
  - destruct (PyStr.is_space c) eqn:Ec; simpl; [reflexivity | now rewrite Ec].
  - exact IH.
Qed.

Lemma rstrip_fixed (s : string) :
  Shape.ends_clean s = true -> PyStr.rstrip s = s.
Proof.
  induction s as [|c s IH]; [reflexivity|].
  destruct s as [|d r].
  - simpl. intros H. apply negb_true_iff in H. now rewrite H.
  - intros H. change (Shape.ends_clean (String d r) = true) in H.
    cbn [PyStr.rstrip]. cbn [PyStr.rstrip] in IH. rewrite (IH H).
    reflexivity.
Qed.

Lemma rstrip_keeps_start (s : string) :
  Shape.starts_clean s = true -> Shape.starts_clean (PyStr.rstrip s) = true.
Proof.
  destruct s as [|c s]; simpl; [reflexivity|]. intros H.
  destruct (PyStr.rstrip s); [|exact H].
  apply negb_true_iff in H. rewrite H. simpl. now rewrite H.
Qed.

Lemma strip_clean (s : string) :
  Shape.starts_clean (PyStr.strip s) = true
  /\ Shape.ends_clean (PyStr.strip s) = true.
Proof.
  unfold PyStr.strip. split.
  - apply rstrip_keeps_start, lstrip_clean.
  - apply rstrip_clean.
Qed.

Lemma strip_fixed (s : string) :
  Shape.starts_clean s = true -> Shape.ends_clean s = true ->
  PyStr.strip s = s.
Proof.
  intros H1 H2. unfold PyStr.strip. now rewrite lstrip_fixed, rstrip_fixed.
Qed.

Lemma map_chars_clean (f : ascii -> ascii) (s : string) :
  (forall c, PyStr.is_space (f c) = true -> PyStr.is_space c = true) ->
  (Shape.starts_clean s = true ->
   Shape.starts_clean (PyStr.map_chars f s) = true)
  /\ (Shape.ends_clean s = true ->
      Shape.ends_clean (PyStr.map_chars f s) = true).
Proof.
  intros Hf.
  assert (Hc : forall c, negb (PyStr.is_space c) = true ->
                         negb (PyStr.is_space (f c)) = true).
  { intros c H. apply negb_true_iff in H. apply negb_true_iff.
    destruct (PyStr.is_space (f c)) eqn:E; [|reflexivity].
    rewrite (Hf c E) in H. discriminate. }
  split.
  - destruct s as [|c s]; simpl; [reflexivity | apply Hc].
  - induction s as [|c s IH]; [reflexivity|].
    destruct s as [|d r]; [simpl; apply Hc|].
    intros H. change (Shape.ends_clean (String d r) = true) in H.
    cbn [PyStr.map_chars Shape.ends_clean].
    cbn [PyStr.map_chars] in IH. now apply IH.
Qed.

End Sanitise.

Section SanitiseChars.

Local Abbreviation under := (fun c : ascii => if Ascii.eqb c " " then "_"%char else c).
Local Abbreviation dash := (fun c : ascii => if Ascii.eqb c "/" then "-"%char else c).

Lemma sanitise_chars (v : string) :
  Shape.chars (Pack.sanitise v)
  = map dash (map under (map PyStr.lower_ascii (Shape.chars (PyStr.strip v)))).
Proof.
  unfold Pack.sanitise, PyStr.replace, PyStr.lower. now rewrite !chars_map.
Qed.

Lemma under_space (c : ascii) :
  PyStr.is_space (under c) = true -> PyStr.is_space c = true.
Proof.
  cbv beta. destruct (Ascii.eqb_spec c " ") as [->|]; [discriminate | auto].
Qed.

Lemma dash_space (c : ascii) :
  PyStr.is_space (dash c) = true -> PyStr.is_space c = true.
Proof.
  cbv beta. destruct (Ascii.eqb_spec c "/") as [->|]; [discriminate | auto].
Qed.

Lemma sanitise_char (v : string) (c : ascii) :
  In c (Shape.chars (Pack.sanitise v)) ->
  c <> "/"%char /\ c <> " "%char /\ Shape.is_upper c = false.
Proof.
  rewrite sanitise_chars. intros H.
  apply in_map_iff in H. destruct H as (x & <- & H).
  apply in_map_iff in H. destruct H as (y & <- & H).
  apply in_map_iff in H. destruct H as (z & <- & _). cbv beta.
  pose proof (lower_ascii_not_upper z) as Hu.
  destruct (Ascii.eqb_spec (PyStr.lower_ascii z) " ") as [E|E].
  - simpl. repeat split; discriminate.
  - destruct (Ascii.eqb_spec (PyStr.lower_ascii z) "/") as [E'|E'].
    + repeat split; discriminate.
    + repeat split; assumption.
Qed.

Lemma sanitise_clean (v : string) :
  Shape.starts_clean (Pack.sanitise v) = true
  /\ Shape.ends_clean (Pack.sanitise v) = true.
Proof.
  unfold Pack.sanitise, PyStr.replace, PyStr.lower.
  destruct (strip_clean v) as [H1 H2].
  split.
  - apply (map_chars_clean _ _ dash_space).
    apply (map_chars_clean _ _ under_space).
    apply (map_chars_clean PyStr.lower_ascii); [|exact H1].
    intros c. now rewrite lower_ascii_space.
  - apply (map_chars_clean _ _ dash_space).
    apply (map_chars_clean _ _ under_space).
    apply (map_chars_clean PyStr.lower_ascii); [|exact H2].
    intros c. now rewrite lower_ascii_space.
Qed.

End SanitiseChars.

(** ** Batch labels: formatting and reading back *)

Section Labels.

Ltac read_digit :=
  cbn [NilEmpty.string_of_uint Pos.of_uint_acc Pos.of_uint PyStr.digits_val];
  match goal with
  | |- context [PyStr.is_digit ?c] => change (PyStr.is_digit c) with true
  end;
  match goal with
  | |- context [PyStr.digit_val ?c] =>
      let v := eval vm_compute in (PyStr.digit_val c) in
      change (PyStr.digit_val c) with v
  end;
  cbv iota.

Lemma digits_val_acc (d : Decimal.uint) (acc : positive) :
  PyStr.digits_val (Z.pos acc) (NilEmpty.string_of_uint d)
  = Some (Z.pos (Pos.of_uint_acc d acc)).
Proof.
  revert acc. induction d; intros acc; [reflexivity|..];
    read_digit; rewrite <- IHd; f_equal; lia.
Qed.

Lemma digits_val_uint (d : Decimal.uint) :
  PyStr.digits_val 0 (NilEmpty.string_of_uint d)
  = Some (Z.of_N (Pos.of_uint d)).
Proof.
  induction d; [reflexivity | read_digit; exact IHd | ..];
    read_digit; cbn [Z.of_N]; rewrite <- digits_val_acc; f_equal.
Qed.

Lemma digits_val_of_N (n : N) :
  PyStr.digits_val 0 (PyStr.of_N n) = Some (Z.of_N n).
Proof.
  unfold PyStr.of_N, NilZero.string_of_uint.
  rewrite <- (DecimalN.Unsigned.of_to n) at 2. unfold N.of_uint.
  destruct (N.to_uint n) eqn:E; try apply digits_val_uint. reflexivity.
Qed.

Lemma digits_val_digits (s : string) (acc z : Z) :
  PyStr.digits_val acc s = Some z ->
  forall c, In c (Shape.chars s) -> PyStr.is_digit c = true.
Proof.
  unfold Shape.chars. revert acc. induction s as [|c s IH]; intros acc H d;
    simpl; [tauto|].
  simpl in H. destruct (PyStr.is_digit c) eqn:E; [|discriminate].
  intros [<-|Hd]; [exact E | eapply IH; eassumption].
Qed.

Lemma digits_val_zeros (k : nat) (s : string) :
  PyStr.digits_val 0 (PyStr.zeros k ++ s)%string = PyStr.digits_val 0 s.
Proof. induction k as [|k IH]; simpl; [reflexivity | exact IH]. Qed.

Lemma of_N_nonempty (n : N) : PyStr.of_N n <> EmptyString.
Proof.
  unfold PyStr.of_N, NilZero.string_of_uint.
  destruct (N.to_uint n); discriminate.
Qed.

Lemma zfill_value (w : nat) (n : N) :
  PyStr.unsigned_int (PyStr.zfill w (PyStr.of_N n)) = Some (Z.of_N n).
Proof.
  unfold PyStr.unsigned_int, PyStr.zfill.
  destruct (PyStr.zeros _ ++ PyStr.of_N n)%string eqn:E.
  - exfalso. destruct (PyStr.zeros _); simpl in E; [|discriminate].
    now apply (of_N_nonempty n).
  - rewrite <- E. rewrite digits_val_zeros. apply digits_val_of_N.
Qed.

Lemma zfill_digits (w : nat) (n : N) (c : ascii) :
  In c (Shape.chars (PyStr.zfill w (PyStr.of_N n))) -> PyStr.is_digit c = true.
Proof.
  apply (digits_val_digits _ 0%Z (Z.of_N n)).
  unfold PyStr.zfill. rewrite digits_val_zeros. apply digits_val_of_N.
Qed.

Lemma digit_facts (c : ascii) :
  PyStr.is_digit c = true ->
  PyStr.is_space c = false /\ c <> "-"%char /\ c <> "+"%char
  /\ c <> "_"%char /\ c <> "/"%char.
Proof.
  destruct c as [b0 b1 b2 b3 b4 b5 b6 b7];
    destruct b0, b1, b2, b3, b4, b5, b6, b7; intros H;
    try discriminate H; repeat split; discriminate.
Qed.

Lemma clean_when_no_space (s : string) :
  (forall c, In c (Shape.chars s) -> PyStr.is_space c = false) ->
  Shape.starts_clean s = true /\ Shape.ends_clean s = true.
Proof.
  unfold Shape.chars. intros H. split.
  - destruct s as [|c s]; [reflexivity|]. simpl.
    now rewrite (H c) by now left.
  - induction s as [|c s IH]; [reflexivity|].
    destruct s as [|d r].
    + simpl. now rewrite (H c) by now left.
    + change (Shape.ends_clean (String d r) = true). apply IH.
      intros e He. apply H. now right.
Qed.

Lemma format_04d_chars (z : Z) (c : ascii) :
  In c (Shape.chars (PyStr.format_04d z)) ->
  PyStr.is_digit c = true \/ c = "-"%char.
Proof.
  unfold PyStr.format_04d. destruct (z <? 0)%Z.
  - unfold Shape.chars. simpl. intros [<-|H]; [now right|].
    left. now apply zfill_digits in H.
  - intros H. left. now apply zfill_digits in H.
Qed.

Lemma int_of_format (z : Z) : PyStr.int (PyStr.format_04d z) = Some z.
Proof.
  assert (Hclean : PyStr.strip (PyStr.format_04d z) = PyStr.format_04d z).
  { destruct (clean_when_no_space (PyStr.format_04d z)) as [H1 H2].
    - intros c Hc. apply format_04d_chars in Hc.
      destruct Hc as [Hc| ->]; [now apply digit_facts in Hc | reflexivity].
    - now apply strip_fixed. }
  unfold PyStr.int. rewrite Hclean. unfold PyStr.format_04d.
  destruct (Z.ltb_spec z 0).
  - rewrite zfill_value. simpl. f_equal. lia.
  - pose proof (zfill_value 4 (Z.to_N z)) as Hv.
    pose proof (zfill_digits 4 (Z.to_N z)) as Hd.
    destruct (PyStr.zfill 4 (PyStr.of_N (Z.to_N z))) as [|c r] eqn:E;
      [discriminate Hv|].
    assert (Hc : PyStr.is_digit c = true) by (apply Hd; now left).
    apply digit_facts in Hc. destruct Hc as (_ & Hm & Hp & _).
    replace (Z.of_N (Z.to_N z)) with z in Hv by lia.
    destruct c as [b0 b1 b2 b3 b4 b5 b6 b7];
      destruct b0, b1, b2, b3, b4, b5, b6, b7;
      try exact Hv; congruence.
Qed.

End Labels.

Lemma label_chars (z : Z) (c : ascii) :
  In c (Shape.chars ("batch_" ++ PyStr.format_04d z)%string) ->
  c <> "/"%char.
Proof.
  unfold Shape.chars. simpl.
  intros [<-|[<-|[<-|[<-|[<-|[<-|H]]]]]]; try discriminate.
  apply format_04d_chars in H. destruct H as [H| ->]; [|discriminate].
  now apply digit_facts in H.
Qed.

(** ** Shard names without a slash *)

Section ShardNames.

Lemma chars_app (a b : string) :
  Shape.chars (a ++ b)%string = Shape.chars a ++ Shape.chars b.
Proof.
  unfold Shape.chars. induction a as [|c a IH]; simpl; [reflexivity|].
  now rewrite IH.
Qed.

Lemma contains_char (s : string) (c : ascii) :
  PyStr.contains s (String c EmptyString) = true <-> In c (Shape.chars s).
Proof.
  rewrite contains_iff_infix. split.
  - intros [pre [post ->]]. rewrite chars_app. apply in_or_app. right.
    now left.
  - unfold Shape.chars. induction s as [|x s IH]; simpl; [intros []|].
    intros [->|H].
    + exists EmptyString, s. reflexivity.
    + destruct (IH H) as [pre [post ->]]. now exists (String x pre), post.
Qed.

Lemma no_slash_contains (s : string) :
  ~ In "/"%char (Shape.chars s) -> PyStr.contains s "/" = false.
Proof.
  intros H. destruct (PyStr.contains s "/") eqn:E; [|reflexivity].
  now apply contains_char in E.
Qed.

Lemma sanitise_no_slash (v : string) :
  ~ In "/"%char (Shape.chars (Pack.sanitise v)).
Proof.
  intros H. apply sanitise_char in H. destruct H as (H & _). congruence.
Qed.

Lemma label_no_slash (exact_batch : option string) (start : Z) (idx : nat) :
  Plan.slash_free exact_batch = true ->
  ~ In "/"%char (Shape.chars (Pack.batch_label exact_batch start idx)).
Proof.
  unfold Plan.slash_free, Pack.batch_label.
  destruct (truthy exact_batch) eqn:T.
  - destruct exact_batch as [b|]; [|discriminate]. cbn [andb].
    intros H Hin. apply contains_char in Hin.
    change (String "/" EmptyString) with "/"%string in Hin.
    rewrite Hin in H. discriminate.
  - intros _ Hin. now apply label_chars in Hin.
Qed.

Lemma slash_free_auto (exact_batch : option string) :
  truthy exact_batch = false -> Plan.slash_free exact_batch = true.
Proof.
  intros H. unfold Plan.slash_free. destruct exact_batch; [|reflexivity].
  now rewrite H.
Qed.

Lemma shard_name_no_slash (a b : string) (exact_batch : option string)
    (start : Z) (idx : nat) :
  Plan.slash_free exact_batch = true ->
  PyStr.contains
    (Pack.parquet_name_of (Pack.sanitise a) (Pack.sanitise b)
                          (Pack.batch_label exact_batch start idx)) "/"
  = false.
Proof.
  intros H. apply no_slash_contains. unfold Pack.parquet_name_of.
  rewrite !chars_app, !in_app_iff.
  intros [Hs|[Hu|[Hp|[Hu|[Hl|Hx]]]]].
  - now apply sanitise_no_slash in Hs.
  - destruct Hu as [Hu|[]]. discriminate.
  - now apply sanitise_no_slash in Hp.
  - destruct Hu as [Hu|[]]. discriminate.
  - now apply (label_no_slash exact_batch start idx H).
  - simpl in Hx. intuition discriminate.
Qed.

End ShardNames.

(** ** The loops of pack *)

Section PackLoops.

Variables (cols wav_names : list string).
Variable dry_run : bool.

Lemma assign_mapped (f : Row -> string) (rs : list Row) :
  assign_audio_path rs (map f rs) = map (fun r => with_audio_path r (f r)) rs.
Proof.
  unfold assign_audio_path. induction rs as [|r rs IH]; simpl; [reflexivity|].
  now rewrite IH.
Qed.

Lemma with_own_path (r : Row) : with_audio_path r (audio_path r) = r.
Proof. now destruct r. Qed.

Lemma pack_row_step (S P B : string) (a : Pack.RowAcc) (r : Row) :
  let a' := Pack.pack_row wav_names S P B dry_run a r in
  Pack.new_audio_paths a'
  = Pack.new_audio_paths a ++ [Plan.mapped_path wav_names S P B r]
  /\ Pack.log (Pack.st a')
     = Pack.log (Pack.st a) ++ Plan.row_events wav_names S P B dry_run r
  /\ Pack.skipped (Pack.st a')
     = (Pack.skipped (Pack.st a) + Plan.count_missing wav_names [r])%nat
  /\ Pack.moved (Pack.st a') = Pack.moved (Pack.st a)
  /\ Pack.chunk_moved a'
     = (Pack.chunk_moved a + Plan.copied_in wav_names dry_run [r])%nat
  /\ (dry_run = true -> Pack.tree (Pack.st a') = Pack.tree (Pack.st a)).
Proof.
  unfold Pack.pack_row, Plan.mapped_path, Plan.row_events, Plan.copied_in,
         Plan.count_missing.
  fold (Plan.wav_present wav_names r). simpl filter.
  destruct (Plan.wav_present wav_names r); simpl;
    destruct dry_run; simpl;
    repeat split; try lia; try reflexivity; try discriminate.
Qed.

Lemma count_missing_cons (r : Row) (rs : list Row) :
  Plan.count_missing wav_names (r :: rs)
  = (Plan.count_missing wav_names [r] + Plan.count_missing wav_names rs)%nat.
Proof.
  unfold Plan.count_missing. simpl.
  destruct (negb (Plan.wav_present wav_names r)); reflexivity.
Qed.

Lemma copied_in_cons (r : Row) (rs : list Row) :
  Plan.copied_in wav_names dry_run (r :: rs)
  = (Plan.copied_in wav_names dry_run [r]
     + Plan.copied_in wav_names dry_run rs)%nat.
Proof.
  unfold Plan.copied_in. destruct dry_run; [reflexivity|]. simpl.
  destruct (Plan.wav_present wav_names r); reflexivity.
Qed.

Lemma pack_rows_fold (S P B : string) (chunk : list Row) (a : Pack.RowAcc) :
  let a' := fold_left (Pack.pack_row wav_names S P B dry_run) chunk a in
  Pack.new_audio_paths a'
  = Pack.new_audio_paths a ++ map (Plan.mapped_path wav_names S P B) chunk
  /\ Pack.log (Pack.st a')
     = Pack.log (Pack.st a)
       ++ flat_map (Plan.row_events wav_names S P B dry_run) chunk
  /\ Pack.skipped (Pack.st a')
     = (Pack.skipped (Pack.st a) + Plan.count_missing wav_names chunk)%nat
  /\ Pack.moved (Pack.st a') = Pack.moved (Pack.st a)
  /\ Pack.chunk_moved a'
     = (Pack.chunk_moved a + Plan.copied_in wav_names dry_run chunk)%nat
  /\ (dry_run = true -> Pack.tree (Pack.st a') = Pack.tree (Pack.st a)).
Proof.
  revert a. induction chunk as [|r chunk IH]; intros a.
  - cbn [fold_left map flat_map]. unfold Plan.copied_in, Plan.count_missing.
    simpl. rewrite !app_nil_r, !Nat.add_0_r. destruct dry_run; auto 10.
  - cbn [fold_left map flat_map].
    destruct (IH (Pack.pack_row wav_names S P B dry_run a r))
      as (Hp & Hl & Hs & Hm & Hc & Ht).
    destruct (pack_row_step S P B a r) as (Hp1 & Hl1 & Hs1 & Hm1 & Hc1 & Ht1).
    rewrite Hp, Hl, Hs, Hm, Hc, Hp1, Hl1, Hs1, Hm1, Hc1.
    rewrite (count_missing_cons r chunk), (copied_in_cons r chunk).
    rewrite <- !app_assoc. repeat split; try lia; try reflexivity.
    intros E. now rewrite (Ht E), (Ht1 E).
Qed.

Lemma pack_chunk_spec (S P : string) (exact_batch : option string)
    (start : Z) (s : Pack.State) (ic : nat * list Row) :
  let s' := Plan.chunk_done cols wav_names S P exact_batch start dry_run s ic in
  Pack.log s'
  = Pack.log s
    ++ Plan.chunk_events cols wav_names S P
         (Pack.batch_label exact_batch start (fst ic)) dry_run (snd ic)
  /\ Pack.skipped s'
     = (Pack.skipped s + Plan.count_missing wav_names (snd ic))%nat
  /\ Pack.moved s' = (Pack.moved s + Plan.copied_in wav_names dry_run (snd ic))%nat
  /\ (dry_run = true -> Pack.tree s' = Pack.tree s).
Proof.
  destruct ic as [idx chunk]. unfold Plan.chunk_done. cbn [fst snd].
  set (B := Pack.batch_label exact_batch start idx).
  destruct (pack_rows_fold S P B chunk (Pack.mkAcc s [] 0))
    as (Hp & Hl & Hs & Hm & Hc & Ht).
  cbn [Pack.st Pack.new_audio_paths Pack.chunk_moved app] in *.
  unfold Plan.chunk_events.
  destruct dry_run; cbn [Pack.log Pack.skipped Pack.moved Pack.tree rows].
  - rewrite Hp, Hl, Hs, Hm, Hc, assign_mapped, length_map, <- app_assoc.
    repeat split; auto.
  - rewrite Hp, Hl, Hs, Hm, Hc, assign_mapped, <- app_assoc.
    repeat split; try reflexivity. discriminate.
Qed.

End PackLoops.

(** ** Chunks whose shard can be written *)

Section PackBridge.

Variables (cols wav_names : list string) (S P : string).
Variable exact_batch : option string.
Variables (start : Z) (dry_run : bool).

Local Abbreviation name_of ic :=
  (Pack.parquet_name_of S P (Pack.batch_label exact_batch start (fst ic))).

Lemma pack_chunk_written (s : Pack.State) (ic : nat * list Row) :
  dry_run = true \/ PyStr.contains (name_of ic) "/" = false ->
  Pack.pack_chunk cols wav_names S P exact_batch start dry_run s ic
  = (Finished,
     Plan.chunk_done cols wav_names S P exact_batch start dry_run s ic).
Proof.
  intros H. unfold Pack.pack_chunk, Plan.chunk_done, FS.write_shard.
  destruct dry_run; [reflexivity|].
  destruct H as [H|H]; [discriminate|]. now rewrite H.
Qed.

Lemma pack_chunk_fails (s : Pack.State) (ic : nat * list Row) :
  dry_run = false -> PyStr.contains (name_of ic) "/" = true ->
  Pack.pack_chunk cols wav_names S P exact_batch start dry_run s ic
  = (Raised "OSError",
     Plan.chunk_failed wav_names S P exact_batch start s ic).
Proof.
  intros -> H. unfold Pack.pack_chunk, Plan.chunk_failed, FS.write_shard.
  now rewrite H.
Qed.

Lemma pack_chunk_cases (s : Pack.State) (ic : nat * list Row) :
  Pack.pack_chunk cols wav_names S P exact_batch start dry_run s ic
  = (Finished,
     Plan.chunk_done cols wav_names S P exact_batch start dry_run s ic)
  \/ (dry_run = false
      /\ PyStr.contains (name_of ic) "/" = true
      /\ Pack.pack_chunk cols wav_names S P exact_batch start dry_run s ic
         = (Raised "OSError",
            Plan.chunk_failed wav_names S P exact_batch start s ic)).
Proof.
  destruct (Bool.bool_dec dry_run true) as [D|D].
  - left. apply pack_chunk_written. now left.
  - apply not_true_is_false in D.
    destruct (PyStr.contains (name_of ic) "/") eqn:E.
    + right. split; [exact D|]. split; [reflexivity|].
      now apply pack_chunk_fails.
    + left. apply pack_chunk_written. now right.
Qed.

Lemma pack_chunks_written (ics : list (nat * list Row)) (s : Pack.State) :
  (forall ic, In ic ics ->
              dry_run = true \/ PyStr.contains (name_of ic) "/" = false) ->
  Pack.pack_chunks cols wav_names S P exact_batch start dry_run ics s
  = (Finished,
     fold_left (Plan.chunk_done cols wav_names S P exact_batch start dry_run)
               ics s).
Proof.
  revert s. induction ics as [|ic ics IH]; intros s H; [reflexivity|].
  cbn [Pack.pack_chunks fold_left].
  rewrite pack_chunk_written by (apply H; now left).
  apply IH. intros ic' Hic. apply H. now right.
Qed.

End PackBridge.

Lemma pack_group_written (cols wav_names : list string)
    (exact_batch : option string) (max_rows : Z) (dry_run : bool)
    (s : Pack.State) (g : Pack.key * list Row) (cs : list (list Row)) :
  dry_run = true \/ Plan.slash_free exact_batch = true ->
  Pack.chunks exact_batch max_rows (snd g) = Some cs ->
  Pack.pack_group cols wav_names exact_batch max_rows dry_run s g
  = (Finished,
     fold_left
       (Plan.chunk_done cols wav_names (Pack.sanitise (fst (fst g)))
          (Pack.sanitise (snd (fst g))) exact_batch
          (if negb (truthy exact_batch)
           then Pack.get_next_batch_num (Pack.tree s)
                  (Pack.sanitise (fst (fst g))) (Pack.sanitise (snd (fst g)))
           else 0%Z)
          dry_run)
       (combine (seq 0 (length cs)) cs) s).
Proof.
  intros H Hc. unfold Pack.pack_group. rewrite Hc.
  apply pack_chunks_written. intros ic _.
  destruct H as [H|H]; [now left | right].
  now apply shard_name_no_slash.
Qed.

(** ** Log readers over concatenation *)

Section LogFacts.

Variables a b : list event.

Lemma shard_plan_app : Log.shard_plan (a ++ b) = Log.shard_plan a ++ Log.shard_plan b.
Proof. apply flat_map_app. Qed.

Lemma copy_plan_app : Log.copy_plan (a ++ b) = Log.copy_plan a ++ Log.copy_plan b.
Proof. apply flat_map_app. Qed.

Lemma warnings_app : Log.warnings (a ++ b) = Log.warnings a ++ Log.warnings b.
Proof. apply flat_map_app. Qed.

Lemma saved_app : Log.saved (a ++ b) = Log.saved a ++ Log.saved b.
Proof. apply flat_map_app. Qed.

Lemma saved_rows_app : Log.saved_rows (a ++ b) = Log.saved_rows a ++ Log.saved_rows b.
Proof. unfold Log.saved_rows. rewrite saved_app. apply flat_map_app. Qed.

Lemma mutations_app : Log.mutations (a ++ b) = Log.mutations a ++ Log.mutations b.
Proof. apply filter_app. Qed.

End LogFacts.

(** ** What a run of pack adds to its state *)

Section PackExtends.

Variables (cols wav_names : list string).
Variable dry_run : bool.

Lemma count_missing_app (a b : list Row) :
  Plan.count_missing wav_names (a ++ b)
  = (Plan.count_missing wav_names a + Plan.count_missing wav_names b)%nat.
Proof. unfold Plan.count_missing. now rewrite filter_app, length_app. Qed.

Lemma copied_in_app (a b : list Row) :
  Plan.copied_in wav_names dry_run (a ++ b)
  = (Plan.copied_in wav_names dry_run a
     + Plan.copied_in wav_names dry_run b)%nat.
Proof.
  unfold Plan.copied_in. destruct dry_run; [reflexivity|].
  now rewrite filter_app, length_app.
Qed.

Lemma count_missing_le (rs : list Row) :
  (Plan.count_missing wav_names rs <= length rs)%nat.
Proof. unfold Plan.count_missing. apply filter_length_le. Qed.

Lemma extends_nil (s : Pack.State) : Plan.extends wav_names dry_run [] s s.
Proof.
  unfold Plan.extends. split; [exists []|].
  - rewrite app_nil_r. repeat split; auto.
  - unfold Plan.copied_in, Plan.count_missing. simpl.
    destruct dry_run; repeat split; auto.
Qed.

Lemma extends_app (rs1 rs2 : list Row) (s s1 s2 : Pack.State) :
  Plan.extends wav_names dry_run rs1 s s1 ->
  Plan.extends wav_names dry_run rs2 s1 s2 ->
  Plan.extends wav_names dry_run (rs1 ++ rs2) s s2.
Proof.
  intros [[e1 (L1 & N1 & F1 & W1 & C1 & M1)] (S1 & V1 & T1)]
         [[e2 (L2 & N2 & F2 & W2 & C2 & M2)] (S2 & V2 & T2)].
  split; [exists (e1 ++ e2)|].
  - rewrite shard_plan_app, saved_rows_app, warnings_app, copy_plan_app,
            mutations_app, map_app, list_sum_app, !length_app,
            count_missing_app.
    pose proof (count_missing_le rs1). pose proof (count_missing_le rs2).
    repeat split.
    + now rewrite L2, L1, app_assoc.
    + lia.
    + intros E. apply Forall2_app; auto.
    + rewrite W1, W2. unfold Plan.missing_names.
      now rewrite filter_app, map_app.
    + lia.
    + intros E. now rewrite (M1 E), (M2 E).
  - rewrite count_missing_app, copied_in_app. repeat split; try lia.
    intros E. now rewrite (T2 E), (T1 E).
Qed.

Lemma row_events_facts (S P B : string) (chunk : list Row) :
  let ev := flat_map (Plan.row_events wav_names S P B dry_run) chunk in
  Log.shard_plan ev = []
  /\ Log.saved_rows ev = []
  /\ Log.warnings ev = Plan.missing_names wav_names chunk
  /\ length (Log.copy_plan ev)
     = (length chunk - Plan.count_missing wav_names chunk)%nat
  /\ (dry_run = true -> Log.mutations ev = []).
Proof.
  induction chunk as [|r chunk IH]; [simpl; auto 10|].
  cbn [flat_map]. cbv zeta in *.
  set (ev := flat_map (Plan.row_events wav_names S P B dry_run) chunk) in *.
  clearbody ev. destruct IH as (I1 & I2 & I3 & I4 & I5).
  rewrite shard_plan_app, saved_rows_app, warnings_app, copy_plan_app,
          mutations_app, !length_app, I1, I2, I3, I4,
          (count_missing_cons wav_names r chunk).
  pose proof (count_missing_le chunk).
  assert (Hc : Plan.count_missing wav_names [r]
               = if Plan.wav_present wav_names r then 0%nat else 1%nat).
  { unfold Plan.count_missing. simpl.
    now destruct (Plan.wav_present wav_names r). }
  assert (Hn : Plan.missing_names wav_names (r :: chunk)
               = (if Plan.wav_present wav_names r then []
                  else [PyPath.name (audio_path r)])
                 ++ Plan.missing_names wav_names chunk).
  { unfold Plan.missing_names. simpl.
    now destruct (Plan.wav_present wav_names r). }
  rewrite Hc, Hn. unfold Plan.row_events.
  destruct (Plan.wav_present wav_names r); destruct dry_run;
    cbn -[Nat.sub];
    repeat split; try lia; try reflexivity; try discriminate;
    try (intros E; now rewrite (I5 E)).
Qed.

End PackExtends.

Section PackRun.

Variables (cols wav_names : list string).
Variable exact_batch : option string.
Variable max_rows : Z.
Variable dry_run : bool.

Lemma packed_mapped (S P B : string) (chunk : list Row) :
  Forall2 (Plan.packed wav_names) chunk
          (map (Plan.mapped_row wav_names S P B) chunk).
Proof.
  induction chunk as [|r chunk IH]; simpl; constructor; [|exact IH].
  unfold Plan.packed, Plan.mapped_row, Plan.mapped_path.
  destruct (Plan.wav_present wav_names r).
  - now exists S, P, B.
  - apply with_own_path.
Qed.

Lemma pack_chunk_extends (S P : string) (start : Z) (s : Pack.State)
    (ic : nat * list Row) :
  Plan.extends wav_names dry_run (snd ic) s
    (Plan.chunk_done cols wav_names S P exact_batch start dry_run s ic).
Proof.
  destruct (pack_chunk_spec cols wav_names dry_run S P exact_batch start s ic)
    as (Hl & Hs & Hm & Ht).
  split; [|auto].
  eexists. split; [exact Hl|].
  unfold Plan.chunk_events.
  set (B := Pack.batch_label exact_batch start (fst ic)).
  destruct (row_events_facts wav_names dry_run S P B (snd ic))
    as (I1 & I2 & I3 & I4 & I5).
  cbv zeta in *.
  rewrite shard_plan_app, saved_rows_app, warnings_app, copy_plan_app,
          mutations_app, !length_app, I1, I2, I3, I4.
  destruct dry_run; cbn -[Nat.sub]; rewrite ?length_map, ?app_nil_r;
    repeat split; try lia; try discriminate.
  - intros _. now apply I5.
  - intros _. apply packed_mapped.
Qed.

Lemma pack_chunks_extends (S P : string) (start : Z)
    (ics : list (nat * list Row)) (s : Pack.State) :
  Plan.extends wav_names dry_run (concat (map snd ics)) s
    (fold_left (Plan.chunk_done cols wav_names S P exact_batch start dry_run)
               ics s).
Proof.
  revert s. induction ics as [|ic ics IH]; intros s; simpl.
  - apply extends_nil.
  - eapply extends_app; [apply pack_chunk_extends | apply IH].
Qed.

Lemma enumerate_snd {A} (l : list A) :
  map snd (combine (seq 0 (length l)) l) = l.
Proof.
  generalize 0%nat. induction l as [|x l IH]; intros k; simpl; [reflexivity|].
  now rewrite IH.
Qed.

Hypothesis can_write : dry_run = true \/ Plan.slash_free exact_batch = true.

Lemma pack_group_extends (s : Pack.State) (g : Pack.key * list Row)
    (cs : list (list Row)) :
  Pack.chunks exact_batch max_rows (snd g) = Some cs ->
  concat cs = snd g ->
  exists s',
    Pack.pack_group cols wav_names exact_batch max_rows dry_run s g
    = (Finished, s')
    /\ Plan.extends wav_names dry_run (snd g) s s'.
Proof.
  intros Hc Hcat. rewrite (pack_group_written _ _ _ _ _ _ _ cs can_write Hc).
  eexists. split; [reflexivity|].
  rewrite <- Hcat at 1. rewrite <- (enumerate_snd cs) at 1.
  apply pack_chunks_extends.
Qed.

Lemma pack_groups_extends (gs : list (Pack.key * list Row)) (s : Pack.State) :
  Forall (Plan.chunkable exact_batch max_rows) gs ->
  exists s',
    Pack.pack_groups cols wav_names exact_batch max_rows dry_run gs s
    = (Finished, s')
    /\ Plan.extends wav_names dry_run (flat_map snd gs) s s'.
Proof.
  intros H. revert s. induction H as [|g gs [cs [Hc Hcat]] _ IH]; intros s.
  - exists s. split; [reflexivity | apply extends_nil].
  - destruct (pack_group_extends s g cs Hc Hcat) as [s1 [E1 X1]].
    destruct (IH s1) as [s2 [E2 X2]].
    exists s2. split.
    + simpl. rewrite E1. exact E2.
    + simpl. eapply extends_app; eassumption.
Qed.

Lemma chunkable_when (g : Pack.key * list Row) :
  truthy exact_batch = true \/ (0 < max_rows)%Z ->
  Plan.chunkable exact_batch max_rows g.
Proof.
  intros H. unfold Plan.chunkable.
  destruct (truthy exact_batch) eqn:E.
  - exists [snd g]. split; [now apply chunks_explicit|].
    simpl. apply app_nil_r.
  - destruct H as [H|H]; [discriminate|].
    destruct (chunks_auto (snd g) max_rows exact_batch H E) as [cs [Hc [Hcat _]]].
    now exists cs.
Qed.

End PackRun.

(** ** groupby is a partition of the rows with both keys *)

Section GroupBy.

Lemma key_eqb_eq (a b : Pack.key) : Pack.key_eqb a b = true <-> a = b.
Proof.
  destruct a as [a1 a2], b as [b1 b2]. unfold Pack.key_eqb. simpl.
  rewrite andb_true_iff, !String.eqb_eq. split.
  - intros [-> ->]. reflexivity.
  - intros H. inversion H. auto.
Qed.

Lemma key_eqb_refl (a : Pack.key) : Pack.key_eqb a a = true.
Proof. now apply key_eqb_eq. Qed.

Lemma existsb_key_In (k : Pack.key) (l : list Pack.key) :
  existsb (Pack.key_eqb k) l = true <-> In k l.
Proof.
  rewrite existsb_exists. split.
  - intros [x [Hx He]]. apply key_eqb_eq in He. now subst.
  - intros H. exists k. split; [exact H | apply key_eqb_refl].
Qed.

Lemma unique_keys_In (k : Pack.key) (l : list Pack.key) :
  In k (Pack.unique_keys l) <-> In k l.
Proof.
  induction l as [|h t IH]; simpl; [tauto|].
  destruct (existsb (Pack.key_eqb h) t) eqn:E.
  - rewrite IH. apply existsb_key_In in E. split; [auto|].
    intros [<-|H]; auto.
  - simpl. rewrite IH. tauto.
Qed.

Lemma unique_keys_NoDup (l : list Pack.key) : NoDup (Pack.unique_keys l).
Proof.
  induction l as [|h t IH]; simpl; [constructor|].
  destruct (existsb (Pack.key_eqb h) t) eqn:E; [exact IH|].
  constructor; [|exact IH].
  rewrite unique_keys_In, <- existsb_key_In. congruence.
Qed.

Lemma insert_key_perm (k : Pack.key) (l : list Pack.key) :
  Permutation (Pack.insert_key k l) (k :: l).
Proof.
  induction l as [|h t IH]; simpl; [reflexivity|].
  destruct (Pack.key_leb k h); [reflexivity|].
  rewrite IH. apply perm_swap.
Qed.

Lemma sort_keys_perm (l : list Pack.key) : Permutation (Pack.sort_keys l) l.
Proof.
  induction l as [|h t IH]; simpl; [reflexivity|].
  rewrite insert_key_perm. now constructor.
Qed.

Lemma filter_split (f : Row -> bool) (rs : list Row) :
  Permutation (filter f rs ++ filter (fun r => negb (f r)) rs) rs.
Proof.
  induction rs as [|r rs IH]; simpl; [reflexivity|].
  destruct (f r); simpl.
  - now constructor.
  - rewrite <- Permutation_middle. now constructor.
Qed.

Lemma filter_other_key (k k' : Pack.key) (rs : list Row) :
  k' <> k ->
  filter (Plan.has_key k') (filter (fun r => negb (Plan.has_key k r)) rs)
  = filter (Plan.has_key k') rs.
Proof.
  intros Hne. induction rs as [|r rs IH]; simpl; [reflexivity|].
  destruct (Plan.has_key k r) eqn:E1; destruct (Plan.has_key k' r) eqn:E2; simpl;
    rewrite ?E2, ?IH; try reflexivity.
  unfold Plan.has_key in E1, E2. apply key_eqb_eq in E1, E2. congruence.
Qed.

Lemma partition_by_keys (ks : list Pack.key) :
  NoDup ks ->
  forall rs, (forall r, In r rs -> In (Pack.key_of r) ks) ->
  Permutation (flat_map (fun k => filter (Plan.has_key k) rs) ks) rs.
Proof.
  induction 1 as [|k ks Hnotin Hnd IH]; intros rs Hall.
  - destruct rs as [|r rs]; [reflexivity|].
    destruct (Hall r (or_introl eq_refl)).
  - simpl.
    eapply Permutation_trans; [|apply (filter_split (Plan.has_key k) rs)].
    apply Permutation_app_head.
    set (rest := filter (fun r => negb (Plan.has_key k r)) rs).
    assert (E : flat_map (fun k' => filter (Plan.has_key k') rs) ks
                = flat_map (fun k' => filter (Plan.has_key k') rest) ks).
    { clear -Hnotin. induction ks as [|k' ks IHks]; simpl; [reflexivity|].
      unfold rest at 1. rewrite filter_other_key.
      - f_equal. apply IHks. intros H. apply Hnotin. now right.
      - intros ->. apply Hnotin. now left. }
    rewrite E. apply IH.
    intros r Hr. apply filter_In in Hr. destruct Hr as [Hr Hk].
    destruct (Hall r Hr) as [E'|Hin]; [|exact Hin].
    unfold Plan.has_key in Hk. rewrite <- E', key_eqb_refl in Hk.
    discriminate.
Qed.

End GroupBy.

Section GroupByFacts.

Variable rs : list Row.

Local Abbreviation ks := (Pack.sort_keys (Pack.unique_keys (map Pack.key_of rs))).

Lemma group_keys_NoDup : NoDup ks.
Proof.
  eapply Permutation_NoDup.
  - symmetry. apply sort_keys_perm.
  - apply unique_keys_NoDup.
Qed.

Lemma group_keys_In (k : Pack.key) : In k ks <-> In k (map Pack.key_of rs).
Proof.
  split; intros H.
  - apply unique_keys_In. eapply Permutation_in; [apply sort_keys_perm | exact H].
  - apply unique_keys_In in H.
    eapply Permutation_in; [symmetry; apply sort_keys_perm | exact H].
Qed.


Lemma group_rows_rows :
  flat_map snd (Pack.group_rows rs)
  = flat_map (fun k => filter (Plan.has_key k) rs) ks.
Proof.
  unfold Pack.group_rows. rewrite flat_map_concat_map, map_map.
  simpl. now rewrite <- flat_map_concat_map.
Qed.

Lemma group_rows_perm : Permutation (flat_map snd (Pack.group_rows rs)) rs.
Proof.
  rewrite group_rows_rows. apply partition_by_keys.
  - apply group_keys_NoDup.
  - intros r Hr. apply group_keys_In. now apply in_map.
Qed.

Lemma group_rows_In (k : Pack.key) (g : list Row) :
  In (k, g) (Pack.group_rows rs) <->
  In k (map Pack.key_of rs) /\ g = filter (Plan.has_key k) rs.
Proof.
  unfold Pack.group_rows. rewrite in_map_iff, <- group_keys_In. split.
  - intros [k' [E Hin]]. inversion E. subst. auto.
  - intros [Hin ->]. exists k. auto.
Qed.


End GroupByFacts.

(** [groupby] groups the rows whose keys are there. *)
Lemma groupby_perm (rs : list Row) :
  Permutation (flat_map snd (Pack.groupby rs)) (Plan.keyed rs).
Proof. apply group_rows_perm. Qed.

Lemma groupby_In (rs : list Row) (k : Pack.key) (g : list Row) :
  In (k, g) (Pack.groupby rs) <->
  In k (map Pack.key_of (Plan.keyed rs))
  /\ g = filter (Plan.has_key k) (Plan.keyed rs).
Proof. apply group_rows_In. Qed.

Lemma groupby_incl (rs : list Row) (g : Pack.key * list Row) :
  In g (Pack.groupby rs) -> incl (snd g) rs.
Proof.
  destruct g as [k g]. intros H. apply groupby_In in H. destruct H as [_ ->].
  intros r Hr. cbn [snd] in Hr. apply filter_In in Hr. destruct Hr as [Hr _].
  apply filter_In in Hr. tauto.
Qed.




Lemma keyed_all (rs : list Row) :
  Forall (fun r => Pack.has_keys r = true) rs -> Plan.keyed rs = rs.
Proof.
  unfold Plan.keyed. induction 1 as [|r rs Hr _ IH]; [reflexivity|].
  simpl. now rewrite Hr, IH.
Qed.

Lemma filter_length_perm {A} (f : A -> bool) (l l' : list A) :
  Permutation l l' -> length (filter f l) = length (filter f l').
Proof.
  induction 1; simpl; try congruence.
  - destruct (f x); simpl; congruence.
  - destruct (f x), (f y); reflexivity.
Qed.

Lemma filter_perm {A} (f : A -> bool) (l l' : list A) :
  Permutation l l' -> Permutation (filter f l) (filter f l').
Proof.
  induction 1; simpl.
  - constructor.
  - destruct (f x); [now constructor | assumption].
  - destruct (f x), (f y); try reflexivity. apply perm_swap.
  - eapply Permutation_trans; eassumption.
Qed.

(** A run of pack that passes the pre-flight checks and can chunk its
    groups finishes; its log and counters are those of the table. *)
Lemma pack_finishes (src : Source) (out : Tree) (exact_batch : option string)
    (max_rows : Z) (dry_run : bool) (df : DataFrame) (wav_names : list string) :
  metadata_csv src = Some df ->
  (forall c, In c Pack.required -> In c (columns df)) ->
  wavs src = Some wav_names ->
  truthy exact_batch = true \/ (0 < max_rows)%Z ->
  dry_run = true \/ Plan.slash_free exact_batch = true ->
  exists s ev,
    Pack.pack src out exact_batch max_rows dry_run = (Finished, s)
    /\ Pack.log s
       = (if dry_run then [] else [Mkdir ["metadata"]]) ++ ev
         ++ [if dry_run then DryDone else Done (Pack.moved s) (Pack.skipped s)]
    /\ list_sum (map snd (Log.shard_plan ev)) = length (Plan.keyed (rows df))
    /\ (dry_run = false ->
        Forall2 (Plan.packed wav_names)
                (flat_map snd (Pack.groupby (rows df))) (Log.saved_rows ev))
    /\ Permutation (Log.warnings ev)
                   (Plan.missing_names wav_names (Plan.keyed (rows df)))
    /\ length (Log.copy_plan ev)
       = (length (Plan.keyed (rows df))
          - Plan.count_missing wav_names (Plan.keyed (rows df)))%nat
    /\ (dry_run = true -> Log.mutations ev = [])
    /\ Pack.skipped s = Plan.count_missing wav_names (Plan.keyed (rows df))
    /\ Pack.moved s = Plan.copied_in wav_names dry_run (Plan.keyed (rows df))
    /\ (dry_run = true -> Pack.tree s = out).
Proof.
  intros Hcsv Hcols Hw Hchunk Hwrite. unfold Pack.pack.
  rewrite (load_metadata_ok src df Hcsv Hcols), Hw.
  set (s1 := if dry_run then Pack.mkState out [] 0 0
             else Pack.mkState (FS.mkdir_metadata out) [Mkdir ["metadata"]] 0 0).
  destruct (pack_groups_extends (columns df) wav_names exact_batch max_rows
              dry_run Hwrite (Pack.groupby (rows df)) s1) as [s2 [E X]].
  { apply Forall_forall. intros g _. now apply chunkable_when. }
  rewrite E.
  destruct X as [[ev (L & N & F & W & C & M)] (Sk & Mv & T)].
  pose proof (groupby_perm (rows df)) as Hperm.
  set (kept := Plan.keyed (rows df)) in *.
  assert (Hlen : length (flat_map snd (Pack.groupby (rows df)))
                 = length kept) by now apply Permutation_length.
  assert (Hmiss : Plan.count_missing wav_names
                    (flat_map snd (Pack.groupby (rows df)))
                  = Plan.count_missing wav_names kept)
    by now apply filter_length_perm.
  assert (Hcop : Plan.copied_in wav_names dry_run
                   (flat_map snd (Pack.groupby (rows df)))
                 = Plan.copied_in wav_names dry_run kept).
  { unfold Plan.copied_in. destruct dry_run; [reflexivity|].
    now apply filter_length_perm. }
  assert (Hwarn : Permutation (Log.warnings ev)
                    (Plan.missing_names wav_names kept)).
  { rewrite W. unfold Plan.missing_names.
    apply Permutation_map. now apply filter_perm. }
  clear W.
  eexists. exists ev. split; [reflexivity|].
  cbn [Pack.log Pack.skipped Pack.moved Pack.tree].
  rewrite L, Sk, Mv, Hmiss, Hcop in *. rewrite Hlen in N, C.
  unfold s1 in *. destruct dry_run; cbn [Pack.log Pack.skipped Pack.moved Pack.tree] in *;
    repeat split; auto; try discriminate.
Qed.

Lemma pack_chunks_log (cols wav_names : list string) (dry_run : bool)
    (S P : string) (exact_batch : option string) (start : Z)
    (ics : list (nat * list Row)) (s : Pack.State) :
  Pack.log (fold_left (Plan.chunk_done cols wav_names S P exact_batch start
                                       dry_run) ics s)
  = Pack.log s
    ++ flat_map (fun ic =>
                   Plan.chunk_events cols wav_names S P
                     (Pack.batch_label exact_batch start (fst ic)) dry_run
                     (snd ic)) ics.
Proof.
  revert s. induction ics as [|ic ics IH]; intros s; simpl.
  - now rewrite app_nil_r.
  - rewrite IH.
    destruct (pack_chunk_spec cols wav_names dry_run S P exact_batch start s ic)
      as [Hl _].
    rewrite Hl. now rewrite <- app_assoc.
Qed.

(** C4. With no explicit label and a positive max_rows, pack cuts a group
    into consecutive chunks: their concatenation is the group in row order,
    every chunk has between 1 and max_rows rows, every chunk but the last
    has exactly max_rows, and chunk i (from 0) is processed under the label
    batch_{start+i:04d}, where start is the next batch number of the group:
    the events of the group are those of its chunks under these labels. *)
Theorem C4_chunks_bounded_and_labelled :
  forall (cols wav_names : list string) (exact_batch : option string)
         (max_rows : Z) (dry_run : bool) (s : Pack.State)
         (g : Pack.key * list Row),
    (0 < max_rows)%Z ->
    truthy exact_batch = false ->
    exists cs s',
      Pack.chunks exact_batch max_rows (snd g) = Some cs
      /\ concat cs = snd g
      /\ (forall i c, nth_error cs i = Some c ->
            (0 < length c <= Z.to_nat max_rows)%nat
            /\ (S i < length cs -> length c = Z.to_nat max_rows))
      /\ Pack.pack_group cols wav_names exact_batch max_rows dry_run s g
         = (Finished, s')
      /\ Pack.log s'
         = Pack.log s
           ++ flat_map
                (fun ic =>
                   Plan.chunk_events cols wav_names
                     (Pack.sanitise (fst (fst g))) (Pack.sanitise (snd (fst g)))
                     ("batch_"
                      ++ PyStr.format_04d
                           (Pack.get_next_batch_num
                              (Pack.tree s)
                              (Pack.sanitise (fst (fst g)))
                              (Pack.sanitise (snd (fst g)))
                            + Z.of_nat (fst ic)))%string
                     dry_run (snd ic))
                (combine (seq 0 (length cs)) cs).
Proof.
  intros cols wav_names eb mr dry s g Hpos Hf.
  destruct (chunks_auto (snd g) mr eb Hpos Hf) as [cs (Hc & Hcat & Hlen)].
  exists cs. eexists. split; [exact Hc|]. split; [exact Hcat|].
  split; [exact Hlen|].
  rewrite (pack_group_written cols wav_names eb mr dry s g cs
             (or_intror (slash_free_auto eb Hf)) Hc), Hf.
  cbn [negb]. split; [reflexivity|].
  rewrite pack_chunks_log. f_equal.
  apply flat_map_ext. intros ic. unfold Pack.batch_label. now rewrite Hf.
Qed.

(** C4 at a group of three rows with max_rows 2. *)
Lemma C4_witness :
  exists cs s',
    Pack.chunks None 2
      [mkRow "wavs/a.wav" "bob" "yt" []; mkRow "wavs/b.wav" "bob" "yt" [];
       mkRow "wavs/c.wav" "bob" "yt" []] = Some cs
    /\ concat cs
       = [mkRow "wavs/a.wav" "bob" "yt" []; mkRow "wavs/b.wav" "bob" "yt" [];
          mkRow "wavs/c.wav" "bob" "yt" []]
    /\ (forall i c, nth_error cs i = Some c ->
          (0 < length c <= Z.to_nat 2)%nat
          /\ (S i < length cs -> length c = Z.to_nat 2))
    /\ Pack.pack_group ["audio_path"; "speaker"; "audio_source"]
         ["a.wav"; "b.wav"; "c.wav"] None 2 false
         (Pack.mkState (mkTree None [] []) [] 0 0)
         (("yt", "bob"),
          [mkRow "wavs/a.wav" "bob" "yt" []; mkRow "wavs/b.wav" "bob" "yt" [];
           mkRow "wavs/c.wav" "bob" "yt" []])
       = (Finished, s')
    /\ Pack.log s'
       = [] ++ flat_map
                (fun ic =>
                   Plan.chunk_events ["audio_path"; "speaker"; "audio_source"]
                     ["a.wav"; "b.wav"; "c.wav"]
                     (Pack.sanitise "yt") (Pack.sanitise "bob")
                     ("batch_"
                      ++ PyStr.format_04d
                           (Pack.get_next_batch_num (mkTree None [] [])
                              (Pack.sanitise "yt") (Pack.sanitise "bob")
                            + Z.of_nat (fst ic)))%string
                     false (snd ic))
                (combine (seq 0 (length cs)) cs).
Proof.
  apply (C4_chunks_bounded_and_labelled
           ["audio_path"; "speaker"; "audio_source"]
           ["a.wav"; "b.wav"; "c.wav"] None 2 false
           (Pack.mkState (mkTree None [] []) [] 0 0)
           (("yt", "bob"),
            [mkRow "wavs/a.wav" "bob" "yt" []; mkRow "wavs/b.wav" "bob" "yt" [];
             mkRow "wavs/c.wav" "bob" "yt" []])).
  - reflexivity.
  - reflexivity.
Defined.

(** The 25000-row example of the specification, scaled to five rows and
    chunks of two: three batches of sizes 2, 2, 1 labelled batch_0001 to
    batch_0003. *)
Example chunks_example :
  Log.shard_plan
    (Pack.log
       (snd (Pack.pack_group [] [] None 2 true
               (Pack.mkState (mkTree None [] []) [] 0 0)
               (("yt", "bob"),
                [mkRow "wavs/1.wav" "bob" "yt" []; mkRow "wavs/2.wav" "bob" "yt" [];
                 mkRow "wavs/3.wav" "bob" "yt" []; mkRow "wavs/4.wav" "bob" "yt" [];
                 mkRow "wavs/5.wav" "bob" "yt" []]))))
  = [("yt_bob_batch_0001.parquet", 2%nat); ("yt_bob_batch_0002.parquet", 2%nat);
     ("yt_bob_batch_0003.parquet", 1%nat)].
Proof. reflexivity. Qed.

(** ** The loop of unpack *)

Section UnpackLoop.

Variable dataset : Tree.
Variable dataset_dir : string.
Variable dry_run : bool.

Lemma count_absent_cons (r : Row) (rs : list Row) :
  Plan.count_absent dataset (r :: rs)
  = ((if Plan.src_present dataset r then 0 else 1)
     + Plan.count_absent dataset rs)%nat.
Proof.
  unfold Plan.count_absent. simpl.
  destruct (Plan.src_present dataset r); reflexivity.
Qed.

Lemma count_absent_le (rs : list Row) :
  (Plan.count_absent dataset rs <= length rs)%nat.
Proof. unfold Plan.count_absent. apply filter_length_le. Qed.

Local Abbreviation row_log := (Plan.unpack_row_events dataset dataset_dir dry_run).

Lemma unpack_row_step (s : Unpack.State) (r : Row) :
  let s' := Unpack.unpack_row dataset dataset_dir dry_run s r in
  Unpack.flat_audio_paths s'
  = Unpack.flat_audio_paths s ++ [Plan.flat_path dataset_dir r]
  /\ Unpack.missing s'
     = (Unpack.missing s + if Plan.src_present dataset r then 0 else 1)%nat
  /\ Unpack.copied s'
     = (Unpack.copied s
        + if dry_run then 0
          else if Plan.src_present dataset r then 1 else 0)%nat
  /\ Unpack.log s' = Unpack.log s ++ row_log r
  /\ (dry_run = true -> Unpack.flat s' = Unpack.flat s).
Proof.
  unfold Unpack.unpack_row, Plan.unpack_row_events, Plan.flat_dest.
  fold (Plan.src_present dataset r).
  fold (Plan.flat_path dataset_dir r).
  destruct (Plan.src_present dataset r); destruct dry_run; simpl;
    repeat split; try lia; try reflexivity; try discriminate.
Qed.

Lemma row_log_facts (r : Row) :
  Log.warnings (row_log r)
  = (if Plan.src_present dataset r then [] else [audio_path r])
  /\ Log.copy_plan (row_log r) = Plan.flat_copies dataset dataset_dir [r]
  /\ Log.shard_plan (row_log r) = []
  /\ Log.saved (row_log r) = []
  /\ (dry_run = true -> Log.mutations (row_log r) = []).
Proof.
  unfold Plan.unpack_row_events, Plan.flat_copies. cbn [filter].
  destruct (Plan.src_present dataset r); destruct dry_run; simpl;
    repeat split; try reflexivity; try discriminate.
Qed.

Lemma unpack_rows_fold (rs : list Row) (s : Unpack.State) :
  let s' := fold_left (Unpack.unpack_row dataset dataset_dir dry_run) rs s in
  Unpack.flat_audio_paths s'
  = Unpack.flat_audio_paths s ++ map (Plan.flat_path dataset_dir) rs
  /\ Unpack.missing s'
     = (Unpack.missing s + Plan.count_absent dataset rs)%nat
  /\ Unpack.copied s'
     = (Unpack.copied s
        + if dry_run then 0 else length rs - Plan.count_absent dataset rs)%nat
  /\ (exists ev,
        Unpack.log s' = Unpack.log s ++ ev
        /\ Log.warnings ev
           = map audio_path
                 (filter (fun r => negb (Plan.src_present dataset r)) rs)
        /\ Log.copy_plan ev = Plan.flat_copies dataset dataset_dir rs
        /\ Log.shard_plan ev = []
        /\ Log.saved ev = []
        /\ (dry_run = true -> Log.mutations ev = []))
  /\ (dry_run = true -> Unpack.flat s' = Unpack.flat s).
Proof.
  revert s. induction rs as [|r rs IH]; intros s.
  - cbn [fold_left map]. rewrite app_nil_r. unfold Plan.count_absent. simpl.
    rewrite !Nat.add_0_r. repeat split; auto.
    + destruct dry_run; lia.
    + exists []. rewrite app_nil_r. repeat split; auto.
  - cbn [fold_left map filter].
    destruct (IH (Unpack.unpack_row dataset dataset_dir dry_run s r))
      as (Hp & Hm & Hc & [ev (Hl & Hw & Hcp & Hsp & Hsv & Hmu)] & Hf).
    destruct (unpack_row_step s r) as (Hp1 & Hm1 & Hc1 & Hl1 & Hf1).
    destruct (row_log_facts r) as (R1 & R2 & R3 & R4 & R5).
    cbv zeta in *.
    rewrite Hp, Hm, Hc, Hp1, Hm1, Hc1, (count_absent_cons r rs).
    pose proof (count_absent_le rs).
    rewrite <- !app_assoc. split; [reflexivity|]. split; [lia|].
    split; [|split].
    + destruct dry_run; [lia|].
      destruct (Plan.src_present dataset r); cbn -[Nat.sub]; lia.
    + exists (row_log r ++ ev). split; [now rewrite Hl, Hl1, app_assoc|].
      rewrite shard_plan_app, saved_app, warnings_app, copy_plan_app,
              mutations_app, Hw, Hcp, Hsp, Hsv, R1, R2, R3, R4.
      unfold Plan.flat_copies. cbn [filter].
      destruct (Plan.src_present dataset r); cbn -[Nat.sub];
        repeat split; try lia; try reflexivity;
        intros E; now rewrite (R5 E), (Hmu E).
    + intros E. now rewrite (Hf E), (Hf1 E).
Qed.

End UnpackLoop.

(** A run of unpack that passes the pre-flight checks finishes; its table,
    log and counters are those of the kept rows. *)
Lemma unpack_finishes (dataset : Tree) (dataset_dir : string) (out : Flat)
    (speaker_f audio_source_f batch_f : option string) (dry_run : bool)
    (meta : list (string * DataFrame)) (df0 : DataFrame) (kept : list Row) :
  metadata dataset = Some meta ->
  Unpack.parquet_files meta <> [] ->
  df0 = Unpack.concat_frames (map snd (Unpack.parquet_files meta)) ->
  kept = Unpack.filter_rows (rows df0) speaker_f audio_source_f batch_f ->
  kept <> [] ->
  exists s,
    Unpack.unpack dataset dataset_dir out speaker_f audio_source_f batch_f
                  dry_run = (Finished, s)
    /\ Unpack.missing s = Plan.count_absent dataset kept
    /\ Log.warnings (Unpack.log s)
       = map audio_path
             (filter (fun r => negb (Plan.src_present dataset r)) kept)
    /\ Log.copy_plan (Unpack.log s) = Plan.flat_copies dataset dataset_dir kept
    /\ Log.shard_plan (Unpack.log s) = [("metadata.csv", length kept)]
    /\ (dry_run = false ->
        flat_csv (Unpack.flat s)
        = Some (mkFrame (columns df0)
                  (map (fun r => with_audio_path r (Plan.flat_path dataset_dir r))
                       kept))
        /\ In (Done (Unpack.copied s) (Unpack.missing s)) (Unpack.log s)
        /\ Unpack.copied s
           = (length kept - Plan.count_absent dataset kept)%nat)
    /\ (dry_run = true ->
        Unpack.flat s = out /\ Log.mutations (Unpack.log s) = []).
Proof.
  intros M Hfiles Hdf Hkept Hne. unfold Unpack.unpack. rewrite M.
  unfold Unpack.load_all_metadata.
  destruct (Unpack.parquet_files meta) as [|f fs] eqn:P; [congruence|].
  rewrite <- Hdf. unfold Unpack.apply_filters. rewrite <- Hkept.
  destruct kept as [|r0 kept0] eqn:K; [congruence|]. rewrite <- K in *.
  cbn [columns rows].
  set (s0 := Unpack.mkState out _ 0 0 []).
  destruct (unpack_rows_fold dataset dataset_dir dry_run kept s0)
    as (Hp & Hm & Hc & [ev (Hl & Hw & Hcp & Hsp & Hsv & Hmu)] & Hf).
  cbv zeta in *. unfold s0 in *.
  cbn [Unpack.flat_audio_paths Unpack.missing Unpack.copied
       Unpack.log Unpack.flat] in *.
  rewrite app_nil_l in Hp. rewrite !Nat.add_0_l in *.
  set (sF := fold_left _ kept _) in *. clearbody sF.
  destruct dry_run; eexists; (split; [reflexivity|]);
    cbn [Unpack.flat_audio_paths Unpack.missing Unpack.copied
         Unpack.log Unpack.flat];
    rewrite Hl, ?Hp, ?assign_mapped, ?length_map;
    rewrite !warnings_app, !copy_plan_app, !shard_plan_app, ?mutations_app,
            Hw, Hcp, Hsp.
  - cbn -[Nat.sub]. rewrite ?app_nil_r, ?Nat.add_0_r.
    repeat split; auto; try discriminate.
  - rewrite Hm, Hc.
    destruct (0 <? Plan.count_absent dataset kept)%nat; cbn -[Nat.sub];
      rewrite ?app_nil_r, ?Nat.add_0_r;
      (repeat split; auto; try discriminate; try lia;
       [now rewrite length_map
       | do 2 right; apply in_or_app; right; simpl; auto]).
Qed.

(** ** File names *)



Lemma split_nonempty (sep : ascii) (s : string) : PyStr.split sep s <> [].
Proof.
  destruct s as [|c r]; simpl; [discriminate|].
  destruct (Ascii.eqb c sep); [discriminate|].
  destruct (PyStr.split sep r); discriminate.
Qed.

Lemma split_parts_no_sep (sep : ascii) (s x : string) :
  In x (PyStr.split sep s) -> ~ In sep (list_ascii_of_string x).
Proof.
  revert x. induction s as [|c r IH]; intros x; simpl.
  - intros [<-|[]]. simpl. tauto.
  - destruct (Ascii.eqb_spec c sep) as [->|Hne].
    + intros [<-|H]; [simpl; tauto | now apply IH].
    + destruct (PyStr.split sep r) as [|h t] eqn:E.
      * intros [<-|[]]. simpl. intros [H|[]]. congruence.
      * intros [<-|H].
        -- simpl. intros [H|H]; [congruence|].
           revert H. apply IH. now left.
        -- apply IH. now right.
Qed.

Lemma split_no_sep (sep : ascii) (s : string) :
  ~ In sep (list_ascii_of_string s) -> PyStr.split sep s = [s].
Proof.
  induction s as [|c r IH]; simpl; [reflexivity|].
  intros H. destruct (Ascii.eqb_spec c sep) as [->|Hne]; [tauto|].
  rewrite IH; [reflexivity|]. tauto.
Qed.

Lemma last_In {A} (l : list A) (d : A) : l <> [] -> In (last l d) l.
Proof.
  induction l as [|x l IH]; [congruence|]. intros _.
  destruct l as [|y l]; [now left|].
  right. apply IH. discriminate.
Qed.





(** ** Missing files *)


(** ** Batch numbers *)

Section NextBatchNum.

Local Abbreviation step := Pack.batch_step.

Lemma fold_max_spec (l : list (string * bool)) (a : Z) :
  let m := fold_left step l a in
  (a <= m)%Z
  /\ (forall f n, In f l -> Pack.folder_num f = Some n -> (n <= m)%Z)
  /\ (m = a \/ exists f, In f l /\ Pack.folder_num f = Some m).
Proof.
  revert a. induction l as [|f l IH]; intros a; simpl.
  - repeat split; [lia | intros f n [] | now left].
  - destruct (IH (step a f)) as (H1 & H2 & H3).
    assert (Ha : (a <= step a f)%Z).
    { unfold Pack.batch_step. destruct (Pack.folder_num f); lia. }
    repeat split.
    + lia.
    + intros g n [<-|Hg] Hn.
      * assert ((n <= step a f)%Z) by (unfold Pack.batch_step; rewrite Hn; lia).
        lia.
      * now apply (H2 g n).
    + destruct H3 as [H3|[g [Hg Hm]]].
      * assert (Hs : step a f = a \/ Pack.folder_num f = Some (step a f)).
        { unfold Pack.batch_step.
          destruct (Pack.folder_num f) as [n|] eqn:E; [|now left].
          destruct (Z.max_spec a n) as [[_ ->]|[_ ->]]; [now right | now left]. }
        destruct Hs as [Hs|Hs].
        -- left. congruence.
        -- right. exists f. split; [now left | rewrite H3; exact Hs].
      * right. exists g. split; [now right | exact Hm].
Qed.

(** What [get_next_batch_num] returns: 1 when the speaker directory does
    not exist; otherwise one more than the largest number read from the
    entries that are directories, start with batch_ and whose text after
    the last underscore is an integer, and never less than 1. *)
Lemma get_next_batch_num_spec (out : Tree) (audio_source speaker : string) :
  let speaker_dir :=
    ["audio"] ++ PyPath.parts audio_source ++ PyPath.parts speaker in
  let next := Pack.get_next_batch_num out audio_source speaker in
  (FS.path_exists out speaker_dir = false -> next = 1%Z)
  /\ (1 <= next)%Z
  /\ (forall f n, FS.path_exists out speaker_dir = true ->
                  In f (FS.iterdir out speaker_dir) ->
                  Pack.folder_num f = Some n -> (n < next)%Z)
  /\ (next = 1%Z
      \/ exists f, In f (FS.iterdir out speaker_dir)
                   /\ Pack.folder_num f = Some (next - 1)%Z).
Proof.
  cbv zeta. unfold Pack.get_next_batch_num.
  destruct (FS.path_exists out _) eqn:E; cbn [negb].
  - destruct (fold_max_spec
                (FS.iterdir out (["audio"] ++ PyPath.parts audio_source
                                           ++ PyPath.parts speaker)) 0)
      as (H1 & H2 & H3).
    cbv zeta in *. repeat split.
    + discriminate.
    + lia.
    + intros f n _ Hf Hn. specialize (H2 f n Hf Hn). lia.
    + destruct H3 as [H3|[f [Hf Hm]]].
      * left. lia.
      * right. exists f. split; [exact Hf|]. rewrite Hm. f_equal. lia.
  - repeat split; try lia; try discriminate; auto.
Qed.

End NextBatchNum.

(** C3 does not hold of the code.  After a pack run with the explicit
    label batch_2026_01 (the label of the script's own usage notes), the
    speaker directory holds no directory of the form batch_####, yet
    [get_next_batch_num] reads the 01 after the last underscore and returns
    2: the next automatic run writes batch_0002, not batch_0001.  On a
    tree without the speaker directory it returns 1, and non-numeric
    suffixes and other names are passed over, as C3 says. *)
Theorem C3_explicit_label_read_as_number :
  FS.iterdir
    (Pack.tree
       (snd (Pack.pack
               (mkSource
                  (Some (mkFrame ["audio_path"; "speaker"; "audio_source"]
                           [mkRow "wavs/a.wav" "bob" "yt" []]))
                  (Some ["a.wav"]))
               (mkTree None [] []) (Some "batch_2026_01") 10000 false)))
    ["audio"; "yt"; "bob"]
  = [("batch_2026_01", true); ("batch_2026_01", true)]
  /\ Pack.get_next_batch_num
       (Pack.tree
          (snd (Pack.pack
                  (mkSource
                     (Some (mkFrame ["audio_path"; "speaker"; "audio_source"]
                              [mkRow "wavs/a.wav" "bob" "yt" []]))
                     (Some ["a.wav"]))
                  (mkTree None [] []) (Some "batch_2026_01") 10000 false)))
       "yt" "bob"
     = 2%Z
  /\ Pack.get_next_batch_num (mkTree None [] []) "yt" "bob" = 1%Z
  /\ Pack.get_next_batch_num
       (mkTree None [["audio"; "yt"; "bob"; "batch_0007"];
                     ["audio"; "yt"; "bob"; "batch_final"];
                     ["audio"; "yt"; "bob"; "notes"]] [])
       "yt" "bob"
     = 8%Z.
Proof. repeat split. Qed.

(** ** Dry runs *)

Section DryRun.

Lemma pack_group_dry (cols wav_names : list string)
    (exact_batch : option string) (max_rows : Z)
    (s : Pack.State) (g : Pack.key * list Row) :
  let r := Pack.pack_group cols wav_names exact_batch max_rows true s g in
  Pack.tree (snd r) = Pack.tree s
  /\ exists ev, Pack.log (snd r) = Pack.log s ++ ev /\ Log.mutations ev = [].
Proof.
  cbv zeta.
  destruct (Pack.chunks exact_batch max_rows (snd g)) as [cs|] eqn:Hc.
  - rewrite (pack_group_written cols wav_names exact_batch max_rows true s g
               cs (or_introl eq_refl) Hc).
    cbn [snd].
    match goal with
    | |- context [fold_left ?f ?l s] =>
        destruct (pack_chunks_extends cols wav_names exact_batch true
                    (Pack.sanitise (fst (fst g))) (Pack.sanitise (snd (fst g)))
                    (if negb (truthy exact_batch)
                     then Pack.get_next_batch_num (Pack.tree s)
                            (Pack.sanitise (fst (fst g)))
                            (Pack.sanitise (snd (fst g)))
                     else 0%Z) l s)
          as [[ev (L & _ & _ & _ & _ & M)] (_ & _ & T)]
    end.
    split; [now apply T|]. exists ev. split; [exact L | now apply M].
  - unfold Pack.pack_group. rewrite Hc. cbn [snd].
    split; [reflexivity|]. exists []. now rewrite app_nil_r.
Qed.

Lemma pack_groups_dry (cols wav_names : list string)
    (exact_batch : option string) (max_rows : Z)
    (gs : list (Pack.key * list Row)) (s : Pack.State) :
  let r := Pack.pack_groups cols wav_names exact_batch max_rows true gs s in
  Pack.tree (snd r) = Pack.tree s
  /\ exists ev, Pack.log (snd r) = Pack.log s ++ ev /\ Log.mutations ev = [].
Proof.
  cbv zeta. revert s. induction gs as [|g gs IH]; intros s; simpl.
  - split; [reflexivity|]. exists []. now rewrite app_nil_r.
  - pose proof (pack_group_dry cols wav_names exact_batch max_rows s g) as H.
    cbv zeta in H.
    destruct (Pack.pack_group cols wav_names exact_batch max_rows true s g)
      as [o s1].
    cbn [snd] in H. destruct H as [T [ev [L M]]].
    destruct o; try (cbn [snd]; split; [exact T | now exists ev]).
    destruct (IH s1) as [T2 [ev2 [L2 M2]]].
    split; [congruence|]. exists (ev ++ ev2). split.
    + now rewrite L2, L, app_assoc.
    + now rewrite mutations_app, M, M2.
Qed.

(** A dry run of pack changes nothing, whatever it is given. *)
Lemma pack_dry_run_pure (src : Source) (out : Tree)
    (exact_batch : option string) (max_rows : Z) :
  Pack.tree (snd (Pack.pack src out exact_batch max_rows true)) = out
  /\ Log.mutations (Pack.log (snd (Pack.pack src out exact_batch max_rows true)))
     = [].
Proof.
  unfold Pack.pack.
  destruct (Pack.load_metadata src) as [df|msg]; [|now split].
  destruct (wavs src) as [wav_names|]; [|now split].
  pose proof (pack_groups_dry (columns df) wav_names exact_batch max_rows
                (Pack.groupby (rows df)) (Pack.mkState out [] 0 0)) as H.
  cbv zeta in H.
  destruct (Pack.pack_groups _ _ _ _ true _ _) as [o s2]. cbn [snd] in H.
  destruct H as [T [ev [L M]]]. cbn [Pack.tree Pack.log app] in *.
  destruct o; cbn [snd Pack.tree Pack.log]; (split; [exact T|]);
    rewrite L, ?mutations_app, M; reflexivity.
Qed.

(** A dry run of unpack changes nothing, whatever it is given. *)
Lemma unpack_dry_run_pure (dataset : Tree) (dataset_dir : string) (out : Flat)
    (speaker_f audio_source_f batch_f : option string) :
  let r := Unpack.unpack dataset dataset_dir out speaker_f audio_source_f
                         batch_f true in
  Unpack.flat (snd r) = out /\ Log.mutations (Unpack.log (snd r)) = [].
Proof.
  cbv zeta.
  destruct (metadata dataset) as [meta|] eqn:M;
    [|unfold Unpack.unpack; rewrite M; now split].
  destruct (Unpack.parquet_files meta) as [|f fs] eqn:P.
  { unfold Unpack.unpack, Unpack.load_all_metadata. rewrite M, P. now split. }
  destruct (Unpack.filter_rows
              (rows (Unpack.concat_frames (map snd (Unpack.parquet_files meta))))
              speaker_f audio_source_f batch_f) as [|r0 kept0] eqn:K.
  { unfold Unpack.unpack, Unpack.load_all_metadata, Unpack.apply_filters.
    rewrite M. rewrite P in *. rewrite K. now split. }
  destruct (unpack_finishes dataset dataset_dir out speaker_f audio_source_f
              batch_f true meta _ _ M ltac:(congruence) eq_refl eq_refl
              ltac:(rewrite K; discriminate))
    as (s & E & _ & _ & _ & _ & _ & Hdry).
  rewrite E. cbn [snd]. now apply Hdry.
Qed.

End DryRun.

(** Unpack decides the same in a dry run and in a real run: same outcome,
    same source -> destination pairs, same warnings, same row count. *)
Lemma unpack_dry_run_same_plan (dataset : Tree) (dataset_dir : string)
    (out : Flat) (speaker_f audio_source_f batch_f : option string) :
  let dry := Unpack.unpack dataset dataset_dir out speaker_f audio_source_f
                           batch_f true in
  let real := Unpack.unpack dataset dataset_dir out speaker_f audio_source_f
                            batch_f false in
  fst dry = fst real
  /\ Log.copy_plan (Unpack.log (snd dry)) = Log.copy_plan (Unpack.log (snd real))
  /\ Log.shard_plan (Unpack.log (snd dry))
     = Log.shard_plan (Unpack.log (snd real))
  /\ Log.warnings (Unpack.log (snd dry)) = Log.warnings (Unpack.log (snd real)).
Proof.
  cbv zeta.
  destruct (metadata dataset) as [meta|] eqn:M;
    [|unfold Unpack.unpack; rewrite M; now repeat split].
  destruct (Unpack.parquet_files meta) as [|f fs] eqn:P.
  { unfold Unpack.unpack, Unpack.load_all_metadata. rewrite M, P.
    now repeat split. }
  destruct (Unpack.filter_rows
              (rows (Unpack.concat_frames (map snd (Unpack.parquet_files meta))))
              speaker_f audio_source_f batch_f) as [|r0 kept0] eqn:K.
  { unfold Unpack.unpack, Unpack.load_all_metadata, Unpack.apply_filters.
    rewrite M. rewrite P in *. rewrite K. now repeat split. }
  destruct (unpack_finishes dataset dataset_dir out speaker_f audio_source_f
              batch_f true meta _ _ M ltac:(congruence) eq_refl eq_refl
              ltac:(rewrite K; discriminate))
    as (s & E & _ & W & C & Sp & _).
  destruct (unpack_finishes dataset dataset_dir out speaker_f audio_source_f
              batch_f false meta _ _ M ltac:(congruence) eq_refl eq_refl
              ltac:(rewrite K; discriminate))
    as (s' & E' & _ & W' & C' & Sp' & _).
  rewrite E, E'. cbn [fst snd]. rewrite W, W', C, C', Sp, Sp'.
  now repeat split.
Qed.

(** C8 does not hold of pack.  A dry run never changes the file
    system, in either direction, and unpack decides the same dry or real.
    Pack does not: for two rows whose sources "A" and "a" sanitise to the
    same directory, the real run creates batch_0001 while it handles the
    first group and so numbers the second group batch_0002, whereas the dry
    run, which creates nothing, announces batch_0001 for both. *)
Theorem C8_pack_dry_run_diverges :
  (forall src out exact_batch max_rows,
      Pack.tree (snd (Pack.pack src out exact_batch max_rows true)) = out
      /\ Log.mutations
           (Pack.log (snd (Pack.pack src out exact_batch max_rows true))) = [])
  /\ (forall dataset dataset_dir out speaker_f audio_source_f batch_f,
        Unpack.flat (snd (Unpack.unpack dataset dataset_dir out speaker_f
                                        audio_source_f batch_f true)) = out
        /\ Log.mutations
             (Unpack.log (snd (Unpack.unpack dataset dataset_dir out speaker_f
                                             audio_source_f batch_f true)))
           = []
        /\ Log.copy_plan
             (Unpack.log (snd (Unpack.unpack dataset dataset_dir out speaker_f
                                             audio_source_f batch_f true)))
           = Log.copy_plan
               (Unpack.log (snd (Unpack.unpack dataset dataset_dir out speaker_f
                                               audio_source_f batch_f false)))
        /\ Log.shard_plan
             (Unpack.log (snd (Unpack.unpack dataset dataset_dir out speaker_f
                                             audio_source_f batch_f true)))
           = Log.shard_plan
               (Unpack.log (snd (Unpack.unpack dataset dataset_dir out speaker_f
                                               audio_source_f batch_f false))))
  /\ Log.copy_plan
       (Pack.log
          (snd (Pack.pack
                  (mkSource
                     (Some (mkFrame ["audio_path"; "speaker"; "audio_source"]
                              [mkRow "wavs/a.wav" "x" "A" [];
                               mkRow "wavs/b.wav" "x" "a" []]))
                     (Some ["a.wav"; "b.wav"]))
                  (mkTree None [] []) None 10000 true)))
     = [("a.wav", ["audio"; "a"; "x"; "batch_0001"; "a.wav"]);
        ("b.wav", ["audio"; "a"; "x"; "batch_0001"; "b.wav"])]
  /\ Log.copy_plan
       (Pack.log
          (snd (Pack.pack
                  (mkSource
                     (Some (mkFrame ["audio_path"; "speaker"; "audio_source"]
                              [mkRow "wavs/a.wav" "x" "A" [];
                               mkRow "wavs/b.wav" "x" "a" []]))
                     (Some ["a.wav"; "b.wav"]))
                  (mkTree None [] []) None 10000 false)))
     = [("a.wav", ["audio"; "a"; "x"; "batch_0001"; "a.wav"]);
        ("b.wav", ["audio"; "a"; "x"; "batch_0002"; "b.wav"])]
  /\ Log.shard_plan
       (Pack.log
          (snd (Pack.pack
                  (mkSource
                     (Some (mkFrame ["audio_path"; "speaker"; "audio_source"]
                              [mkRow "wavs/a.wav" "x" "A" [];
                               mkRow "wavs/b.wav" "x" "a" []]))
                     (Some ["a.wav"; "b.wav"]))
                  (mkTree None [] []) None 10000 true)))
     = [("a_x_batch_0001.parquet", 1%nat); ("a_x_batch_0001.parquet", 1%nat)]
  /\ Log.shard_plan
       (Pack.log
          (snd (Pack.pack
                  (mkSource
                     (Some (mkFrame ["audio_path"; "speaker"; "audio_source"]
                              [mkRow "wavs/a.wav" "x" "A" [];
                               mkRow "wavs/b.wav" "x" "a" []]))
                     (Some ["a.wav"; "b.wav"]))
                  (mkTree None [] []) None 10000 false)))
     = [("a_x_batch_0001.parquet", 1%nat); ("a_x_batch_0002.parquet", 1%nat)].
Proof.
  split; [intros; apply pack_dry_run_pure|].
  split.
  - intros dataset dir out sf af bf.
    destruct (unpack_dry_run_pure dataset dir out sf af bf) as [H1 H2].
    destruct (unpack_dry_run_same_plan dataset dir out sf af bf)
      as (_ & H3 & H4 & _).
    auto.
  - repeat split; vm_compute; reflexivity.
Qed.

(** ** Repeated runs and the round trip *)

(** The example of the specification, scaled down: five rows in chunks of
    two give batch_0001 to batch_0003; a second run with one more row of the
    same group writes batch_0004. *)
Example second_run_continues :
  Log.shard_plan
    (Pack.log
       (snd (Pack.pack
               (mkSource
                  (Some (mkFrame ["audio_path"; "speaker"; "audio_source"]
                           [mkRow "wavs/6.wav" "bob" "yt" []]))
                  (Some ["6.wav"]))
               (Pack.tree
                  (snd (Pack.pack
                          (mkSource
                             (Some (mkFrame ["audio_path"; "speaker"; "audio_source"]
                                      [mkRow "wavs/1.wav" "bob" "yt" [];
                                       mkRow "wavs/2.wav" "bob" "yt" [];
                                       mkRow "wavs/3.wav" "bob" "yt" [];
                                       mkRow "wavs/4.wav" "bob" "yt" [];
                                       mkRow "wavs/5.wav" "bob" "yt" []]))
                             (Some ["1.wav"; "2.wav"; "3.wav"; "4.wav"; "5.wav"]))
                          (mkTree None [] []) None 2 false)))
               None 2 false)))
  = [("yt_bob_batch_0004.parquet", 1%nat)].
Proof. vm_compute. reflexivity. Qed.

(** C2 does not hold of the code.  The batch directory is created only
    when a file is copied into it.  A first run whose only row has no wav
    file writes the shard yt_bob_batch_0001.parquet and creates no
    directory; the second run against the same output finds no batch
    directory, uses batch_0001 again and replaces the first run's shard. *)
Theorem C2_batch_number_reused :
  Pack.pack
    (mkSource
       (Some (mkFrame ["audio_path"; "speaker"; "audio_source"]
                [mkRow "wavs/gone.wav" "bob" "yt" []]))
       (Some []))
    (mkTree None [] []) None 10000 false
  = (Finished,
     Pack.mkState
       (mkTree
          (Some [("yt_bob_batch_0001.parquet",
                  mkFrame ["audio_path"; "speaker"; "audio_source"]
                    [mkRow "wavs/gone.wav" "bob" "yt" []])])
          [] [])
       [Mkdir ["metadata"]; Warn "gone.wav";
        Saved "yt_bob_batch_0001.parquet"
          (mkFrame ["audio_path"; "speaker"; "audio_source"]
             [mkRow "wavs/gone.wav" "bob" "yt" []]);
        Done 0 1]
       0 1)
  /\ Pack.pack
       (mkSource
          (Some (mkFrame ["audio_path"; "speaker"; "audio_source"]
                   [mkRow "wavs/new.wav" "bob" "yt" []]))
          (Some ["new.wav"]))
       (mkTree
          (Some [("yt_bob_batch_0001.parquet",
                  mkFrame ["audio_path"; "speaker"; "audio_source"]
                    [mkRow "wavs/gone.wav" "bob" "yt" []])])
          [] [])
       None 10000 false
     = (Finished,
        Pack.mkState
          (mkTree
             (Some [("yt_bob_batch_0001.parquet",
                     mkFrame ["audio_path"; "speaker"; "audio_source"]
                       [mkRow "audio/yt/bob/batch_0001/new.wav" "bob" "yt" []])])
             [["audio"; "yt"; "bob"; "batch_0001"]]
             [["audio"; "yt"; "bob"; "batch_0001"; "new.wav"]])
          [Mkdir ["metadata"];
           Mkdir ["audio"; "yt"; "bob"; "batch_0001"];
           Copy "new.wav" ["audio"; "yt"; "bob"; "batch_0001"; "new.wav"];
           Saved "yt_bob_batch_0001.parquet"
             (mkFrame ["audio_path"; "speaker"; "audio_source"]
                [mkRow "audio/yt/bob/batch_0001/new.wav" "bob" "yt" []]);
           Done 1 0]
          1 0).
Proof. split; vm_compute; reflexivity. Qed.

(** C1 does not hold of the code.  The shard file name joins source,
    speaker and batch with underscores, so the groups (a_b, c) and (a, b_c)
    both write a_b_c_batch_0001.parquet.  Packing a flat dataset of two
    rows whose wav files both exist into an empty output leaves one shard
    with one row, and unpacking it with no filters gives a table of one
    row, not two. *)
Theorem C1_round_trip_loses_a_row :
  Log.shard_plan
    (Pack.log
       (snd (Pack.pack
               (mkSource
                  (Some (mkFrame ["audio_path"; "speaker"; "audio_source"]
                           [mkRow "wavs/x.wav" "c" "a_b" [];
                            mkRow "wavs/y.wav" "b_c" "a" []]))
                  (Some ["x.wav"; "y.wav"]))
               (mkTree None [] []) None 10000 false)))
  = [("a_b_c_batch_0001.parquet", 1%nat); ("a_b_c_batch_0001.parquet", 1%nat)]
  /\ metadata
       (Pack.tree
          (snd (Pack.pack
                  (mkSource
                     (Some (mkFrame ["audio_path"; "speaker"; "audio_source"]
                              [mkRow "wavs/x.wav" "c" "a_b" [];
                               mkRow "wavs/y.wav" "b_c" "a" []]))
                     (Some ["x.wav"; "y.wav"]))
                  (mkTree None [] []) None 10000 false)))
     = Some [("a_b_c_batch_0001.parquet",
              mkFrame ["audio_path"; "speaker"; "audio_source"]
                [mkRow "audio/a_b/c/batch_0001/x.wav" "c" "a_b" []])]
  /\ Unpack.unpack
       (Pack.tree
          (snd (Pack.pack
                  (mkSource
                     (Some (mkFrame ["audio_path"; "speaker"; "audio_source"]
                              [mkRow "wavs/x.wav" "c" "a_b" [];
                               mkRow "wavs/y.wav" "b_c" "a" []]))
                     (Some ["x.wav"; "y.wav"]))
                  (mkTree None [] []) None 10000 false)))
       "/data/ds" (mkFlat false None None) None None None false
     = (Finished,
        Unpack.mkState
          (mkFlat true
             (Some (mkFrame ["audio_path"; "speaker"; "audio_source"]
                      [mkRow "wavs/x.wav" "c" "a_b" []]))
             (Some ["x.wav"]))
          [Loaded 1 1; AfterFilters 1 1; Mkdir ["wavs"];
           Copy "audio/a_b/c/batch_0001/x.wav" ["wavs"; "x.wav"];
           Mkdir [];
           Saved "metadata.csv"
             (mkFrame ["audio_path"; "speaker"; "audio_source"]
                [mkRow "wavs/x.wav" "c" "a_b" []]);
           Done 1 0]
          1 0 ["wavs/x.wav"]).
Proof. repeat split; vm_compute; reflexivity. Qed.

Section RoundTripStrings.

Lemma str_app_assoc (a b c : string) :
  ((a ++ b) ++ c)%string = (a ++ (b ++ c))%string.
Proof. induction a as [|x a IH]; simpl; [reflexivity | now rewrite IH]. Qed.

Lemma str_length_app (a b : string) :
  String.length (a ++ b)%string = (String.length a + String.length b)%nat.
Proof. induction a as [|x a IH]; simpl; [reflexivity | now rewrite IH]. Qed.

Lemma split_app_sep (sep : ascii) (a b : string) :
  PyStr.split sep (a ++ String sep b)%string
  = PyStr.split sep a ++ PyStr.split sep b.
Proof.
  induction a as [|c a IH]; simpl.
  - now rewrite Ascii.eqb_refl.
  - destruct (Ascii.eqb c sep); rewrite IH; [reflexivity|].
    destruct (PyStr.split sep a) as [|h t] eqn:E; [|reflexivity].
    now destruct (split_nonempty sep a).
Qed.

Lemma substring_all (p : string) : String.substring 0 (String.length p) p = p.
Proof. induction p as [|c p IH]; simpl; [reflexivity | now rewrite IH]. Qed.

Lemma substring_skip (x p : string) (m : nat) :
  String.substring (String.length x) m (x ++ p)%string = String.substring 0 m p.
Proof. induction x as [|c x IH]; simpl; [reflexivity | exact IH]. Qed.

Lemma endswith_app (x p : string) : PyStr.endswith (x ++ p)%string p = true.
Proof.
  unfold PyStr.endswith. rewrite str_length_app.
  replace (String.length x + String.length p - String.length p)%nat
    with (String.length x) by lia.
  rewrite substring_skip, substring_all, String.eqb_refl, andb_true_r.
  apply Nat.leb_le. lia.
Qed.

Lemma parts_app_sep (a b : string) :
  PyPath.parts (a ++ String "/" b)%string = PyPath.parts a ++ PyPath.parts b.
Proof. unfold PyPath.parts. now rewrite split_app_sep, filter_app. Qed.


End RoundTripStrings.

(** ** What a real run of pack leaves in metadata/ *)

Section PackWrites.

Variables (cols wav_names : list string).
Variable exact_batch : option string.
Variable max_rows : Z.

Lemma writes_refl (s : Pack.State) : Plan.writes s s.
Proof.
  exists []. rewrite app_nil_r. repeat split; auto.
Qed.

Lemma writes_trans (s s1 s2 : Pack.State) :
  Plan.writes s s1 -> Plan.writes s1 s2 -> Plan.writes s s2.
Proof.
  intros [e1 (L1 & M1 & F1)] [e2 (L2 & M2 & F2)].
  exists (e1 ++ e2). repeat split.
  - now rewrite L2, L1, app_assoc.
  - intros m Hm. rewrite saved_app. unfold Plan.replay_saved.
    rewrite fold_left_app. apply M2. now apply M1.
  - rewrite saved_app. now apply Forall_app.
Qed.

Lemma pack_row_metadata (S P B : string) (a : Pack.RowAcc) (r : Row) :
  metadata (Pack.tree (Pack.st (Pack.pack_row wav_names S P B false a r)))
  = metadata (Pack.tree (Pack.st a)).
Proof.
  unfold Pack.pack_row.
  destruct (negb (existsb _ wav_names)); reflexivity.
Qed.

Lemma pack_rows_metadata (S P B : string) (chunk : list Row) (a : Pack.RowAcc) :
  metadata (Pack.tree (Pack.st (fold_left (Pack.pack_row wav_names S P B false)
                                          chunk a)))
  = metadata (Pack.tree (Pack.st a)).
Proof.
  revert a. induction chunk as [|r chunk IH]; intros a; simpl; [reflexivity|].
  now rewrite IH, pack_row_metadata.
Qed.

Lemma row_events_saved (S P B : string) (dry_run : bool) (chunk : list Row) :
  Log.saved (flat_map (Plan.row_events wav_names S P B dry_run) chunk) = [].
Proof.
  induction chunk as [|r chunk IH]; [reflexivity|].
  cbn [flat_map]. rewrite saved_app, IH, app_nil_r.
  unfold Plan.row_events.
  destruct (Plan.wav_present wav_names r); destruct dry_run; reflexivity.
Qed.

Lemma parquet_name_suffix (S P B : string) :
  PyStr.endswith (Pack.parquet_name_of S P B) ".parquet" = true.
Proof.
  unfold Pack.parquet_name_of.
  replace (S ++ "_" ++ P ++ "_" ++ B ++ ".parquet")%string
    with ((S ++ "_" ++ P ++ "_" ++ B) ++ ".parquet")%string
    by (rewrite !str_app_assoc; reflexivity).
  apply endswith_app.
Qed.

Lemma pack_chunk_writes (S P : string) (start : Z) (s : Pack.State)
    (ic : nat * list Row) :
  Plan.writes s (Plan.chunk_done cols wav_names S P exact_batch start false s ic).
Proof.
  destruct (pack_chunk_spec cols wav_names false S P exact_batch start s ic)
    as (Hl & _).
  eexists. split; [exact Hl|].
  unfold Plan.chunk_events. rewrite saved_app, row_events_saved.
  cbn [app Log.saved Log.saved_frame flat_map]. split.
  - intros m Hm. unfold Plan.chunk_done.
    cbn [Pack.tree FS.put_shard metadata].
    rewrite pack_rows_metadata. cbn [Pack.st Pack.tree]. rewrite Hm.
    destruct (pack_rows_fold wav_names false S P
                (Pack.batch_label exact_batch start (fst ic)) (snd ic)
                (Pack.mkAcc s [] 0)) as (Hp & _).
    cbv zeta in Hp. rewrite Hp. cbn [Pack.new_audio_paths app].
    rewrite assign_mapped. reflexivity.
  - constructor; [apply parquet_name_suffix | constructor].
Qed.

Lemma pack_chunks_writes (S P : string) (start : Z)
    (ics : list (nat * list Row)) (s : Pack.State) :
  Plan.writes s
    (fold_left (Plan.chunk_done cols wav_names S P exact_batch start false)
               ics s).
Proof.
  revert s. induction ics as [|ic ics IH]; intros s; simpl.
  - apply writes_refl.
  - eapply writes_trans; [apply pack_chunk_writes | apply IH].
Qed.

Lemma chunk_failed_writes (S P : string) (start : Z) (s : Pack.State)
    (ic : nat * list Row) :
  Plan.writes s (Plan.chunk_failed wav_names S P exact_batch start s ic).
Proof.
  destruct (pack_rows_fold wav_names false S P
              (Pack.batch_label exact_batch start (fst ic)) (snd ic)
              (Pack.mkAcc s [] 0)) as (_ & Hl & _).
  cbv zeta in Hl. cbn [Pack.st] in Hl.
  eexists. unfold Plan.chunk_failed. cbn [Pack.log Pack.tree].
  split; [exact Hl|]. rewrite row_events_saved. split.
  - intros m Hm. rewrite pack_rows_metadata. cbn [Pack.st]. exact Hm.
  - constructor.
Qed.

Lemma pack_chunk_run_writes (S P : string) (start : Z) (s : Pack.State)
    (ic : nat * list Row) :
  Plan.writes s
    (snd (Pack.pack_chunk cols wav_names S P exact_batch start false s ic)).
Proof.
  destruct (pack_chunk_cases cols wav_names S P exact_batch start false s ic)
    as [E|(_ & _ & E)]; rewrite E; cbn [snd].
  - apply pack_chunk_writes.
  - apply chunk_failed_writes.
Qed.

Lemma pack_chunks_run_writes (S P : string) (start : Z)
    (ics : list (nat * list Row)) (s : Pack.State) :
  Plan.writes s
    (snd (Pack.pack_chunks cols wav_names S P exact_batch start false ics s)).
Proof.
  revert s. induction ics as [|ic ics IH]; intros s; cbn [Pack.pack_chunks].
  - apply writes_refl.
  - pose proof (pack_chunk_run_writes S P start s ic) as H.
    destruct (Pack.pack_chunk _ _ _ _ _ _ _ s ic) as [o s1]. cbn [snd] in H.
    destruct o; cbn [snd]; try exact H.
    eapply writes_trans; [exact H | apply IH].
Qed.

Lemma pack_groups_writes (gs : list (Pack.key * list Row)) (s : Pack.State) :
  Plan.writes s
    (snd (Pack.pack_groups cols wav_names exact_batch max_rows false gs s)).
Proof.
  revert s. induction gs as [|g gs IH]; intros s; cbn [Pack.pack_groups].
  - apply writes_refl.
  - assert (H : Plan.writes s
                  (snd (Pack.pack_group cols wav_names exact_batch max_rows
                                        false s g))).
    { unfold Pack.pack_group.
      destruct (Pack.chunks exact_batch max_rows (snd g)) as [cs|].
      - apply pack_chunks_run_writes.
      - apply writes_refl. }
    destruct (Pack.pack_group _ _ _ _ _ s g) as [o s1]. cbn [snd] in H.
    destruct o; cbn [snd]; try exact H.
    eapply writes_trans; [exact H | apply IH].
Qed.

End PackWrites.

Lemma chunk_events_saved (cols wav_names : list string) (S P B : string)
    (chunk : list Row) :
  Log.saved (Plan.chunk_events cols wav_names S P B false chunk)
  = [(Pack.parquet_name_of S P B,
      mkFrame cols (map (Plan.mapped_row wav_names S P B) chunk))].
Proof.
  unfold Plan.chunk_events. rewrite saved_app, row_events_saved. reflexivity.
Qed.



Lemma pack_real_metadata (src : Source) (out : Tree)
    (exact_batch : option string) (max_rows : Z) (df : DataFrame)
    (wav_names : list string) :
  metadata_csv src = Some df ->
  (forall c, In c Pack.required -> In c (columns df)) ->
  wavs src = Some wav_names ->
  let s := snd (Pack.pack src out exact_batch max_rows false) in
  metadata (Pack.tree s)
  = Some (Plan.replay_saved (Log.saved (Pack.log s))
            (match metadata out with Some l => l | None => [] end))
  /\ Forall (fun x => PyStr.endswith (fst x) ".parquet" = true)
            (Log.saved (Pack.log s)).
Proof.
  intros Hcsv Hcols Hw. cbv zeta. unfold Pack.pack.
  rewrite (load_metadata_ok src df Hcsv Hcols), Hw.
  pose proof (pack_groups_writes (columns df) wav_names exact_batch max_rows
                (Pack.groupby (rows df))
                (Pack.mkState (FS.mkdir_metadata out) [Mkdir ["metadata"]] 0 0))
    as [ev (L & M & F)].
  destruct (Pack.pack_groups _ _ _ _ false _ _) as [o s2].
  cbn [snd Pack.log Pack.tree] in *.
  specialize (M _ eq_refl).
  destruct o; cbn [snd Pack.log Pack.tree]; rewrite L, ?saved_app;
    cbn [Log.saved Log.saved_frame flat_map app]; rewrite ?app_nil_r;
    split; assumption.
Qed.





(** ** Row conservation *)








(** ** Rows whose audio file is absent *)




(** * Further properties of the code *)

(** ** sanitise *)

Section SanitiseFacts.

Local Abbreviation under := (fun c : ascii => if Ascii.eqb c " " then "_"%char else c).
Local Abbreviation dash := (fun c : ascii => if Ascii.eqb c "/" then "-"%char else c).

(** X1. A sanitised name holds no slash, no space and no ASCII capital, has
    no white space at either end, and is at most one path component: its
    parts are the name itself, or nothing when the name is empty or a
    single dot. *)
Theorem sanitise_is_one_component :
  forall v : string,
    ~ In "/"%char (Shape.chars (Pack.sanitise v))
    /\ ~ In " "%char (Shape.chars (Pack.sanitise v))
    /\ (forall c, In c (Shape.chars (Pack.sanitise v)) ->
                  Shape.is_upper c = false)
    /\ Shape.starts_clean (Pack.sanitise v) = true
    /\ Shape.ends_clean (Pack.sanitise v) = true
    /\ PyPath.parts (Pack.sanitise v)
       = (if PyPath.keep_part (Pack.sanitise v) then [Pack.sanitise v] else []).
Proof.
  intros v.
  assert (Hs : ~ In "/"%char (Shape.chars (Pack.sanitise v))).
  { intros H. apply sanitise_char in H. now destruct H. }
  split; [exact Hs|]. split.
  { intros H. apply sanitise_char in H. now destruct H as (_ & H & _). }
  split.
  { intros c H. now apply sanitise_char in H. }
  destruct (sanitise_clean v) as [H1 H2].
  split; [exact H1|]. split; [exact H2|].
  unfold PyPath.parts. rewrite (split_no_sep "/" _ Hs). reflexivity.
Qed.

(** X2. Sanitising is idempotent: a name that is already sanitised is left
    as it is. *)
Theorem sanitise_idempotent :
  forall v : string, Pack.sanitise (Pack.sanitise v) = Pack.sanitise v.
Proof.
  intros v. destruct (sanitise_clean v) as [H1 H2].
  unfold Pack.sanitise at 1.
  rewrite (strip_fixed _ H1 H2).
  unfold PyStr.lower, PyStr.replace.
  rewrite (map_chars_id PyStr.lower_ascii).
  - rewrite (map_chars_id under).
    + apply map_chars_id. intros c Hc. apply sanitise_char in Hc.
      destruct Hc as (Hc & _). now destruct (Ascii.eqb_spec c "/").
    + intros c Hc. apply sanitise_char in Hc.
      destruct Hc as (_ & Hc & _). now destruct (Ascii.eqb_spec c " ").
  - intros c Hc. apply sanitise_char in Hc. apply not_upper_fixed. apply Hc.
Qed.

Lemma lstrip_map (f : ascii -> ascii) (s : string) :
  (forall c, PyStr.is_space (f c) = PyStr.is_space c) ->
  PyStr.lstrip (PyStr.map_chars f s) = PyStr.map_chars f (PyStr.lstrip s).
Proof.
  intros Hf. induction s as [|c s IH]; simpl; [reflexivity|].
  rewrite Hf. destruct (PyStr.is_space c); [exact IH | reflexivity].
Qed.

Lemma rstrip_map (f : ascii -> ascii) (s : string) :
  (forall c, PyStr.is_space (f c) = PyStr.is_space c) ->
  PyStr.rstrip (PyStr.map_chars f s) = PyStr.map_chars f (PyStr.rstrip s).
Proof.
  intros Hf. induction s as [|c s IH]; simpl; [reflexivity|].
  rewrite IH, Hf. destruct (PyStr.rstrip s); simpl.
  - destruct (PyStr.is_space c); reflexivity.
  - reflexivity.
Qed.

Lemma lower_idem (s : string) : PyStr.lower (PyStr.lower s) = PyStr.lower s.
Proof.
  unfold PyStr.lower. induction s as [|c s IH]; simpl; [reflexivity|].
  now rewrite lower_ascii_idem, IH.
Qed.

Lemma lstrip_blank_prefix (pre w : string) :
  (forall c, In c (Shape.chars pre) -> PyStr.is_space c = true) ->
  PyStr.lstrip (pre ++ w)%string = PyStr.lstrip w.
Proof.
  unfold Shape.chars. induction pre as [|c pre IH]; simpl; intros H;
    [reflexivity|].
  rewrite (H c) by now left. apply IH. intros d Hd. apply H. now right.
Qed.

Lemma rstrip_blank (post : string) :
  (forall c, In c (Shape.chars post) -> PyStr.is_space c = true) ->
  PyStr.rstrip post = EmptyString.
Proof.
  unfold Shape.chars. induction post as [|c post IH]; simpl; intros H;
    [reflexivity|].
  rewrite IH by (intros d Hd; apply H; now right).
  now rewrite (H c) by now left.
Qed.

Lemma rstrip_blank_suffix (x post : string) :
  (forall c, In c (Shape.chars post) -> PyStr.is_space c = true) ->
  PyStr.rstrip (x ++ post)%string = PyStr.rstrip x.
Proof.
  intros H. induction x as [|c x IH]; simpl.
  - now apply rstrip_blank.
  - now rewrite IH.
Qed.

Lemma strip_padded (pre v post : string) :
  (forall c, In c (Shape.chars pre) -> PyStr.is_space c = true) ->
  (forall c, In c (Shape.chars post) -> PyStr.is_space c = true) ->
  PyStr.strip (pre ++ v ++ post)%string = PyStr.strip v.
Proof.
  intros Hpre Hpost. unfold PyStr.strip.
  rewrite (lstrip_blank_prefix pre _ Hpre).
  induction v as [|c v IH]; simpl.
  - assert (E : PyStr.lstrip post = EmptyString).
    { pose proof (lstrip_blank_prefix post EmptyString Hpost) as E.
      replace (post ++ EmptyString)%string with post in E; [exact E|].
      clear. induction post as [|c post IH]; simpl; [reflexivity|].
      now rewrite <- IH. }
    now rewrite E.
  - destruct (PyStr.is_space c); [exact IH|].
    change (PyStr.rstrip (String c v ++ post)%string
            = PyStr.rstrip (String c v)).
    now apply rstrip_blank_suffix.
Qed.

(** X3. Raw values that differ only in the case of ASCII letters or in
    white space around them are sanitised to the same name, so their rows
    share one speaker or source directory. *)
Theorem sanitise_merges_case_and_blanks :
  forall v : string,
    Pack.sanitise (PyStr.lower v) = Pack.sanitise v
    /\ forall pre post : string,
         (forall c, In c (Shape.chars pre) -> PyStr.is_space c = true) ->
         (forall c, In c (Shape.chars post) -> PyStr.is_space c = true) ->
         Pack.sanitise (pre ++ v ++ post)%string = Pack.sanitise v.
Proof.
  intros v. split.
  - unfold Pack.sanitise, PyStr.strip. unfold PyStr.lower at 2.
    rewrite lstrip_map, rstrip_map by apply lower_ascii_space.
    fold (PyStr.lower (PyStr.rstrip (PyStr.lstrip v))).
    now rewrite lower_idem.
  - intros pre post Hpre Hpost. unfold Pack.sanitise.
    now rewrite strip_padded.
Qed.

End SanitiseFacts.



Lemma label_parts (z : Z) :
  PyPath.parts ("batch_" ++ PyStr.format_04d z)%string
  = [("batch_" ++ PyStr.format_04d z)%string].
Proof.
  unfold PyPath.parts. rewrite split_no_sep.
  - reflexivity.
  - intros H. now apply label_chars in H.
Qed.

Lemma label_folder_num (z : Z) :
  Pack.folder_num (("batch_" ++ PyStr.format_04d z)%string, true) = Some z.
Proof.
  assert (Hp : String.prefix "batch_" ("batch_" ++ PyStr.format_04d z) = true).
  { apply prefix_iff_append. now exists (PyStr.format_04d z). }
  unfold Pack.folder_num, PyStr.startswith. cbn [fst snd].
  rewrite Hp. cbn [andb].
  change ("batch_" ++ PyStr.format_04d z)%string
    with ("batch" ++ String "_" (PyStr.format_04d z))%string.
  rewrite split_app_sep, (split_no_sep "_" (PyStr.format_04d z)).
  - cbn [PyStr.split]. simpl last. apply int_of_format.
  - intros H. apply format_04d_chars in H.
    destruct H as [H|H]; [now apply digit_facts in H | discriminate].
Qed.

(** X4. A batch label written by pack reads back as its number: [int]
    undoes the [:04d] formatting for every integer, [get_next_batch_num]
    reads from the directory batch_{n:04d} exactly n, the label is a single
    path component, and labels of different numbers differ. *)
Theorem batch_label_reads_back :
  forall z : Z,
    PyStr.int (PyStr.format_04d z) = Some z
    /\ Pack.folder_num (Pack.batch_label None z 0, true) = Some z
    /\ PyPath.parts (Pack.batch_label None z 0) = [Pack.batch_label None z 0]
    /\ (forall (start start' : Z) (idx idx' : nat),
          Pack.batch_label None start idx = Pack.batch_label None start' idx' ->
          (start + Z.of_nat idx = start' + Z.of_nat idx')%Z).
Proof.
  intros z. unfold Pack.batch_label. cbn [truthy].
  replace (z + Z.of_nat 0)%Z with z by lia.
  split; [apply int_of_format|]. split; [apply label_folder_num|].
  split; [apply label_parts|].
  intros start start' idx idx' H.
  pose proof (label_folder_num (start + Z.of_nat idx)) as H1.
  pose proof (label_folder_num (start' + Z.of_nat idx')) as H2.
  rewrite H in H1. congruence.
Qed.

(** ** The next batch number as the tree grows *)

Section NextNumber.

Lemma iterdir_entries (t : Tree) (p : list string) :
  FS.iterdir t p
  = flat_map (Shape.dir_entry p) (FS.dir_paths t)
    ++ flat_map (Shape.file_entry p) (FS.file_paths t).
Proof. reflexivity. Qed.

Lemma flat_map_nil {A B} (f : A -> list B) (l : list A) :
  (forall x, In x l -> f x = []) -> flat_map f l = [].
Proof.
  induction l as [|x l IH]; simpl; intros H; [reflexivity|].
  rewrite (H x) by now left. apply IH. intros y Hy. apply H. now right.
Qed.

Lemma iterdir_absent (t : Tree) (p : list string) :
  p <> [] -> FS.path_exists t p = false -> FS.iterdir t p = [].
Proof.
  intros Hp H. destruct p as [|a p]; [congruence|].
  unfold FS.path_exists in H.
  assert (Hn : forall d, In d (FS.dir_paths t ++ FS.file_paths t) ->
                         FS.strip_prefix (a :: p) d = None).
  { intros d Hd. destruct (FS.strip_prefix (a :: p) d) eqn:E; [|reflexivity].
    assert (existsb (fun d => FS.is_some (FS.strip_prefix (a :: p) d))
                    (FS.dir_paths t ++ FS.file_paths t) = true).
    { apply existsb_exists. exists d. split; [exact Hd | now rewrite E]. }
    congruence. }
  rewrite iterdir_entries.
  rewrite !flat_map_nil; [reflexivity | |].
  - intros x Hx. unfold Shape.file_entry. rewrite Hn; [reflexivity|].
    apply in_or_app. now right.
  - intros x Hx. unfold Shape.dir_entry. rewrite Hn; [reflexivity|].
    apply in_or_app. now left.
Qed.

Lemma next_is_max_plus_one (t : Tree) (S P : string) :
  Pack.get_next_batch_num t S P
  = (Shape.max_num (FS.iterdir t (Shape.speaker_dir S P)) + 1)%Z.
Proof.
  unfold Pack.get_next_batch_num, Shape.speaker_dir, Shape.max_num.
  destruct (FS.path_exists t _) eqn:E; cbn [negb]; [reflexivity|].
  rewrite iterdir_absent; [reflexivity | discriminate | exact E].
Qed.

Lemma max_num_le (l l' : list (string * bool)) :
  incl l l' -> (Shape.max_num l <= Shape.max_num l')%Z.
Proof.
  intros H. unfold Shape.max_num.
  destruct (fold_max_spec l 0) as (_ & _ & H3).
  destruct (fold_max_spec l' 0) as (H1' & H2' & _).
  cbv zeta in *. destruct H3 as [->|[f [Hf Hm]]]; [exact H1'|].
  apply (H2' f); [now apply H | exact Hm].
Qed.

Lemma max_num_extend (l l' : list (string * bool)) (n : Z) :
  incl l l' ->
  (forall f, In f l' ->
             In f l \/ Pack.folder_num f = Some n \/ Pack.folder_num f = None) ->
  (exists f, In f l' /\ Pack.folder_num f = Some n) ->
  Shape.max_num l' = Z.max (Shape.max_num l) n.
Proof.
  intros Hin Hcases [g [Hg Hn]].
  pose proof (max_num_le l l' Hin) as Hle.
  unfold Shape.max_num in *.
  destruct (fold_max_spec l 0) as (H1 & H2 & _).
  destruct (fold_max_spec l' 0) as (H1' & H2' & H3').
  cbv zeta in *. pose proof (H2' g n Hg Hn) as Hge.
  destruct H3' as [E|[f [Hf Hm]]]; [lia|].
  destruct (Hcases f Hf) as [Hl|[Hs|Hs]].
  - pose proof (H2 f _ Hl Hm). lia.
  - rewrite Hm in Hs. inversion Hs. lia.
  - congruence.
Qed.

End NextNumber.

Section TreeGrowth.

Lemma strip_prefix_app (p r : list string) :
  FS.strip_prefix p (p ++ r) = Some r.
Proof.
  induction p as [|x p IH]; simpl; [reflexivity|].
  now rewrite String.eqb_refl.
Qed.

Lemma strip_prefix_some (p d r : list string) :
  FS.strip_prefix p d = Some r -> d = p ++ r.
Proof.
  revert d. induction p as [|x p IH]; intros d; simpl.
  - intros H. now inversion H.
  - destruct d as [|y d]; [discriminate|].
    destruct (String.eqb_spec x y) as [->|]; [|discriminate].
    intros H. now rewrite (IH d H).
Qed.

Lemma parts_eqb_eq (a b : list string) : FS.parts_eqb a b = true <-> a = b.
Proof.
  unfold FS.parts_eqb. rewrite andb_true_iff, Nat.eqb_eq. split.
  - intros [Hl Hs]. destruct (FS.strip_prefix a b) as [r|] eqn:E;
      [|discriminate].
    apply strip_prefix_some in E. subst b. rewrite length_app in Hl.
    destruct r; [now rewrite app_nil_r | simpl in Hl; lia].
  - intros ->. split; [reflexivity|].
    rewrite <- (app_nil_r b) at 2. now rewrite strip_prefix_app.
Qed.

Lemma add_path_In (p x : list string) (l : list (list string)) :
  In x (FS.add_path p l) <-> In x l \/ x = p.
Proof.
  unfold FS.add_path. destruct (existsb (FS.parts_eqb p) l) eqn:E.
  - split; [auto|]. intros [H| ->]; [exact H|].
    apply existsb_exists in E. destruct E as [y [Hy Hq]].
    apply parts_eqb_eq in Hq. now subst.
  - rewrite in_app_iff. simpl. intuition.
Qed.

Lemma put_keys {A} (k k' : string) (v : A) (l : list (string * A)) :
  In k (map fst (FS.put k' v l)) <-> In k (map fst l) \/ k = k'.
Proof.
  induction l as [|[a b] l IH]; simpl; [intuition|].
  destruct (String.eqb_spec k' a) as [->|Hne]; simpl.
  - intuition.
  - rewrite IH. intuition.
Qed.

Lemma iterdir_In (t : Tree) (p : list string) (f : string * bool) :
  In f (FS.iterdir t p) <->
  (exists d, In d (FS.dir_paths t) /\ In f (Shape.dir_entry p d))
  \/ (exists x, In x (FS.file_paths t) /\ In f (Shape.file_entry p x)).
Proof. now rewrite iterdir_entries, in_app_iff, !in_flat_map. Qed.

Lemma grows_refl (t : Tree) : Shape.grows t t.
Proof. split; apply incl_refl. Qed.

Lemma grows_trans (t t1 t2 : Tree) :
  Shape.grows t t1 -> Shape.grows t1 t2 -> Shape.grows t t2.
Proof. intros [A B] [C D]. split; eapply incl_tran; eassumption. Qed.

Lemma grows_iterdir (t t' : Tree) (p : list string) :
  Shape.grows t t' -> incl (FS.iterdir t p) (FS.iterdir t' p).
Proof.
  intros [Hd Hf] f. rewrite !iterdir_In.
  intros [[d [H1 H2]]|[x [H1 H2]]]; [left; exists d | right; exists x]; auto.
Qed.

Lemma mkdir_grows (d : list string) (t : Tree) : Shape.grows t (FS.mkdir d t).
Proof.
  split; unfold FS.dir_paths, FS.file_paths, FS.mkdir; cbn [dirs files metadata];
    intros x; rewrite ?in_app_iff, ?add_path_In; intuition.
Qed.

Lemma copy_to_grows (p : list string) (t : Tree) :
  Shape.grows t (FS.copy_to p t).
Proof.
  split; unfold FS.dir_paths, FS.file_paths, FS.copy_to;
    cbn [dirs files metadata];
    intros x; rewrite ?in_app_iff, ?add_path_In; intuition.
Qed.

Lemma mkdir_metadata_grows (t : Tree) : Shape.grows t (FS.mkdir_metadata t).
Proof.
  split; unfold FS.dir_paths, FS.file_paths, FS.mkdir_metadata;
    cbn [dirs files metadata]; intros x; rewrite !in_app_iff;
    destruct (metadata t); simpl; intuition.
Qed.

Lemma write_shard_grows (name : string) (df : DataFrame) (t : Tree) :
  Shape.grows t (FS.put_shard name df t).
Proof.
  split; unfold FS.dir_paths, FS.file_paths, FS.put_shard;
    cbn [dirs files metadata]; intros x; rewrite !in_app_iff.
  - destruct (metadata t); simpl; intuition.
  - intros [H|H]; [now left|]. right. destruct (metadata t) as [l|]; [|destruct H].
    apply in_map_iff in H. destruct H as [[k v] [<- Hkv]].
    assert (Hk : In k (map fst (FS.put name df l))).
    { apply put_keys. left. apply in_map_iff. now exists (k, v). }
    apply in_map_iff in Hk. destruct Hk as [[k' v'] [Hk' Hin]].
    simpl in Hk'. subst k'. apply in_map_iff. now exists (k, v').
Qed.

End TreeGrowth.

Section PackGrows.

Variables (cols wav_names : list string).
Variable exact_batch : option string.
Variable max_rows : Z.
Variable dry_run : bool.

Lemma pack_row_grows (S P B : string) (a : Pack.RowAcc) (r : Row) :
  Shape.grows (Pack.tree (Pack.st a))
    (Pack.tree (Pack.st (Pack.pack_row wav_names S P B dry_run a r))).
Proof.
  unfold Pack.pack_row.
  destruct (negb (existsb _ wav_names)); [apply grows_refl|].
  destruct dry_run; [apply grows_refl|]. cbn [Pack.st Pack.tree].
  eapply grows_trans; [apply mkdir_grows | apply copy_to_grows].
Qed.

Lemma pack_rows_grows (S P B : string) (chunk : list Row) (a : Pack.RowAcc) :
  Shape.grows (Pack.tree (Pack.st a))
    (Pack.tree (Pack.st (fold_left (Pack.pack_row wav_names S P B dry_run)
                                   chunk a))).
Proof.
  revert a. induction chunk as [|r chunk IH]; intros a; simpl.
  - apply grows_refl.
  - eapply grows_trans; [apply pack_row_grows | apply IH].
Qed.

Lemma pack_chunk_grows (S P : string) (start : Z) (s : Pack.State)
    (ic : nat * list Row) :
  Shape.grows (Pack.tree s)
    (Pack.tree (Plan.chunk_done cols wav_names S P exact_batch start dry_run
                                s ic)).
Proof.
  unfold Plan.chunk_done.
  pose proof (pack_rows_grows S P (Pack.batch_label exact_batch start (fst ic))
                (snd ic) (Pack.mkAcc s [] 0)) as H.
  cbn [Pack.st] in H.
  destruct dry_run; cbn [Pack.tree]; [exact H|].
  eapply grows_trans; [exact H | apply write_shard_grows].
Qed.

Lemma pack_chunks_grows (S P : string) (start : Z)
    (ics : list (nat * list Row)) (s : Pack.State) :
  Shape.grows (Pack.tree s)
    (Pack.tree (fold_left (Plan.chunk_done cols wav_names S P exact_batch
                                           start dry_run) ics s)).
Proof.
  revert s. induction ics as [|ic ics IH]; intros s; simpl.
  - apply grows_refl.
  - eapply grows_trans; [apply pack_chunk_grows | apply IH].
Qed.

Lemma pack_chunk_run_grows (S P : string) (start : Z) (s : Pack.State)
    (ic : nat * list Row) :
  Shape.grows (Pack.tree s)
    (Pack.tree (snd (Pack.pack_chunk cols wav_names S P exact_batch start
                                     dry_run s ic))).
Proof.
  destruct (pack_chunk_cases cols wav_names S P exact_batch start dry_run s ic)
    as [E|(D & _ & E)]; rewrite E; cbn [snd].
  - apply pack_chunk_grows.
  - unfold Plan.chunk_failed. cbn [Pack.tree].
    pose proof (pack_rows_grows S P
                  (Pack.batch_label exact_batch start (fst ic)) (snd ic)
                  (Pack.mkAcc s [] 0)) as H.
    rewrite D in H. exact H.
Qed.

Lemma pack_chunks_run_grows (S P : string) (start : Z)
    (ics : list (nat * list Row)) (s : Pack.State) :
  Shape.grows (Pack.tree s)
    (Pack.tree (snd (Pack.pack_chunks cols wav_names S P exact_batch start
                                      dry_run ics s))).
Proof.
  revert s. induction ics as [|ic ics IH]; intros s; cbn [Pack.pack_chunks].
  - apply grows_refl.
  - pose proof (pack_chunk_run_grows S P start s ic) as H.
    destruct (Pack.pack_chunk _ _ _ _ _ _ _ s ic) as [o s1]. cbn [snd] in H.
    destruct o; cbn [snd]; try exact H.
    eapply grows_trans; [exact H | apply IH].
Qed.

Lemma pack_groups_grows (gs : list (Pack.key * list Row)) (s : Pack.State) :
  Shape.grows (Pack.tree s)
    (Pack.tree (snd (Pack.pack_groups cols wav_names exact_batch max_rows
                                      dry_run gs s))).
Proof.
  revert s. induction gs as [|g gs IH]; intros s; cbn [Pack.pack_groups].
  - apply grows_refl.
  - assert (H : Shape.grows (Pack.tree s)
                  (Pack.tree (snd (Pack.pack_group cols wav_names exact_batch
                                                   max_rows dry_run s g)))).
    { unfold Pack.pack_group.
      destruct (Pack.chunks exact_batch max_rows (snd g)) as [cs|].
      - apply pack_chunks_run_grows.
      - apply grows_refl. }
    destruct (Pack.pack_group _ _ _ _ _ s g) as [o s1]. cbn [snd] in H.
    destruct o; cbn [snd]; try exact H.
    eapply grows_trans; [exact H | apply IH].
Qed.

End PackGrows.

Lemma pack_grows (src : Source) (out : Tree) (exact_batch : option string)
    (max_rows : Z) (dry_run : bool) :
  Shape.grows out
    (Pack.tree (snd (Pack.pack src out exact_batch max_rows dry_run))).
Proof.
  unfold Pack.pack.
  destruct (Pack.load_metadata src) as [df|msg]; [|apply grows_refl].
  destruct (wavs src) as [wav_names|]; [|apply grows_refl].
  set (s1 := if dry_run then _ else _).
  assert (H1 : Shape.grows out (Pack.tree s1)).
  { unfold s1. destruct dry_run; [apply grows_refl|].
    apply mkdir_metadata_grows. }
  pose proof (pack_groups_grows (columns df) wav_names exact_batch max_rows
                dry_run (Pack.groupby (rows df)) s1) as H2.
  destruct (Pack.pack_groups _ _ _ _ _ _ s1) as [o s2]. cbn [snd] in H2.
  destruct o; cbn [snd Pack.tree]; eapply grows_trans; eassumption.
Qed.

(** X7. A run of pack only adds to the output tree: every directory and
    file that was there before the run is there after it, whatever the
    arguments and however the run ends, and so no group's next batch number
    is ever lower after a run than before it. *)
Theorem pack_only_adds :
  forall (src : Source) (out : Tree) (exact_batch : option string)
         (max_rows : Z) (dry_run : bool),
    incl (FS.dir_paths out)
         (FS.dir_paths
            (Pack.tree (snd (Pack.pack src out exact_batch max_rows dry_run))))
    /\ incl (FS.file_paths out)
            (FS.file_paths
               (Pack.tree (snd (Pack.pack src out exact_batch max_rows dry_run))))
    /\ forall audio_source speaker : string,
         (Pack.get_next_batch_num out audio_source speaker
          <= Pack.get_next_batch_num
               (Pack.tree (snd (Pack.pack src out exact_batch max_rows dry_run)))
               audio_source speaker)%Z.
Proof.
  intros src out eb mr dry.
  pose proof (pack_grows src out eb mr dry) as H.
  split; [apply H|]. split; [apply H|].
  intros S P. rewrite !next_is_max_plus_one.
  pose proof (max_num_le _ _ (grows_iterdir _ _ (Shape.speaker_dir S P) H)).
  lia.
Qed.

(** ** The batch directories a real run creates *)

Section NewEntries.

Variables (q : list string) (B : string).

Lemma labelled_refl (t : Tree) : Shape.labelled q B t t.
Proof. intros f H. now left. Qed.

Lemma labelled_trans (t t1 t2 : Tree) :
  Shape.labelled q B t t1 -> Shape.labelled q B t1 t2 ->
  Shape.labelled q B t t2.
Proof.
  intros H1 H2 f Hf. destruct (H2 f Hf) as [H|H]; [apply H1, H | now right].
Qed.

Lemma mkdir_labelled (t : Tree) :
  Shape.labelled q B t (FS.mkdir (q ++ [B]) t)
  /\ In (B, true) (FS.iterdir (FS.mkdir (q ++ [B]) t) q).
Proof.
  split.
  - intros f. rewrite !iterdir_In.
    intros [[d [Hd Hf]]|[x [Hx Hf]]]; [|left; right; now exists x].
    unfold FS.dir_paths, FS.mkdir in Hd. cbn [dirs metadata] in Hd.
    rewrite in_app_iff, add_path_In in Hd.
    destruct Hd as [[Hd| ->]|Hd].
    + left. left. exists d. split; [|exact Hf].
      unfold FS.dir_paths. apply in_or_app. now left.
    + unfold Shape.dir_entry in Hf. rewrite strip_prefix_app in Hf.
      destruct Hf as [<-|[]]. now right.
    + left. left. exists d. split; [|exact Hf].
      unfold FS.dir_paths. apply in_or_app. now right.
  - apply iterdir_In. left. exists (q ++ [B]). split.
    + unfold FS.dir_paths, FS.mkdir. cbn [dirs metadata].
      apply in_or_app. left. apply add_path_In. now right.
    + unfold Shape.dir_entry. rewrite strip_prefix_app. now left.
Qed.

Lemma copy_to_labelled (w : list string) (t : Tree) :
  Shape.labelled q B t (FS.copy_to (q ++ B :: w) t).
Proof.
  intros f. rewrite !iterdir_In.
  intros [[d [Hd Hf]]|[x [Hx Hf]]]; [left; left; now exists d|].
  unfold FS.file_paths, FS.copy_to in Hx. cbn [files metadata] in Hx.
  rewrite in_app_iff, add_path_In in Hx.
  destruct Hx as [[Hx| ->]|Hx].
  - left. right. exists x. split; [|exact Hf].
    unfold FS.file_paths. apply in_or_app. now left.
  - unfold Shape.file_entry in Hf. rewrite strip_prefix_app in Hf.
    right. destruct w; destruct Hf as [<-|[]]; reflexivity.
  - left. right. exists x. split; [|exact Hf].
    unfold FS.file_paths. apply in_or_app. now right.
Qed.

End NewEntries.

Lemma write_shard_labelled (q : list string) (B name : string)
    (df : DataFrame) (t : Tree) :
  Shape.labelled ("audio" :: q) B t (FS.put_shard name df t).
Proof.
  intros f. rewrite !iterdir_In.
  intros [[d [Hd Hf]]|[x [Hx Hf]]].
  - unfold FS.dir_paths, FS.put_shard in Hd. cbn [dirs metadata] in Hd.
    rewrite in_app_iff in Hd. destruct Hd as [Hd|[<-|[]]].
    + left. left. exists d. split; [|exact Hf].
      unfold FS.dir_paths. apply in_or_app. now left.
    + destruct Hf.
  - unfold FS.file_paths, FS.put_shard in Hx. cbn [files metadata] in Hx.
    rewrite in_app_iff in Hx. destruct Hx as [Hx|Hx].
    + left. right. exists x. split; [|exact Hf].
      unfold FS.file_paths. apply in_or_app. now left.
    + apply in_map_iff in Hx. destruct Hx as [y [<- _]]. destruct Hf.
Qed.

Section PackNumbers.

Variables (cols wav_names : list string).
Variables (S P : string).

Local Abbreviation q := (Shape.speaker_dir S P).

Lemma dest_dir_label (B : string) :
  PyPath.parts B = [B] -> Pack.dest_dir_of S P B = q ++ [B].
Proof.
  intros H. unfold Pack.dest_dir_of, Shape.speaker_dir. rewrite H.
  now rewrite !app_assoc.
Qed.

Lemma pack_row_labelled (B : string) (a : Pack.RowAcc) (r : Row) :
  PyPath.parts B = [B] ->
  Shape.labelled q B (Pack.tree (Pack.st a))
    (Pack.tree (Pack.st (Pack.pack_row wav_names S P B false a r)))
  /\ (Plan.wav_present wav_names r = true ->
      In (B, true)
         (FS.iterdir
            (Pack.tree (Pack.st (Pack.pack_row wav_names S P B false a r))) q)).
Proof.
  intros HB. unfold Pack.pack_row, Plan.wav_present.
  destruct (existsb _ wav_names); cbn [negb].
  - cbn [Pack.st Pack.tree]. rewrite (dest_dir_label B HB).
    destruct (mkdir_labelled q B (Pack.tree (Pack.st a))) as [H1 H2].
    split.
    + eapply labelled_trans; [exact H1|].
      rewrite <- app_assoc. apply copy_to_labelled.
    + intros _. eapply grows_iterdir; [apply copy_to_grows | exact H2].
  - split; [apply labelled_refl | discriminate].
Qed.

Lemma pack_rows_labelled (B : string) (chunk : list Row) (a : Pack.RowAcc) :
  PyPath.parts B = [B] ->
  Shape.labelled q B (Pack.tree (Pack.st a))
    (Pack.tree (Pack.st (fold_left (Pack.pack_row wav_names S P B false)
                                   chunk a)))
  /\ ((exists r, In r chunk /\ Plan.wav_present wav_names r = true) ->
      In (B, true)
         (FS.iterdir
            (Pack.tree (Pack.st (fold_left (Pack.pack_row wav_names S P B false)
                                           chunk a))) q)).
Proof.
  intros HB. revert a. induction chunk as [|r chunk IH]; intros a; simpl.
  - split; [apply labelled_refl | intros [r [[] _]]].
  - destruct (pack_row_labelled B a r HB) as [H1 H2].
    destruct (IH (Pack.pack_row wav_names S P B false a r)) as [H3 H4].
    split; [eapply labelled_trans; eassumption|].
    intros [r' [[<-|Hin] Hp]].
    + eapply grows_iterdir; [apply pack_rows_grows | exact (H2 Hp)].
    + apply H4. now exists r'.
Qed.

Lemma folder_num_of_label (z : Z) (f : string * bool) :
  fst f = ("batch_" ++ PyStr.format_04d z)%string ->
  Pack.folder_num f = Some z \/ Pack.folder_num f = None.
Proof.
  destruct f as [n [|]]; cbn [fst]; intros ->.
  - left. apply label_folder_num.
  - right. reflexivity.
Qed.

Lemma pack_chunk_max (start : Z) (s : Pack.State) (ic : nat * list Row) :
  (exists r, In r (snd ic) /\ Plan.wav_present wav_names r = true) ->
  Shape.max_num
    (FS.iterdir (Pack.tree (Plan.chunk_done cols wav_names S P None start false
                                            s ic)) q)
  = Z.max (Shape.max_num (FS.iterdir (Pack.tree s) q))
          (start + Z.of_nat (fst ic)).
Proof.
  intros Hr.
  pose proof (pack_chunk_grows cols wav_names None false S P start s ic) as Hg.
  apply max_num_extend.
  - now apply grows_iterdir.
  - intros f Hf.
    assert (HL : Shape.labelled q (Pack.batch_label None start (fst ic))
                   (Pack.tree s)
                   (Pack.tree (Plan.chunk_done cols wav_names S P None start
                                               false s ic))).
    { unfold Plan.chunk_done. cbn [Pack.tree].
      eapply labelled_trans; [|apply write_shard_labelled].
      apply (pack_rows_labelled _ (snd ic) (Pack.mkAcc s [] 0)).
      apply label_parts. }
    destruct (HL f Hf) as [H|H]; [now left|]. right.
    now apply folder_num_of_label.
  - exists (Pack.batch_label None start (fst ic), true). split.
    + unfold Plan.chunk_done. cbn [Pack.tree].
      eapply grows_iterdir; [apply write_shard_grows|].
      apply (pack_rows_labelled _ (snd ic) (Pack.mkAcc s [] 0));
        [apply label_parts | exact Hr].
    + apply label_folder_num.
Qed.

Lemma pack_chunks_max (start : Z) (cs : list (list Row)) :
  (forall c, In c cs ->
             exists r, In r c /\ Plan.wav_present wav_names r = true) ->
  forall (k : nat) (s : Pack.State),
    Shape.max_num
      (FS.iterdir
         (Pack.tree (fold_left (Plan.chunk_done cols wav_names S P None start
                                                false)
                               (combine (seq k (length cs)) cs) s)) q)
    = match cs with
      | [] => Shape.max_num (FS.iterdir (Pack.tree s) q)
      | _ => Z.max (Shape.max_num (FS.iterdir (Pack.tree s) q))
                   (start + Z.of_nat (k + length cs) - 1)
      end.
Proof.
  induction cs as [|c cs IH]; intros Hc k s; [reflexivity|].
  cbn [length seq combine fold_left].
  rewrite IH by (intros c' Hc'; apply Hc; now right).
  rewrite pack_chunk_max by (apply Hc; now left). cbn [fst].
  destruct cs as [|c' cs]; cbn [length]; lia.
Qed.

End PackNumbers.

(** X6. In a real run with automatic labels and a positive [max_rows], a
    group whose wav files are all present is packed to the end and moves
    the group's next batch number forward by exactly the number of its
    chunks: the numbers the group used are neither offered again nor
    skipped by the next run. *)
Theorem next_batch_num_advances_by_chunks :
  forall (cols wav_names : list string) (max_rows : Z) (s : Pack.State)
         (g : Pack.key * list Row),
    (0 < max_rows)%Z ->
    (forall r, In r (snd g) -> Plan.wav_present wav_names r = true) ->
    exists cs s',
      Pack.chunks None max_rows (snd g) = Some cs
      /\ Pack.pack_group cols wav_names None max_rows false s g = (Finished, s')
      /\ Pack.get_next_batch_num (Pack.tree s')
           (Pack.sanitise (fst (fst g))) (Pack.sanitise (snd (fst g)))
         = (Pack.get_next_batch_num (Pack.tree s)
              (Pack.sanitise (fst (fst g))) (Pack.sanitise (snd (fst g)))
            + Z.of_nat (length cs))%Z.
Proof.
  intros cols wav_names max_rows s g Hpos Hall.
  destruct (chunks_auto (snd g) max_rows None Hpos eq_refl)
    as [cs [Hc [Hcat Hlen]]].
  exists cs. eexists. split; [exact Hc|].
  rewrite (pack_group_written cols wav_names None max_rows false s g cs
             (or_intror eq_refl) Hc).
  cbn [truthy negb]. split; [reflexivity|].
  rewrite !next_is_max_plus_one.
  rewrite pack_chunks_max.
  - rewrite <- next_is_max_plus_one.
    rewrite (next_is_max_plus_one (Pack.tree s)).
    destruct cs; cbn [length]; lia.
  - intros c Hin. apply In_nth_error in Hin. destruct Hin as [i Hi].
    destruct (Hlen i c Hi) as [Hl _].
    destruct c as [|r c]; [simpl in Hl; lia|].
    exists r. split; [now left|]. apply Hall. rewrite <- Hcat.
    apply in_concat. exists (r :: c). split; [|now left].
    eapply nth_error_In. exact Hi.
Qed.

(** X6 at a group of three rows packed two to a batch into a tree that
    holds batch_0004 of the group. *)
Lemma next_batch_num_advances_by_chunks_witness :
  exists cs s',
    Pack.chunks None 2 [mkRow "wavs/a.wav" "Bob" "YT" [];
                        mkRow "wavs/b.wav" "Bob" "YT" [];
                        mkRow "wavs/c.wav" "Bob" "YT" []] = Some cs
    /\ Pack.pack_group ["audio_path"; "speaker"; "audio_source"]
         ["a.wav"; "b.wav"; "c.wav"] None 2 false
         (Pack.mkState (mkTree None [["audio"; "yt"; "bob"; "batch_0004"]] [])
                       [] 0 0)
         (("YT", "Bob"), [mkRow "wavs/a.wav" "Bob" "YT" [];
                          mkRow "wavs/b.wav" "Bob" "YT" [];
                          mkRow "wavs/c.wav" "Bob" "YT" []])
       = (Finished, s')
    /\ Pack.get_next_batch_num (Pack.tree s')
         (Pack.sanitise "YT") (Pack.sanitise "Bob")
       = (Pack.get_next_batch_num
            (mkTree None [["audio"; "yt"; "bob"; "batch_0004"]] [])
            (Pack.sanitise "YT") (Pack.sanitise "Bob")
          + Z.of_nat (length cs))%Z.
Proof.
  apply (next_batch_num_advances_by_chunks
           ["audio_path"; "speaker"; "audio_source"]
           ["a.wav"; "b.wav"; "c.wav"] 2
           (Pack.mkState (mkTree None [["audio"; "yt"; "bob"; "batch_0004"]] [])
                         [] 0 0)
           (("YT", "Bob"), [mkRow "wavs/a.wav" "Bob" "YT" [];
                            mkRow "wavs/b.wav" "Bob" "YT" [];
                            mkRow "wavs/c.wav" "Bob" "YT" []])).
  - lia.
  - intros r [<-|[<-|[<-|[]]]]; reflexivity.
Defined.

(** X5. What [get_next_batch_num] returns for any output tree: a number
    that is at least 1, is 1 when the speaker directory does not exist, is
    larger than every number read from an entry of that directory, and,
    unless it is 1, is one more than a number read from one of the
    entries. *)
Theorem next_batch_num_is_one_past_the_largest :
  forall (out : Tree) (audio_source speaker : string),
    (1 <= Pack.get_next_batch_num out audio_source speaker)%Z
    /\ (FS.path_exists out (Shape.speaker_dir audio_source speaker) = false ->
        Pack.get_next_batch_num out audio_source speaker = 1%Z)
    /\ (forall f n,
          In f (FS.iterdir out (Shape.speaker_dir audio_source speaker)) ->
          Pack.folder_num f = Some n ->
          (n < Pack.get_next_batch_num out audio_source speaker)%Z)
    /\ (Pack.get_next_batch_num out audio_source speaker = 1%Z
        \/ exists f,
             In f (FS.iterdir out (Shape.speaker_dir audio_source speaker))
             /\ Pack.folder_num f
                = Some (Pack.get_next_batch_num out audio_source speaker - 1)%Z).
Proof.
  intros out S P.
  pose proof (next_is_max_plus_one out S P) as E.
  destruct (fold_max_spec (FS.iterdir out (Shape.speaker_dir S P)) 0)
    as (H1 & H2 & H3).
  cbv zeta in *. fold (Shape.max_num (FS.iterdir out (Shape.speaker_dir S P))) in *.
  repeat split.
  - lia.
  - intros Hno. rewrite E, iterdir_absent; [reflexivity | discriminate | exact Hno].
  - intros f n Hf Hn. specialize (H2 f n Hf Hn). lia.
  - destruct H3 as [H3|[f [Hf Hm]]]; [left; lia|].
    right. exists f. split; [exact Hf|]. rewrite Hm. f_equal. lia.
Qed.

(** ** A max_rows that is not positive *)

Section NonPositiveMaxRows.

Variables (cols wav_names : list string) (dry_run : bool).

Lemma pack_groups_zero (g : Pack.key * list Row)
    (gs : list (Pack.key * list Row)) (s : Pack.State) :
  Pack.pack_groups cols wav_names None 0 dry_run (g :: gs) s
  = (Raised "ValueError", s).
Proof. reflexivity. Qed.

Lemma pack_groups_negative (max_rows : Z) (gs : list (Pack.key * list Row))
    (s : Pack.State) :
  (max_rows < 0)%Z ->
  Pack.pack_groups cols wav_names None max_rows dry_run gs s = (Finished, s).
Proof.
  intros Hneg. induction gs as [|g gs IH]; [reflexivity|].
  cbn [Pack.pack_groups]. unfold Pack.pack_group, Pack.chunks, Pack.range0.
  cbn [truthy]. destruct (Z.eqb_spec max_rows 0); [lia|].
  destruct (Z.ltb_spec max_rows 0); [|lia]. cbn. exact IH.
Qed.

End NonPositiveMaxRows.

Lemma groupby_nonempty (rs : list Row) :
  filter Pack.has_keys rs <> [] -> Pack.groupby rs <> [].
Proof.
  intros Hne E. pose proof (groupby_perm rs) as H. rewrite E in H.
  apply Permutation_nil in H. apply Hne. exact H.
Qed.

(** X9. pack does not check [max_rows].  With automatic labels and a table
    that has a row with both of its keys, [max_rows = 0] makes the run stop
    with a ValueError at the first group, after a real run has already
    created metadata/; a negative [max_rows] makes the run finish normally
    with no file copied and no shard written, reporting 0 moved and 0
    skipped. *)
Theorem nonpositive_max_rows_is_not_rejected :
  forall (src : Source) (out : Tree) (dry_run : bool) (df : DataFrame)
         (wav_names : list string),
    metadata_csv src = Some df ->
    (forall c, In c Pack.required -> In c (columns df)) ->
    wavs src = Some wav_names ->
    filter Pack.has_keys (rows df) <> [] ->
    Pack.pack src out None 0 dry_run
    = (Raised "ValueError",
       if dry_run then Pack.mkState out [] 0 0
       else Pack.mkState (FS.mkdir_metadata out) [Mkdir ["metadata"]] 0 0)
    /\ forall max_rows : Z,
         (max_rows < 0)%Z ->
         Pack.pack src out None max_rows dry_run
         = (Finished,
            if dry_run then Pack.mkState out [DryDone] 0 0
            else Pack.mkState (FS.mkdir_metadata out)
                              [Mkdir ["metadata"]; Done 0 0] 0 0).
Proof.
  intros src out dry_run df wav_names Hcsv Hcols Hw Hne.
  unfold Pack.pack. rewrite (load_metadata_ok src df Hcsv Hcols), Hw.
  split.
  - destruct (Pack.groupby (rows df)) as [|g gs] eqn:E.
    + now apply groupby_nonempty in E.
    + rewrite pack_groups_zero. reflexivity.
  - intros max_rows Hneg. rewrite pack_groups_negative by exact Hneg.
    destruct dry_run; reflexivity.
Qed.

(** X9 at a table of one row. *)
Lemma nonpositive_max_rows_is_not_rejected_witness :
  Pack.pack
    (mkSource (Some (mkFrame ["audio_path"; "speaker"; "audio_source"]
                       [mkRow "wavs/a.wav" "bob" "yt" []]))
              (Some ["a.wav"]))
    (mkTree None [] []) None 0 false
  = (Raised "ValueError",
     Pack.mkState (FS.mkdir_metadata (mkTree None [] []))
                  [Mkdir ["metadata"]] 0 0)
  /\ forall max_rows : Z,
       (max_rows < 0)%Z ->
       Pack.pack
         (mkSource (Some (mkFrame ["audio_path"; "speaker"; "audio_source"]
                            [mkRow "wavs/a.wav" "bob" "yt" []]))
                   (Some ["a.wav"]))
         (mkTree None [] []) None max_rows false
       = (Finished,
          Pack.mkState (FS.mkdir_metadata (mkTree None [] []))
                       [Mkdir ["metadata"]; Done 0 0] 0 0).
Proof.
  apply (nonpositive_max_rows_is_not_rejected
           (mkSource (Some (mkFrame ["audio_path"; "speaker"; "audio_source"]
                              [mkRow "wavs/a.wav" "bob" "yt" []]))
                     (Some ["a.wav"]))
           (mkTree None [] []) false
           (mkFrame ["audio_path"; "speaker"; "audio_source"]
              [mkRow "wavs/a.wav" "bob" "yt" []])
           ["a.wav"]).
  - reflexivity.
  - intros c Hc. exact Hc.
  - reflexivity.
  - vm_compute. discriminate.
Defined.

(** ** The paths pack writes into its shards *)

Section PackedPaths.

Variables (cols wav_names : list string) (rs : list Row).

Lemma parts_new_rel (S P B w : string) :
  PyPath.parts (Pack.new_rel_of S P B w)
  = Pack.dest_dir_of S P B ++ PyPath.parts w.
Proof.
  unfold Pack.new_rel_of, Pack.dest_dir_of.
  change ("audio/" ++ S ++ "/" ++ P ++ "/" ++ B ++ "/" ++ w)%string
    with ("audio" ++ String "/" (S ++ String "/" (P ++ String "/"
            (B ++ String "/" w))))%string.
  rewrite !parts_app_sep. now rewrite <- !app_assoc.
Qed.

Lemma file_in_tree (p : list string) (t : Tree) :
  In p (FS.file_paths (FS.copy_to p t)).
Proof.
  unfold FS.file_paths, FS.copy_to. cbn [files metadata].
  apply in_or_app. left. apply add_path_In. now right.
Qed.

Lemma pack_rows_files (S P B : string) (chunk : list Row) (a : Pack.RowAcc)
    (r : Row) :
  In r chunk -> Plan.wav_present wav_names r = true ->
  In (Pack.dest_dir_of S P B ++ PyPath.parts (PyPath.name (audio_path r)))
     (FS.file_paths
        (Pack.tree (Pack.st (fold_left (Pack.pack_row wav_names S P B false)
                                       chunk a)))).
Proof.
  revert a. induction chunk as [|x chunk IH]; intros a Hin Hp; [destruct Hin|].
  cbn [fold_left]. destruct Hin as [->|Hin]; [|now apply IH].
  apply (pack_rows_grows wav_names false S P B chunk).
  unfold Pack.pack_row. unfold Plan.wav_present in Hp. rewrite Hp.
  cbn [negb Pack.st Pack.tree]. apply file_in_tree.
Qed.

Local Abbreviation kept s :=
  (forall r', In r' (Log.saved_rows (Pack.log s)) ->
              Shape.resolves wav_names rs (Pack.tree s) r').

Lemma resolves_grows (t t' : Tree) (r' : Row) :
  Shape.grows t t' ->
  Shape.resolves wav_names rs t r' -> Shape.resolves wav_names rs t' r'.
Proof.
  intros [_ Hf] [H|H]; [left; now apply Hf | now right].
Qed.

Lemma pack_chunk_resolves (S P : string) (exact_batch : option string)
    (start : Z) (s : Pack.State) (ic : nat * list Row) :
  incl (snd ic) rs -> kept s ->
  kept (Plan.chunk_done cols wav_names S P exact_batch start false s ic).
Proof.
  intros Hsub Hs r'.
  destruct (pack_chunk_spec cols wav_names false S P exact_batch start s ic)
    as (Hl & _).
  cbv zeta in Hl. rewrite Hl, saved_rows_app. clear Hl.
  pose proof (pack_chunk_grows cols wav_names exact_batch false S P start s ic)
    as Hg.
  intros Hin. apply in_app_or in Hin. destruct Hin as [Hin|Hin].
  - eapply resolves_grows; [exact Hg | now apply Hs].
  - unfold Plan.chunk_events in Hin. rewrite saved_rows_app in Hin.
    unfold Log.saved_rows at 1 in Hin. rewrite row_events_saved in Hin.
    cbn in Hin. rewrite app_nil_r in Hin.
    apply in_map_iff in Hin. destruct Hin as [r [<- Hr]].
    unfold Plan.mapped_row, Plan.mapped_path.
    destruct (Plan.wav_present wav_names r) eqn:Hp.
    + left. cbn [audio_path with_audio_path]. rewrite parts_new_rel.
      unfold Plan.chunk_done. cbn [Pack.tree].
      apply (write_shard_grows _ _ _).
      now apply (pack_rows_files _ _ _ (snd ic) (Pack.mkAcc s [] 0)).
    + right. rewrite with_own_path. split; [now apply Hsub | exact Hp].
Qed.

Lemma pack_chunks_resolves (S P : string) (exact_batch : option string)
    (start : Z) (ics : list (nat * list Row)) (s : Pack.State) :
  (forall ic, In ic ics -> incl (snd ic) rs) -> kept s ->
  kept (fold_left (Plan.chunk_done cols wav_names S P exact_batch start false)
                  ics s).
Proof.
  revert s. induction ics as [|ic ics IH]; intros s Hsub Hs; [exact Hs|].
  cbn [fold_left]. apply IH.
  - intros ic' H. apply Hsub. now right.
  - apply pack_chunk_resolves; [apply Hsub; now left | exact Hs].
Qed.

End PackedPaths.

Lemma slice_incl (g : list Row) (i j : nat) : incl (Pack.slice g i j) g.
Proof.
  unfold Pack.slice. intros r Hr.
  rewrite <- (firstn_skipn i g). apply in_or_app. right.
  rewrite <- (firstn_skipn (j - i) (skipn i g)). apply in_or_app. now left.
Qed.

Lemma chunks_incl (exact_batch : option string) (max_rows : Z)
    (g : list Row) (cs : list (list Row)) :
  Pack.chunks exact_batch max_rows g = Some cs ->
  forall c, In c cs -> incl c g.
Proof.
  unfold Pack.chunks. destruct (truthy exact_batch).
  - intros E c Hc. inversion E; subst. destruct Hc as [<-|[]]. apply incl_refl.
  - destruct (Pack.range0 (length g) max_rows) as [l|]; [|discriminate].
    cbn [option_map]. intros E c Hc. inversion E; subst.
    apply in_map_iff in Hc. destruct Hc as [i [<- _]]. apply slice_incl.
Qed.

Lemma in_combine_snd {A B} (l : list A) (l' : list B) (x : A * B) :
  In x (combine l l') -> In (snd x) l'.
Proof. destruct x as [a b]. apply in_combine_r. Qed.

Lemma pack_groups_resolves (cols wav_names : list string) (rs : list Row)
    (exact_batch : option string) (max_rows : Z)
    (gs : list (Pack.key * list Row)) (s : Pack.State) :
  Plan.slash_free exact_batch = true ->
  (forall g, In g gs -> incl (snd g) rs) ->
  (forall r', In r' (Log.saved_rows (Pack.log s)) ->
              Shape.resolves wav_names rs (Pack.tree s) r') ->
  forall r',
    In r' (Log.saved_rows
             (Pack.log (snd (Pack.pack_groups cols wav_names exact_batch
                                              max_rows false gs s)))) ->
    Shape.resolves wav_names rs
      (Pack.tree (snd (Pack.pack_groups cols wav_names exact_batch max_rows
                                        false gs s))) r'.
Proof.
  intros Hfree. revert s.
  induction gs as [|g gs IH]; intros s Hsub Hs; [exact Hs|].
  cbn [Pack.pack_groups].
  destruct (Pack.chunks exact_batch max_rows (snd g)) as [cs|] eqn:E;
    [|unfold Pack.pack_group; rewrite E; exact Hs].
  rewrite (pack_group_written cols wav_names exact_batch max_rows false s g
             cs (or_intror Hfree) E).
  apply IH; [intros g' H; apply Hsub; now right|].
  apply pack_chunks_resolves; [|exact Hs].
  intros ic Hic. apply in_combine_snd in Hic.
  eapply incl_tran; [exact (chunks_incl _ _ _ _ E _ Hic)|].
  apply Hsub. now left.
Qed.

Lemma path_exists_file (t : Tree) (p : list string) :
  In p (FS.file_paths t) -> FS.path_exists t p = true.
Proof.
  intros H. destruct p as [|a p]; [reflexivity|].
  unfold FS.path_exists. apply existsb_exists. exists (a :: p). split.
  - apply in_or_app. now right.
  - rewrite <- (app_nil_r (a :: p)) at 2. now rewrite strip_prefix_app.
Qed.

(** X10. The shards a real run of pack writes with automatic labels can be
    followed: every row written either has an audio_path that names a
    regular file of the output tree as the run leaves it, so that the
    existence test of unpack succeeds on it, or is a row of the source table
    written unchanged because its wav file is absent from the source wavs/. *)
Theorem packed_paths_resolve :
  forall (src : Source) (out : Tree) (max_rows : Z) (df : DataFrame)
         (wav_names : list string),
    metadata_csv src = Some df ->
    wavs src = Some wav_names ->
    Forall
      (fun r' =>
         (In (PyPath.parts (audio_path r'))
             (FS.file_paths
                (Pack.tree (snd (Pack.pack src out None max_rows false))))
          /\ FS.path_exists
               (Pack.tree (snd (Pack.pack src out None max_rows false)))
               (PyPath.parts (audio_path r')) = true)
         \/ (In r' (rows df) /\ Plan.wav_present wav_names r' = false))
      (Log.saved_rows (Pack.log (snd (Pack.pack src out None max_rows false)))).
Proof.
  intros src out max_rows df wav_names Hcsv Hw. apply Forall_forall. intros r'.
  assert (H : In r' (Log.saved_rows
                       (Pack.log (snd (Pack.pack src out None max_rows false))))
              -> Shape.resolves wav_names (rows df)
                   (Pack.tree (snd (Pack.pack src out None max_rows false))) r').
  { unfold Pack.pack, Pack.load_metadata. rewrite Hcsv, Hw.
    destruct (forallb _ Pack.required); [|intros []].
    pose proof (pack_groups_resolves (columns df) wav_names (rows df) None
                  max_rows (Pack.groupby (rows df))
                  (Pack.mkState (FS.mkdir_metadata out) [Mkdir ["metadata"]] 0 0)
                  eq_refl)
      as HG.
    destruct (Pack.pack_groups _ _ _ _ _ _ _) as [o s2]. cbn [snd] in HG.
    assert (HK : forall r', In r' (Log.saved_rows (Pack.log s2)) ->
                            Shape.resolves wav_names (rows df) (Pack.tree s2) r').
    { apply HG.
      - intros g Hg. now apply groupby_incl.
      - intros r0 []. }
    destruct o; cbn [snd Pack.log Pack.tree]; try apply HK.
    rewrite saved_rows_app. cbn. rewrite app_nil_r. apply HK. }
  intros Hin. destruct (H Hin) as [Hf|Hm]; [left | now right].
  split; [exact Hf | now apply path_exists_file].
Qed.

(** X10 at a table of two rows, the second without its wav. *)
Lemma packed_paths_resolve_witness :
  Forall
    (fun r' =>
       (In (PyPath.parts (audio_path r'))
           (FS.file_paths
              (Pack.tree
                 (snd (Pack.pack
                         (mkSource
                            (Some (mkFrame
                                     ["audio_path"; "speaker"; "audio_source"]
                                     [mkRow "wavs/a.wav" "bob" "yt" [];
                                      mkRow "wavs/gone.wav" "bob" "yt" []]))
                            (Some ["a.wav"]))
                         (mkTree None [] []) None 1 false))))
        /\ FS.path_exists
             (Pack.tree
                (snd (Pack.pack
                        (mkSource
                           (Some (mkFrame
                                    ["audio_path"; "speaker"; "audio_source"]
                                    [mkRow "wavs/a.wav" "bob" "yt" [];
                                     mkRow "wavs/gone.wav" "bob" "yt" []]))
                           (Some ["a.wav"]))
                        (mkTree None [] []) None 1 false)))
             (PyPath.parts (audio_path r')) = true)
       \/ (In r' [mkRow "wavs/a.wav" "bob" "yt" [];
                  mkRow "wavs/gone.wav" "bob" "yt" []]
           /\ Plan.wav_present ["a.wav"] r' = false))
    (Log.saved_rows
       (Pack.log
          (snd (Pack.pack
                  (mkSource
                     (Some (mkFrame ["audio_path"; "speaker"; "audio_source"]
                              [mkRow "wavs/a.wav" "bob" "yt" [];
                               mkRow "wavs/gone.wav" "bob" "yt" []]))
                     (Some ["a.wav"]))
                  (mkTree None [] []) None 1 false)))).
Proof.
  apply (packed_paths_resolve
           (mkSource
              (Some (mkFrame ["audio_path"; "speaker"; "audio_source"]
                       [mkRow "wavs/a.wav" "bob" "yt" [];
                        mkRow "wavs/gone.wav" "bob" "yt" []]))
              (Some ["a.wav"]))
           (mkTree None [] []) 1
           (mkFrame ["audio_path"; "speaker"; "audio_source"]
              [mkRow "wavs/a.wav" "bob" "yt" [];
               mkRow "wavs/gone.wav" "bob" "yt" []])
           ["a.wav"]); reflexivity.
Defined.

(** ** The files unpack leaves in the flat output *)

Section UnpackedFiles.

Variables (dataset : Tree) (dataset_dir : string).

Lemma unpack_row_wavs (s : Unpack.State) (r : Row) :
  let s' := Unpack.unpack_row dataset dataset_dir false s r in
  (forall n, Shape.has_wav (Unpack.flat s) n -> Shape.has_wav (Unpack.flat s') n)
  /\ (Plan.src_present dataset r = true ->
      Shape.has_wav (Unpack.flat s')
                    (PyPath.join_name dataset_dir (audio_path r)))
  /\ (Plan.src_present dataset r = false -> Unpack.flat s' = Unpack.flat s).
Proof.
  unfold Unpack.unpack_row, Plan.src_present.
  destruct (FS.path_exists dataset _); cbn [negb Unpack.flat].
  - set (w := PyPath.join_name dataset_dir (audio_path r)).
    unfold Shape.has_wav, Unpack.copy_wav, Unpack.mkdir_wavs.
    cbn [flat_wavs option_map].
    split; [|split; [|discriminate]].
    + intros n Hn. destruct (flat_wavs (Unpack.flat s)) as [l|]; [|destruct Hn].
      destruct (existsb (String.eqb w) l); [exact Hn|].
      apply in_or_app. now left.
    + intros _.
      destruct (existsb (String.eqb w) _) eqn:E.
      * apply existsb_exists in E. destruct E as [x [Hx Hq]].
        apply String.eqb_eq in Hq. now subst.
      * apply in_or_app. right. now left.
  - split; [auto | split; [discriminate | reflexivity]].
Qed.

Lemma unpack_rows_wavs (rs : list Row) (s : Unpack.State) :
  let s' := fold_left (Unpack.unpack_row dataset dataset_dir false) rs s in
  (forall n, Shape.has_wav (Unpack.flat s) n -> Shape.has_wav (Unpack.flat s') n)
  /\ (forall r, In r rs -> Plan.src_present dataset r = true ->
                Shape.has_wav (Unpack.flat s')
                              (PyPath.join_name dataset_dir (audio_path r)))
  /\ ((forall r, In r rs -> Plan.src_present dataset r = false) ->
      Unpack.flat s' = Unpack.flat s).
Proof.
  revert s. induction rs as [|r rs IH]; intros s; cbn [fold_left].
  - split; [auto | split; [intros r [] | reflexivity]].
  - destruct (IH (Unpack.unpack_row dataset dataset_dir false s r))
      as (H1 & H2 & H3).
    destruct (unpack_row_wavs s r) as (K1 & K2 & K3). cbv zeta in *.
    split; [|split].
    + intros n Hn. now apply H1, K1.
    + intros x [<-|Hx] Hp; [now apply H1, K2 | now apply H2].
    + intros Hall. rewrite H3, K3; [reflexivity | |]; intros; apply Hall;
        (now left) || (now right).
Qed.

End UnpackedFiles.

Lemma part_is_one_part (s x : string) :
  In x (PyPath.parts s) -> PyPath.parts x = [x].
Proof.
  unfold PyPath.parts. intros H. apply filter_In in H. destruct H as [Hs Hk].
  rewrite (split_no_sep "/" x); [simpl; now rewrite Hk|].
  now apply (split_parts_no_sep "/" s).
Qed.

Lemma join_name_parts (base p : string) :
  PyPath.parts (PyPath.join_name base p)
  = if String.eqb (PyPath.join_name base p) "" then []
    else [PyPath.join_name base p].
Proof.
  assert (H : forall L, (forall x, In x L -> PyPath.parts x = [x]) ->
                        PyPath.parts (last L "")
                        = if String.eqb (last L "") "" then []
                          else [last L ""]).
  { intros L HL. destruct L as [|y L]; [reflexivity|].
    pose proof (last_In (y :: L) "" ltac:(discriminate)) as Hin.
    rewrite (HL _ Hin).
    destruct (String.eqb_spec (last (y :: L) "") "") as [E|_]; [|reflexivity].
    apply HL in Hin. rewrite E in Hin. discriminate. }
  unfold PyPath.join_name, PyPath.name.
  destruct (PyPath.is_absolute p); apply H.
  - intros x. apply part_is_one_part.
  - intros x Hx. apply in_app_or in Hx.
    destruct Hx as [Hx|Hx]; eapply part_is_one_part; exact Hx.
Qed.

Local Abbreviation flat_name_parts :=
  (fun n : string => ["wavs"] ++ (if String.eqb n "" then [] else [n])).

Lemma flat_name_parts_inj (n n' : string) :
  flat_name_parts n = flat_name_parts n' -> n = n'.
Proof.
  cbv beta.
  destruct (String.eqb_spec n "") as [->|Hn],
           (String.eqb_spec n' "") as [->|Hn'];
    intros Q; inversion Q; congruence.
Qed.

Lemma NoDup_map_inj {A B} (f : A -> B) (l : list A) :
  (forall x y, f x = f y -> x = y) -> NoDup l -> NoDup (map f l).
Proof.
  intros Hinj. induction 1 as [|x l Hx _ IH]; simpl; constructor; [|exact IH].
  intros Hin. apply in_map_iff in Hin. destruct Hin as [y [E Hy]].
  apply Hinj in E. now subst.
Qed.

Lemma unpack_wavs (dataset : Tree) (dataset_dir : string) (out : Flat)
    (speaker_f audio_source_f batch_f : option string)
    (meta : list (string * DataFrame)) (kept : list Row) :
  metadata dataset = Some meta ->
  kept = Unpack.filter_rows
           (rows (Unpack.concat_frames (map snd (Unpack.parquet_files meta))))
           speaker_f audio_source_f batch_f ->
  kept <> [] ->
  exists s,
    Unpack.unpack dataset dataset_dir out speaker_f audio_source_f batch_f
                  false = (Finished, s)
    /\ (forall r, In r kept -> Plan.src_present dataset r = true ->
          Shape.has_wav (Unpack.flat s)
                        (PyPath.join_name dataset_dir (audio_path r)))
    /\ (forall n, Shape.has_wav out n -> Shape.has_wav (Unpack.flat s) n)
    /\ ((forall r, In r kept -> Plan.src_present dataset r = false) ->
        flat_wavs (Unpack.flat s) = flat_wavs out).
Proof.
  intros M Hkept Hne.
  unfold Unpack.unpack. rewrite M. unfold Unpack.load_all_metadata.
  destruct (Unpack.parquet_files meta) as [|f fs] eqn:P.
  { exfalso. apply Hne. rewrite Hkept. cbn.
    unfold Unpack.filter_rows.
    destruct (truthy speaker_f), (truthy audio_source_f), (truthy batch_f);
      reflexivity. }
  unfold Unpack.apply_filters. cbn [columns rows]. rewrite <- Hkept.
  destruct kept as [|r0 kept0] eqn:K; [congruence|]. rewrite <- K in *.
  cbn [columns rows].
  set (s0 := Unpack.mkState out _ 0 0 []).
  destruct (unpack_rows_wavs dataset dataset_dir kept s0) as (H1 & H2 & H3).
  cbv zeta in *. eexists. split; [reflexivity|].
  cbn [Unpack.flat]. unfold Shape.has_wav in *. unfold Unpack.write_csv.
  cbn [flat_wavs]. split; [exact H2|]. split; [exact H1|].
  intros Hall. now rewrite (H3 Hall).
Qed.

(** X12. After a real run of unpack that passes the pre-flight checks,
    wavs/ of the flat output has, for every kept row whose source file
    exists, a file under the file name of the row's new audio_path, and
    every file name it had before.  The copies made are one per such row,
    in row order, from the row's audio_path to wavs/<file name>: rows that
    share a file name are copied to the same destination one after the
    other, and when the file names are pairwise different no destination is
    written twice.  When no kept row has its source file, wavs/ is left
    exactly as it was and is not even created. *)
Theorem unpacked_files_are_in_wavs :
  forall (dataset : Tree) (dataset_dir : string) (out : Flat)
         (speaker_f audio_source_f batch_f : option string)
         (meta : list (string * DataFrame)) (kept : list Row),
    metadata dataset = Some meta ->
    kept = Unpack.filter_rows
             (rows (Unpack.concat_frames (map snd (Unpack.parquet_files meta))))
             speaker_f audio_source_f batch_f ->
    kept <> [] ->
    exists s,
      Unpack.unpack dataset dataset_dir out speaker_f audio_source_f batch_f
                    false = (Finished, s)
      /\ (forall r, In r kept -> Plan.src_present dataset r = true ->
            Shape.has_wav (Unpack.flat s)
                          (PyPath.join_name dataset_dir (audio_path r)))
      /\ (forall n, Shape.has_wav out n -> Shape.has_wav (Unpack.flat s) n)
      /\ Log.copy_plan (Unpack.log s)
         = map (fun r =>
                  (audio_path r,
                   ["wavs"]
                   ++ PyPath.parts
                        (PyPath.join_name dataset_dir (audio_path r))))
               (filter (Plan.src_present dataset) kept)
      /\ (NoDup (map (fun r => PyPath.join_name dataset_dir (audio_path r))
                     (filter (Plan.src_present dataset) kept)) ->
          NoDup (map snd (Log.copy_plan (Unpack.log s))))
      /\ ((forall r, In r kept -> Plan.src_present dataset r = false) ->
          flat_wavs (Unpack.flat s) = flat_wavs out).
Proof.
  intros dataset dataset_dir out sp au ba meta kept M Hkept Hne.
  assert (Hfiles : Unpack.parquet_files meta <> []).
  { intros P. apply Hne. rewrite Hkept, P. cbn. unfold Unpack.filter_rows.
    destruct (truthy sp), (truthy au), (truthy ba); reflexivity. }
  destruct (unpack_finishes dataset dataset_dir out sp au ba false meta _ kept
              M Hfiles eq_refl Hkept Hne)
    as (s' & E' & _ & _ & Hcp & _).
  destruct (unpack_wavs dataset dataset_dir out sp au ba meta kept M Hkept Hne)
    as (s & E & H1 & H2 & H3).
  rewrite E in E'. inversion E'; subst s'. clear E'.
  exists s. split; [exact E|]. split; [exact H1|]. split; [exact H2|].
  assert (Hplan : Log.copy_plan (Unpack.log s)
                  = map (fun r =>
                           (audio_path r,
                            ["wavs"]
                            ++ PyPath.parts
                                 (PyPath.join_name dataset_dir (audio_path r))))
                        (filter (Plan.src_present dataset) kept)).
  { rewrite Hcp. reflexivity. }
  split; [exact Hplan|]. split; [|exact H3].
  intros Hnd. rewrite Hplan, map_map. cbn [snd].
  rewrite (map_ext _ (fun r => flat_name_parts
                                 (PyPath.join_name dataset_dir (audio_path r))))
    by (intros r; cbv beta; now rewrite join_name_parts).
  rewrite <- (map_map (fun r => PyPath.join_name dataset_dir (audio_path r))
                      flat_name_parts).
  apply NoDup_map_inj; [apply flat_name_parts_inj | exact Hnd].
Qed.

(** X12 at a dataset of one shard with two rows, the second without its
    file. *)
Lemma unpacked_files_are_in_wavs_witness :
  exists s,
    Unpack.unpack Examples.dataset "/data/ds" Examples.empty_flat
                  None None None false
    = (Finished, s)
    /\ (forall r, In r (rows Examples.shard) ->
          Plan.src_present Examples.dataset r = true ->
          Shape.has_wav (Unpack.flat s)
                        (PyPath.join_name "/data/ds" (audio_path r)))
    /\ (forall n, Shape.has_wav Examples.empty_flat n ->
                  Shape.has_wav (Unpack.flat s) n)
    /\ Log.copy_plan (Unpack.log s)
       = map (fun r =>
                (audio_path r,
                 ["wavs"]
                 ++ PyPath.parts (PyPath.join_name "/data/ds" (audio_path r))))
             (filter (Plan.src_present Examples.dataset)
                     (rows Examples.shard))
    /\ (NoDup (map (fun r => PyPath.join_name "/data/ds" (audio_path r))
                   (filter (Plan.src_present Examples.dataset)
                           (rows Examples.shard))) ->
        NoDup (map snd (Log.copy_plan (Unpack.log s))))
    /\ ((forall r, In r (rows Examples.shard) ->
                   Plan.src_present Examples.dataset r = false) ->
        flat_wavs (Unpack.flat s) = flat_wavs Examples.empty_flat).
Proof.
  apply (unpacked_files_are_in_wavs
           Examples.dataset "/data/ds" Examples.empty_flat None None None
           [("yt_bob_batch_0001.parquet", Examples.shard)]
           (rows Examples.shard)).
  - reflexivity.
  - reflexivity.
  - discriminate.
Defined.

(** ** The batch filter of unpack on the rows of a shard *)

Lemma rewritten_path_segments (S P B w : string) (r : Row) :
  Unpack.batch_matches B (with_audio_path r (Pack.new_rel_of S P B w)) = true
  /\ Unpack.batch_matches P (with_audio_path r (Pack.new_rel_of S P B w))
     = true
  /\ Unpack.batch_matches S (with_audio_path r (Pack.new_rel_of S P B w))
     = true.
Proof.
  unfold Unpack.batch_matches, Pack.new_rel_of.
  cbn [audio_path with_audio_path].
  split; [|split]; apply contains_iff_infix.
  - exists ("audio/" ++ S ++ "/" ++ P)%string, w.
    rewrite !str_app_assoc. reflexivity.
  - exists ("audio/" ++ S)%string, (B ++ "/" ++ w)%string.
    rewrite !str_app_assoc. reflexivity.
  - exists "audio"%string, (P ++ "/" ++ B ++ "/" ++ w)%string.
    rewrite !str_app_assoc. reflexivity.
Qed.

Lemma mapped_row_filter (wav_names : list string) (S P B : string) (r : Row) :
  Unpack.batch_matches B (Plan.mapped_row wav_names S P B r)
  = (Plan.wav_present wav_names r || Unpack.batch_matches B r)%bool
  /\ (Plan.wav_present wav_names r = true ->
      Unpack.batch_matches P (Plan.mapped_row wav_names S P B r) = true
      /\ Unpack.batch_matches S (Plan.mapped_row wav_names S P B r) = true).
Proof.
  unfold Plan.mapped_row, Plan.mapped_path.
  destruct (Plan.wav_present wav_names r); cbn [orb].
  - destruct (rewritten_path_segments S P B (PyPath.name (audio_path r)) r)
      as (H1 & H2 & H3).
    split; [exact H1 | intros _; now split].
  - rewrite with_own_path. split; [reflexivity | discriminate].
Qed.

(** X11. The batch filter of unpack and the rows pack writes into the shard
    of a batch.  When the shard of a chunk can be written, the rows of its
    frame are the rows of the chunk, in order, and a row of the frame is
    selected by the filter for the label of the batch exactly when its wav
    was present (its audio_path was rewritten to
    audio/<source>/<speaker>/<batch>/<file>) or its original audio_path
    itself contains /<batch>/: a row written unchanged because its wav was
    missing is, as a rule, not found under its batch.  The test is a
    substring test not tied to the batch position: a rewritten row is also
    selected when the sanitised speaker or source is given as the batch. *)
Theorem batch_filter_on_packed_rows :
  forall (cols wav_names : list string) (S P : string)
         (exact_batch : option string) (start : Z) (s : Pack.State)
         (ic : nat * list Row),
    PyStr.contains
      (Pack.parquet_name_of S P (Pack.batch_label exact_batch start (fst ic)))
      "/" = false ->
    exists frame,
      Log.saved
        (Pack.log (snd (Pack.pack_chunk cols wav_names S P exact_batch start
                                        false s ic)))
      = Log.saved (Pack.log s)
        ++ [(Pack.parquet_name_of S P
               (Pack.batch_label exact_batch start (fst ic)), frame)]
      /\ Forall2
           (fun r r' =>
              Unpack.batch_matches
                (Pack.batch_label exact_batch start (fst ic)) r'
              = (Plan.wav_present wav_names r
                 || Unpack.batch_matches
                      (Pack.batch_label exact_batch start (fst ic)) r)%bool
              /\ (Plan.wav_present wav_names r = true ->
                  Unpack.batch_matches P r' = true
                  /\ Unpack.batch_matches S r' = true))
           (snd ic) (rows frame).
Proof.
  intros cols wav_names S P eb start s ic Hname.
  rewrite pack_chunk_written by now right. cbn [snd].
  destruct (pack_chunk_spec cols wav_names false S P eb start s ic) as [Hl _].
  cbv zeta in Hl. rewrite Hl, saved_app, chunk_events_saved.
  eexists. split; [reflexivity|]. cbn [rows]. clear Hl Hname.
  set (B := Pack.batch_label eb start (fst ic)). clearbody B.
  induction (snd ic) as [|r rs IH]; cbn [map]; [constructor|].
  constructor; [apply mapped_row_filter | exact IH].
Qed.

(** X11 at the first chunk of a group of two rows, the second without its
    wav. *)
Lemma batch_filter_on_packed_rows_witness :
  exists frame,
    Log.saved
      (Pack.log (snd (Pack.pack_chunk Examples.header ["a.wav"] "yt" "bob"
                        None 1 false
                        (Pack.mkState Examples.empty_tree [] 0 0)
                        (0%nat, [mkRow "wavs/a.wav" "bob" "yt" [];
                                 mkRow "wavs/gone.wav" "bob" "yt" []]))))
    = Log.saved (Pack.log (Pack.mkState Examples.empty_tree [] 0 0))
      ++ [(Pack.parquet_name_of "yt" "bob" (Pack.batch_label None 1 0), frame)]
    /\ Forall2
         (fun r r' =>
            Unpack.batch_matches (Pack.batch_label None 1 0) r'
            = (Plan.wav_present ["a.wav"] r
               || Unpack.batch_matches (Pack.batch_label None 1 0) r)%bool
            /\ (Plan.wav_present ["a.wav"] r = true ->
                Unpack.batch_matches "bob" r' = true
                /\ Unpack.batch_matches "yt" r' = true))
         [mkRow "wavs/a.wav" "bob" "yt" [];
          mkRow "wavs/gone.wav" "bob" "yt" []]
         (rows frame).
Proof.
  apply (batch_filter_on_packed_rows Examples.header ["a.wav"] "yt" "bob"
           None 1 (Pack.mkState Examples.empty_tree [] 0 0)
           (0%nat, [mkRow "wavs/a.wav" "bob" "yt" [];
                    mkRow "wavs/gone.wav" "bob" "yt" []])).
  reflexivity.
Defined.

(** ** Packing under an explicit label *)

Section ExplicitLabel.

Variables (cols wav_names : list string) (b : string) (dry_run : bool).
Hypothesis b_given : b <> "".

Lemma truthy_given : truthy (Some b) = true.
Proof. cbn. now destruct (String.eqb_spec b ""). Qed.

Hypothesis can_write : dry_run = true \/ PyStr.contains b "/" = false.

Lemma label_writable : dry_run = true \/ Plan.slash_free (Some b) = true.
Proof.
  destruct can_write as [H|H]; [now left | right].
  unfold Plan.slash_free. now rewrite H, andb_false_r.
Qed.

Local Abbreviation group_events :=
  (fun g : Pack.key * list Row =>
     Plan.chunk_events cols wav_names (Pack.sanitise (fst (fst g)))
       (Pack.sanitise (snd (fst g))) b dry_run (snd g)).

Lemma explicit_groups_log (max_rows : Z) (gs : list (Pack.key * list Row))
    (s : Pack.State) :
  fst (Pack.pack_groups cols wav_names (Some b) max_rows dry_run gs s) = Finished
  /\ Pack.log (snd (Pack.pack_groups cols wav_names (Some b) max_rows dry_run
                                     gs s))
     = Pack.log s ++ flat_map group_events gs.
Proof.
  revert s. induction gs as [|g gs IH]; intros s.
  - cbn. now rewrite app_nil_r.
  - cbn [Pack.pack_groups flat_map].
    rewrite (pack_group_written cols wav_names (Some b) max_rows dry_run s g
               [snd g] label_writable
               (chunks_explicit _ _ _ truthy_given)).
    rewrite truthy_given. cbn [negb length seq combine fold_left].
    destruct (IH (Plan.chunk_done cols wav_names (Pack.sanitise (fst (fst g)))
                    (Pack.sanitise (snd (fst g))) (Some b) 0 dry_run s
                    (0%nat, snd g))) as [H1 H2].
    split; [exact H1|]. rewrite H2.
    destruct (pack_chunk_spec cols wav_names dry_run
                (Pack.sanitise (fst (fst g))) (Pack.sanitise (snd (fst g)))
                (Some b) 0 s (0%nat, snd g)) as [Hl _].
    cbv zeta in Hl. rewrite Hl. unfold Pack.batch_label.
    rewrite truthy_given. cbn [fst snd]. now rewrite <- app_assoc.
Qed.

Lemma explicit_pack_log (src : Source) (out : Tree) (max_rows : Z)
    (df : DataFrame) :
  metadata_csv src = Some df ->
  (forall c, In c Pack.required -> In c (columns df)) ->
  wavs src = Some wav_names ->
  cols = columns df ->
  fst (Pack.pack src out (Some b) max_rows dry_run) = Finished
  /\ Pack.log (snd (Pack.pack src out (Some b) max_rows dry_run))
     = (if dry_run then [] else [Mkdir ["metadata"]])
       ++ flat_map group_events (Pack.groupby (rows df))
       ++ [if dry_run then DryDone
           else Done (Plan.copied_in wav_names dry_run (Plan.keyed (rows df)))
                     (Plan.count_missing wav_names (Plan.keyed (rows df)))].
Proof.
  intros Hcsv Hcols Hw Hc.
  destruct (pack_finishes src out (Some b) max_rows dry_run df wav_names
              Hcsv Hcols Hw (or_introl truthy_given) label_writable)
    as (s & ev & E & _ & _ & _ & _ & _ & _ & Hsk & Hmv & _).
  rewrite E. cbn [fst snd]. split; [reflexivity|].
  unfold Pack.pack in E.
  rewrite (load_metadata_ok src df Hcsv Hcols), Hw in E.
  set (s1 := if dry_run then _ else _) in E.
  destruct (explicit_groups_log max_rows (Pack.groupby (rows df)) s1)
    as [H1 H2].
  rewrite <- Hc in E.
  destruct (Pack.pack_groups cols wav_names (Some b) max_rows dry_run
              (Pack.groupby (rows df)) s1) as [o s2].
  cbn [fst snd] in H1, H2. subst o. inversion E; subst s; clear E.
  cbn [Pack.log Pack.moved Pack.skipped] in *.
  rewrite H2, Hsk, Hmv, <- app_assoc. unfold s1.
  destruct dry_run; reflexivity.
Qed.

End ExplicitLabel.




(** ** The filters of unpack against the partitions of pack *)

Lemma sanitise_of_lower (v : string) :
  Pack.sanitise (PyStr.lower v) = Pack.sanitise v.
Proof.
  unfold Pack.sanitise, PyStr.strip. unfold PyStr.lower at 2.
  rewrite lstrip_map, rstrip_map by apply lower_ascii_space.
  fold (PyStr.lower (PyStr.rstrip (PyStr.lstrip v))).
  now rewrite lower_idem.
Qed.

Lemma sanitise_same_lower (a b : string) :
  PyStr.lower a = PyStr.lower b -> Pack.sanitise a = Pack.sanitise b.
Proof.
  intros H. rewrite <- (sanitise_of_lower a), <- (sanitise_of_lower b).
  now rewrite H.
Qed.

(** X14. The rows that the speaker and audio_source filters of unpack keep
    all lie in one partition of pack: a row kept under the speaker filter
    has a speaker that sanitises to the same directory name as the filter
    value, and likewise for the audio_source filter. *)
Theorem filters_keep_one_partition :
  forall (rs : list Row) (speaker_f audio_source_f batch_f : option string),
    Forall
      (fun r =>
         (truthy speaker_f = true ->
          Pack.sanitise (speaker r) = Pack.sanitise (Unpack.arg speaker_f))
         /\ (truthy audio_source_f = true ->
             Pack.sanitise (audio_source r)
             = Pack.sanitise (Unpack.arg audio_source_f)))
      (Unpack.filter_rows rs speaker_f audio_source_f batch_f).
Proof.
  intros rs sp au ba. apply Forall_forall. intros r Hr.
  apply filter_rows_In in Hr. destruct Hr as (_ & Hs & Ha & _).
  split; intros T; apply sanitise_same_lower; auto.
Qed.

(** ** The counts of the [DONE] line *)




(** ** A table without rows *)

(** X16. Packing a table that has the required columns but no rows
    succeeds for every label and every [max_rows], zero included: a real
    run creates metadata/, writes no shard and reports 0 moved, 0 skipped.
    If the output held no .parquet file before, unpack then refuses the
    result: it exits with the message for a metadata/ without shards and
    changes nothing. *)
Theorem empty_table_packs_to_nothing :
  forall (src : Source) (out : Tree) (exact_batch : option string)
         (max_rows : Z) (df : DataFrame) (wav_names : list string),
    metadata_csv src = Some df ->
    (forall c, In c Pack.required -> In c (columns df)) ->
    wavs src = Some wav_names ->
    rows df = [] ->
    Pack.pack src out exact_batch max_rows false
    = (Finished,
       Pack.mkState (FS.mkdir_metadata out) [Mkdir ["metadata"]; Done 0 0] 0 0)
    /\ (Unpack.parquet_files
          (match metadata out with Some l => l | None => [] end) = [] ->
        forall (dataset_dir : string) (flat : Flat)
               (speaker_f audio_source_f batch_f : option string)
               (dry_run : bool),
          Unpack.unpack (FS.mkdir_metadata out) dataset_dir flat
                        speaker_f audio_source_f batch_f dry_run
          = (SysExit "[ERROR] No .parquet files found",
             Unpack.mkState flat [] 0 0 [])).
Proof.
  intros src out eb mr df wav_names Hcsv Hcols Hw Hrows. split.
  - unfold Pack.pack. rewrite (load_metadata_ok src df Hcsv Hcols), Hw, Hrows.
    reflexivity.
  - intros Hp dataset_dir flat sp au ba dry.
    unfold Unpack.unpack, FS.mkdir_metadata. cbn [metadata].
    unfold Unpack.load_all_metadata. now rewrite Hp.
Qed.

(** X16 at a table of three columns and no rows. *)
Lemma empty_table_packs_to_nothing_witness :
  Pack.pack
    (mkSource (Some (mkFrame ["audio_path"; "speaker"; "audio_source"] []))
              (Some []))
    (mkTree None [] []) None 0 false
  = (Finished,
     Pack.mkState (FS.mkdir_metadata (mkTree None [] []))
                  [Mkdir ["metadata"]; Done 0 0] 0 0)
  /\ (Unpack.parquet_files
        (match metadata (mkTree None [] []) with Some l => l | None => [] end)
      = [] ->
      forall (dataset_dir : string) (flat : Flat)
             (speaker_f audio_source_f batch_f : option string)
             (dry_run : bool),
        Unpack.unpack (FS.mkdir_metadata (mkTree None [] [])) dataset_dir flat
                      speaker_f audio_source_f batch_f dry_run
        = (SysExit "[ERROR] No .parquet files found",
           Unpack.mkState flat [] 0 0 [])).
Proof.
  apply (empty_table_packs_to_nothing
           (mkSource (Some (mkFrame ["audio_path"; "speaker"; "audio_source"] []))
                     (Some []))
           (mkTree None [] []) None 0
           (mkFrame ["audio_path"; "speaker"; "audio_source"] []) []).
  - reflexivity.
  - intros c Hc. exact Hc.
  - reflexivity.
  - reflexivity.
Defined.

(** ** How many batches a group gives *)

Section ChunkCount.

Variables (n m : nat).
Hypothesis m_pos : (0 < m)%nat.

Lemma range_from_done (fuel i : nat) :
  (n <= i)%nat -> Pack.range_from fuel i n m = [].
Proof.
  intros H. destruct fuel; [reflexivity|]. simpl.
  destruct (Nat.ltb_spec i n); [lia | reflexivity].
Qed.

Lemma range_from_length (fuel i : nat) :
  (n - i <= fuel)%nat ->
  length (Pack.range_from fuel i n m) = ((n - i + m - 1) / m)%nat.
Proof.
  revert i. induction fuel as [|fuel IH]; intros i Hf.
  - simpl. symmetry. apply Nat.div_small. lia.
  - simpl. destruct (Nat.ltb_spec i n) as [Hlt|Hge].
    + simpl. destruct (Nat.le_gt_cases (n - i) m) as [Hle|Hgt].
      * rewrite range_from_done by lia. simpl.
        replace (n - i + m - 1)%nat with ((n - i - 1) + 1 * m)%nat by lia.
        rewrite Nat.div_add by lia. rewrite Nat.div_small; lia.
      * rewrite IH by lia.
        replace (n - i + m - 1)%nat
          with ((n - (i + m) + m - 1) + 1 * m)%nat by lia.
        rewrite Nat.div_add by lia. lia.
    + simpl. symmetry. apply Nat.div_small. lia.
Qed.

End ChunkCount.

(** X17. With automatic labels and a positive [max_rows], a group of n rows
    is cut into exactly ceil(n / max_rows) batches. *)
Theorem chunk_count_is_ceiling :
  forall (group_df : list Row) (max_rows : Z),
    (0 < max_rows)%Z ->
    exists cs,
      Pack.chunks None max_rows group_df = Some cs
      /\ Z.of_nat (length cs)
         = ((Z.of_nat (length group_df) + max_rows - 1) / max_rows)%Z.
Proof.
  intros g mr Hpos. unfold Pack.chunks, Pack.range0. cbn [truthy].
  destruct (Z.eqb_spec mr 0); [lia|].
  destruct (Z.ltb_spec mr 0); [lia|].
  eexists. split; [reflexivity|].
  rewrite length_map, range_from_length by lia.
  rewrite Nat.sub_0_r, Nat2Z.inj_div.
  f_equal; lia.
Qed.

(** X17 at a group of five rows, two to a batch. *)
Lemma chunk_count_is_ceiling_witness :
  exists cs,
    Pack.chunks None 2 (repeat (mkRow "wavs/a.wav" "bob" "yt" []) 5) = Some cs
    /\ Z.of_nat (length cs)
       = ((Z.of_nat (length (repeat (mkRow "wavs/a.wav" "bob" "yt" []) 5))
           + 2 - 1) / 2)%Z.
Proof.
  apply (chunk_count_is_ceiling (repeat (mkRow "wavs/a.wav" "bob" "yt" []) 5) 2).
  lia.
Defined.

(** ** Replaying the same writes on metadata/ *)

Section Replay.

Context {A : Type}.

Local Abbreviation last_value := (@Shape.last_value A).

Lemma put_present (k : string) (v : A) (m : list (string * A)) :
  NoDup (map fst m) -> In k (map fst m) ->
  FS.put k v m
  = map (fun kv => (fst kv, if String.eqb (fst kv) k then v else snd kv)) m.
Proof.
  induction m as [|[k' v'] m IH]; simpl; intros Hnd Hin; [destruct Hin|].
  inversion Hnd as [|? ? Hk Hnd']; subst.
  destruct (String.eqb_spec k k') as [->|Hne].
  - rewrite String.eqb_refl. f_equal.
    rewrite <- (map_id m) at 1. apply map_ext_in.
    intros [a x] Ha. simpl.
    destruct (String.eqb_spec a k') as [->|]; [|reflexivity].
    exfalso. apply Hk. apply in_map_iff. now exists (k', x).
  - destruct (String.eqb_spec k' k) as [->|_]; [congruence|].
    f_equal. apply IH; [exact Hnd'|]. destruct Hin; [congruence | assumption].
Qed.

Lemma put_keys_same (k : string) (v : A) (m : list (string * A)) :
  In k (map fst m) -> map fst (FS.put k v m) = map fst m.
Proof.
  induction m as [|[k' v'] m IH]; simpl; intros Hin; [destruct Hin|].
  destruct (String.eqb_spec k k') as [->|Hne]; [reflexivity|].
  simpl. f_equal. apply IH. destruct Hin; [congruence | assumption].
Qed.

Lemma put_NoDup (k : string) (v : A) (m : list (string * A)) :
  NoDup (map fst m) -> NoDup (map fst (FS.put k v m)).
Proof.
  induction m as [|[k' v'] m IH]; simpl; intros Hnd.
  - constructor; [intros [] | constructor].
  - inversion Hnd as [|? ? Hk Hnd']; subst.
    destruct (String.eqb_spec k k') as [->|Hne]; simpl.
    + now constructor.
    + constructor; [|now apply IH].
      intros Hin. apply put_keys in Hin. destruct Hin; [tauto | congruence].
Qed.

Local Abbreviation replay l m :=
  (fold_left (fun acc (x : string * A) => FS.put (fst x) (snd x) acc) l m).

Lemma replay_NoDup (l m : list (string * A)) :
  NoDup (map fst m) -> NoDup (map fst (replay l m)).
Proof.
  revert m. induction l as [|x l IH]; intros m H; [exact H|].
  cbn [fold_left]. apply IH. now apply put_NoDup.
Qed.

Lemma replay_keys (l m : list (string * A)) (k : string) :
  In k (map fst (replay l m)) <-> In k (map fst m) \/ In k (map fst l).
Proof.
  revert m. induction l as [|x l IH]; intros m; cbn [fold_left map].
  - simpl. tauto.
  - rewrite IH, put_keys. simpl. intuition.
Qed.

Lemma replay_present (l m : list (string * A)) :
  NoDup (map fst m) ->
  (forall k, In k (map fst l) -> In k (map fst m)) ->
  replay l m = map (fun kv => (fst kv, last_value l (fst kv) (snd kv))) m.
Proof.
  revert m. induction l as [|[k v] l IH]; intros m Hnd Hin.
  - cbn. symmetry. rewrite <- (map_id m) at 2. apply map_ext.
    now intros [a x].
  - cbn [fold_left fst snd].
    assert (Hk : In k (map fst m)) by (apply Hin; now left).
    rewrite IH.
    + rewrite put_present by assumption. rewrite map_map. reflexivity.
    + now apply put_NoDup.
    + intros k' Hk'. rewrite put_keys_same by exact Hk.
      apply Hin. now right.
Qed.

Lemma last_value_app (l : list (string * A)) (k kx : string) (vx d : A) :
  last_value (l ++ [(kx, vx)]) k d
  = if String.eqb k kx then vx else last_value l k d.
Proof.
  revert d. induction l as [|[k' v'] l IH]; intros d; [reflexivity|].
  cbn [app last_value]. apply IH.
Qed.

Lemma replay_settled (l m : list (string * A)) :
  NoDup (map fst m) ->
  forall k v, In (k, v) (replay l m) -> last_value l k v = v.
Proof.
  intros Hnd. induction l as [|[kx vx] l IH] using rev_ind; [reflexivity|].
  intros k v. rewrite fold_left_app. cbn [fold_left fst snd].
  rewrite last_value_app. intros Hin.
  pose proof (replay_NoDup l m Hnd) as Hnd'.
  set (M := fold_left _ l m) in *. clearbody M.
  clear Hnd. revert Hin Hnd' IH. induction M as [|[a x] M IHM]; simpl.
  - intros [E|[]] _ _. inversion E; subst. now rewrite String.eqb_refl.
  - intros Hin Hnd' IH. inversion Hnd' as [|? ? Ha Hnd'']; subst.
    destruct (String.eqb_spec kx a) as [->|Hne].
    + destruct Hin as [E|Hin].
      * inversion E; subst. now rewrite String.eqb_refl.
      * destruct (String.eqb_spec k a) as [->|_].
        -- exfalso. apply Ha. apply in_map_iff. now exists (a, v).
        -- apply IH. now right.
    + destruct Hin as [E|Hin].
      * inversion E; subst.
        destruct (String.eqb_spec k kx) as [->|_]; [congruence|].
        apply IH. now left.
      * apply IHM; [exact Hin | exact Hnd''|].
        intros k' v' H'. apply IH. now right.
Qed.

Lemma replay_twice (l m : list (string * A)) :
  NoDup (map fst m) -> replay l (replay l m) = replay l m.
Proof.
  intros Hnd. rewrite (replay_present l (replay l m)).
  - rewrite <- (map_id (replay l m)) at 2. apply map_ext_in.
    intros [k v] Hin. cbn [fst snd]. f_equal.
    now apply (replay_settled l m Hnd).
  - now apply replay_NoDup.
  - intros k Hk. apply replay_keys. now right.
Qed.

End Replay.

(** ** Packing again under the same explicit label *)

Section Rerun.

Variables (cols wav_names : list string) (b : string).
Hypothesis b_given : b <> "".

Lemma audio_dir_raw (p : list string) (t : Tree) :
  In ("audio" :: p) (FS.dir_paths t) -> In ("audio" :: p) (dirs t).
Proof.
  unfold FS.dir_paths. rewrite in_app_iff. intros [H|H]; [exact H|].
  destruct (metadata t); [destruct H as [H|[]]; discriminate | destruct H].
Qed.

Lemma audio_file_raw (p : list string) (t : Tree) :
  In ("audio" :: p) (FS.file_paths t) -> In ("audio" :: p) (files t).
Proof.
  unfold FS.file_paths. rewrite in_app_iff. intros [H|H]; [exact H|].
  destruct (metadata t); [|destruct H].
  apply in_map_iff in H. destruct H as [x [H _]]. discriminate.
Qed.

Lemma add_path_same (p : list string) (l : list (list string)) :
  In p l -> FS.add_path p l = l.
Proof.
  intros H. unfold FS.add_path.
  replace (existsb (FS.parts_eqb p) l) with true; [reflexivity|].
  symmetry. apply existsb_exists. exists p. split; [exact H|].
  now apply parts_eqb_eq.
Qed.

(** The paths that the rows [rs] of a group need in the tree. *)
Local Abbreviation placed S P rs t :=
  (forall r, In r rs -> Plan.wav_present wav_names r = true ->
             In (Pack.dest_dir_of S P b) (FS.dir_paths t)
             /\ In (Pack.dest_dir_of S P b
                    ++ PyPath.parts (PyPath.name (audio_path r)))
                   (FS.file_paths t)).

Lemma pack_rows_dirs (S P : string) (chunk : list Row) (a : Pack.RowAcc)
    (r : Row) :
  In r chunk -> Plan.wav_present wav_names r = true ->
  In (Pack.dest_dir_of S P b)
     (FS.dir_paths
        (Pack.tree (Pack.st (fold_left (Pack.pack_row wav_names S P b false)
                                       chunk a)))).
Proof.
  revert a. induction chunk as [|x chunk IH]; intros a Hin Hp; [destruct Hin|].
  cbn [fold_left]. destruct Hin as [->|Hin]; [|now apply IH].
  apply (pack_rows_grows wav_names false S P b chunk).
  unfold Pack.pack_row. unfold Plan.wav_present in Hp. rewrite Hp.
  cbn [negb Pack.st Pack.tree].
  apply (copy_to_grows _ _).
  unfold FS.dir_paths, FS.mkdir. cbn [dirs metadata].
  apply in_or_app. left. apply add_path_In. now right.
Qed.

Lemma pack_chunk_places (S P : string) (s : Pack.State) (chunk : list Row) :
  placed S P chunk
    (Pack.tree (Plan.chunk_done cols wav_names S P (Some b) 0 false s
                                (0%nat, chunk))).
Proof.
  intros r Hr Hp. unfold Plan.chunk_done, Pack.batch_label.
  rewrite (truthy_given b b_given). cbn [fst snd Pack.tree].
  split; apply (write_shard_grows _ _ _).
  - now apply (pack_rows_dirs S P chunk (Pack.mkAcc s [] 0) r).
  - now apply (pack_rows_files wav_names S P b chunk (Pack.mkAcc s [] 0) r).
Qed.

Lemma pack_row_stays (S P : string) (a : Pack.RowAcc) (r : Row) :
  (Plan.wav_present wav_names r = true ->
   In (Pack.dest_dir_of S P b) (FS.dir_paths (Pack.tree (Pack.st a)))
   /\ In (Pack.dest_dir_of S P b ++ PyPath.parts (PyPath.name (audio_path r)))
         (FS.file_paths (Pack.tree (Pack.st a)))) ->
  Pack.tree (Pack.st (Pack.pack_row wav_names S P b false a r))
  = Pack.tree (Pack.st a).
Proof.
  intros H. unfold Pack.pack_row. unfold Plan.wav_present in H.
  destruct (existsb _ wav_names); cbn [negb Pack.st Pack.tree]; [|reflexivity].
  destruct (H eq_refl) as [Hd Hf].
  apply audio_dir_raw in Hd. apply audio_file_raw in Hf.
  unfold FS.copy_to, FS.mkdir. cbn [metadata dirs files].
  rewrite !add_path_same by assumption. now destruct (Pack.tree (Pack.st a)).
Qed.

Lemma pack_rows_stay (S P : string) (chunk : list Row) (a : Pack.RowAcc) :
  placed S P chunk (Pack.tree (Pack.st a)) ->
  Pack.tree (Pack.st (fold_left (Pack.pack_row wav_names S P b false) chunk a))
  = Pack.tree (Pack.st a).
Proof.
  revert a. induction chunk as [|r chunk IH]; intros a H; [reflexivity|].
  cbn [fold_left].
  assert (E : Pack.tree (Pack.st (Pack.pack_row wav_names S P b false a r))
              = Pack.tree (Pack.st a)).
  { apply pack_row_stays. intros Hp. apply H; [now left | exact Hp]. }
  rewrite IH; [exact E|]. rewrite E. intros x Hx. apply H. now right.
Qed.

End Rerun.

Section RerunGroups.

Variables (cols wav_names : list string) (b : string) (max_rows : Z).
Hypothesis b_given : b <> "".
Hypothesis no_slash : PyStr.contains b "/" = false.

Local Abbreviation placed_group g t :=
  (forall r, In r (snd g) -> Plan.wav_present wav_names r = true ->
             In (Pack.dest_dir_of (Pack.sanitise (fst (fst g)))
                                  (Pack.sanitise (snd (fst g))) b)
                (FS.dir_paths t)
             /\ In (Pack.dest_dir_of (Pack.sanitise (fst (fst g)))
                                     (Pack.sanitise (snd (fst g))) b
                    ++ PyPath.parts (PyPath.name (audio_path r)))
                   (FS.file_paths t)).

Local Abbreviation run gs s :=
  (Pack.pack_groups cols wav_names (Some b) max_rows false gs s).

Lemma explicit_group_step (g : Pack.key * list Row)
    (gs : list (Pack.key * list Row)) (s : Pack.State) :
  run (g :: gs) s
  = run gs (Plan.chunk_done cols wav_names (Pack.sanitise (fst (fst g)))
              (Pack.sanitise (snd (fst g))) (Some b) 0 false s
              (0%nat, snd g)).
Proof.
  cbn [Pack.pack_groups].
  rewrite (pack_group_written cols wav_names (Some b) max_rows false s g
             [snd g] (label_writable b false (or_intror no_slash))
             (chunks_explicit _ _ _ (truthy_given b b_given))).
  rewrite (truthy_given b b_given). reflexivity.
Qed.

Lemma pack_groups_place (gs : list (Pack.key * list Row)) (s : Pack.State) :
  forall g, In g gs -> placed_group g (Pack.tree (snd (run gs s))).
Proof.
  revert s. induction gs as [|g0 gs IH]; intros s g Hg; [destruct Hg|].
  rewrite explicit_group_step. destruct Hg as [->|Hg]; [|now apply IH].
  intros r Hr Hp.
  destruct (pack_chunk_places cols wav_names b b_given
              (Pack.sanitise (fst (fst g))) (Pack.sanitise (snd (fst g)))
              s (snd g) r Hr Hp) as [Hd Hf].
  split; apply (pack_groups_grows cols wav_names (Some b) max_rows false gs _);
    assumption.
Qed.

Lemma pack_groups_stay (gs : list (Pack.key * list Row)) (s : Pack.State) :
  (forall g, In g gs -> placed_group g (Pack.tree s)) ->
  dirs (Pack.tree (snd (run gs s))) = dirs (Pack.tree s)
  /\ files (Pack.tree (snd (run gs s))) = files (Pack.tree s).
Proof.
  revert s. induction gs as [|g gs IH]; intros s H; [now split|].
  rewrite explicit_group_step.
  set (s1 := Plan.chunk_done _ _ _ _ _ _ _ s _).
  assert (E : dirs (Pack.tree s1) = dirs (Pack.tree s)
              /\ files (Pack.tree s1) = files (Pack.tree s)).
  { unfold s1, Plan.chunk_done, Pack.batch_label.
    rewrite (truthy_given b b_given). cbn [fst snd Pack.tree].
    unfold FS.put_shard. cbn [dirs files].
    rewrite (pack_rows_stay wav_names b _ _ (snd g) (Pack.mkAcc s [] 0)).
    - now split.
    - apply H. now left. }
  destruct (IH s1) as [Hd Hf].
  - intros g' Hg' r Hr Hp.
    destruct (H g' (or_intror Hg') r Hr Hp) as [A B].
    split; apply (pack_chunk_grows cols wav_names (Some b) false _ _ 0 s
                    (0%nat, snd g)); assumption.
  - destruct E as [E1 E2]. split; congruence.
Qed.

End RerunGroups.

Section RerunPack.

Variables (src : Source) (df : DataFrame) (wav_names : list string).
Variables (b : string).
Hypothesis csv_there : metadata_csv src = Some df.
Hypothesis cols_there : forall c, In c Pack.required -> In c (columns df).
Hypothesis wavs_there : wavs src = Some wav_names.
Hypothesis b_given : b <> "".
Hypothesis no_slash : PyStr.contains b "/" = false.

Local Abbreviation placed_group g t :=
  (forall r, In r (snd g) -> Plan.wav_present wav_names r = true ->
             In (Pack.dest_dir_of (Pack.sanitise (fst (fst g)))
                                  (Pack.sanitise (snd (fst g))) b)
                (FS.dir_paths t)
             /\ In (Pack.dest_dir_of (Pack.sanitise (fst (fst g)))
                                     (Pack.sanitise (snd (fst g))) b
                    ++ PyPath.parts (PyPath.name (audio_path r)))
                   (FS.file_paths t)).

Lemma pack_places (out : Tree) (max_rows : Z) :
  forall g, In g (Pack.groupby (rows df)) ->
            placed_group g
              (Pack.tree (snd (Pack.pack src out (Some b) max_rows false))).
Proof.
  intros g Hg. unfold Pack.pack.
  rewrite (load_metadata_ok src df csv_there cols_there), wavs_there.
  pose proof (pack_groups_place (columns df) wav_names b max_rows b_given
                no_slash (Pack.groupby (rows df))
                (Pack.mkState (FS.mkdir_metadata out) [Mkdir ["metadata"]] 0 0)
                g Hg) as H.
  destruct (Pack.pack_groups _ _ _ _ _ _ _) as [o s2]. cbn [snd] in H.
  destruct o; exact H.
Qed.

Lemma pack_stays (t : Tree) (max_rows : Z) :
  (forall g, In g (Pack.groupby (rows df)) -> placed_group g t) ->
  dirs (Pack.tree (snd (Pack.pack src t (Some b) max_rows false))) = dirs t
  /\ files (Pack.tree (snd (Pack.pack src t (Some b) max_rows false)))
     = files t.
Proof.
  intros H. unfold Pack.pack.
  rewrite (load_metadata_ok src df csv_there cols_there), wavs_there.
  pose proof (pack_groups_stay (columns df) wav_names b max_rows b_given
                no_slash (Pack.groupby (rows df))
                (Pack.mkState (FS.mkdir_metadata t) [Mkdir ["metadata"]] 0 0))
    as K.
  destruct (Pack.pack_groups _ _ _ _ _ _ _) as [o s2].
  cbn [snd Pack.tree] in K.
  assert (KK : dirs (Pack.tree s2) = dirs t /\ files (Pack.tree s2) = files t).
  { apply K. intros g Hg r Hr Hp. destruct (H g Hg r Hr Hp) as [A B].
    split; apply (mkdir_metadata_grows t); assumption. }
  destruct o; exact KK.
Qed.

End RerunPack.

(** A label with a slash: the first shard cannot be written. *)
Lemma name_has_slash (S P b : string) :
  PyStr.contains b "/" = true ->
  PyStr.contains (Pack.parquet_name_of S P b) "/" = true.
Proof.
  intros H. apply contains_char. apply contains_char in H.
  unfold Pack.parquet_name_of. rewrite !chars_app, !in_app_iff. tauto.
Qed.

Lemma explicit_slash_groups (cols wav_names : list string) (b : string)
    (max_rows : Z) (g : Pack.key * list Row)
    (gs : list (Pack.key * list Row)) (s : Pack.State) :
  b <> "" -> PyStr.contains b "/" = true ->
  Pack.pack_groups cols wav_names (Some b) max_rows false (g :: gs) s
  = (Raised "OSError",
     Plan.chunk_failed wav_names (Pack.sanitise (fst (fst g)))
       (Pack.sanitise (snd (fst g))) (Some b) 0 s (0%nat, snd g)).
Proof.
  intros Hb Hs. cbn [Pack.pack_groups]. unfold Pack.pack_group.
  rewrite chunks_explicit by now apply truthy_given.
  rewrite (truthy_given b Hb).
  cbn [negb length seq combine Pack.pack_chunks].
  rewrite pack_chunk_fails; [reflexivity | reflexivity |].
  unfold Pack.batch_label. rewrite (truthy_given b Hb). cbn [fst].
  now apply name_has_slash.
Qed.

Lemma mkdir_metadata_same (t : Tree) (l : list (string * DataFrame)) :
  metadata t = Some l -> FS.mkdir_metadata t = t.
Proof.
  intros H. unfold FS.mkdir_metadata. rewrite H. destruct t. cbn in *.
  now rewrite H.
Qed.

Lemma slash_rerun (src : Source) (out : Tree) (b : string)
    (max_rows max_rows' : Z) (df : DataFrame) (wav_names : list string) :
  metadata_csv src = Some df ->
  (forall c, In c Pack.required -> In c (columns df)) ->
  wavs src = Some wav_names ->
  b <> "" -> PyStr.contains b "/" = true ->
  Pack.tree
    (snd (Pack.pack src
            (Pack.tree (snd (Pack.pack src out (Some b) max_rows false)))
            (Some b) max_rows' false))
  = Pack.tree (snd (Pack.pack src out (Some b) max_rows false)).
Proof.
  intros Hcsv Hcols Hw Hb Hs. unfold Pack.pack.
  rewrite (load_metadata_ok src df Hcsv Hcols), Hw.
  destruct (Pack.groupby (rows df)) as [|g gs].
  - cbn [Pack.pack_groups snd Pack.tree].
    apply (mkdir_metadata_same _ (match metadata out with
                                  | Some l => l | None => [] end)).
    reflexivity.
  - rewrite !explicit_slash_groups by assumption.
    cbn [snd]. unfold Plan.chunk_failed, Pack.batch_label.
    rewrite (truthy_given b Hb). cbn [fst snd Pack.tree].
    set (S := Pack.sanitise (fst (fst g))).
    set (P := Pack.sanitise (snd (fst g))).
    set (a1 := Pack.mkAcc (Pack.mkState (FS.mkdir_metadata out)
                                        [Mkdir ["metadata"]] 0 0) [] 0).
    set (t1 := Pack.tree (Pack.st (fold_left
                                     (Pack.pack_row wav_names S P b false)
                                     (snd g) a1))).
    assert (Hm : FS.mkdir_metadata t1 = t1).
    { apply (mkdir_metadata_same _ (match metadata out with
                                    | Some l => l | None => [] end)).
      unfold t1. rewrite pack_rows_metadata. reflexivity. }
    rewrite Hm.
    apply (pack_rows_stay wav_names b S P (snd g)).
    cbn [Pack.st Pack.tree]. intros r Hr Hp. split.
    + now apply (pack_rows_dirs wav_names b S P (snd g) a1 r).
    + now apply (pack_rows_files wav_names S P b (snd g) a1 r).
Qed.

(** X18. Packing the same flat source a second time under the same
    explicit label changes nothing: the output tree after the second real
    run, with its shards, directories and files, is the tree the first run
    left, whatever [max_rows] is given to either run. *)
Theorem explicit_label_rerun_changes_nothing :
  forall (src : Source) (out : Tree) (b : string) (max_rows max_rows' : Z)
         (df : DataFrame) (wav_names : list string),
    metadata_csv src = Some df ->
    (forall c, In c Pack.required -> In c (columns df)) ->
    wavs src = Some wav_names ->
    b <> "" ->
    NoDup (map fst (match metadata out with Some l => l | None => [] end)) ->
    Pack.tree
      (snd (Pack.pack src
              (Pack.tree (snd (Pack.pack src out (Some b) max_rows false)))
              (Some b) max_rows' false))
    = Pack.tree (snd (Pack.pack src out (Some b) max_rows false)).
Proof.
  intros src out b mr mr' df wav_names Hcsv Hcols Hw Hb Hnd.
  destruct (PyStr.contains b "/") eqn:Hs;
    [now apply (slash_rerun src out b mr mr' df wav_names)|].
  set (t1 := Pack.tree (snd (Pack.pack src out (Some b) mr false))).
  destruct (pack_stays src df wav_names b Hcsv Hcols Hw Hb Hs t1 mr'
              (pack_places src df wav_names b Hcsv Hcols Hw Hb Hs out mr))
    as [Hd Hf].
  destruct (pack_real_metadata src out (Some b) mr df wav_names Hcsv Hcols Hw)
    as [M1 _].
  destruct (pack_real_metadata src t1 (Some b) mr' df wav_names Hcsv Hcols Hw)
    as [M2 _].
  cbv zeta in M1, M2. fold t1 in M1.
  destruct (explicit_pack_log (columns df) wav_names b false Hb (or_intror Hs)
              src out mr df Hcsv Hcols Hw eq_refl) as [_ L1].
  destruct (explicit_pack_log (columns df) wav_names b false Hb (or_intror Hs)
              src t1 mr' df Hcsv Hcols Hw eq_refl) as [_ L2].
  rewrite <- L1 in L2. rewrite L2, M1 in M2.
  unfold Plan.replay_saved in M2. rewrite replay_twice in M2 by exact Hnd.
  fold (Plan.replay_saved
          (Log.saved (Pack.log (snd (Pack.pack src out (Some b) mr false))))
          (match metadata out with Some l => l | None => [] end)) in M2.
  rewrite <- M1 in M2.
  destruct (Pack.tree (snd (Pack.pack src t1 (Some b) mr' false)))
    as [m2 d2 f2].
  destruct t1 as [m1 d1 f1]. cbn [metadata dirs files] in *. congruence.
Qed.

(** X18 at a table of two rows packed twice into an empty output. *)
Lemma explicit_label_rerun_changes_nothing_witness :
  Pack.tree
    (snd (Pack.pack
            (mkSource
               (Some (mkFrame ["audio_path"; "speaker"; "audio_source"]
                        [mkRow "wavs/a.wav" "bob" "yt" [];
                         mkRow "wavs/b.wav" "amy" "yt" []]))
               (Some ["a.wav"; "b.wav"]))
            (Pack.tree
               (snd (Pack.pack
                       (mkSource
                          (Some (mkFrame
                                   ["audio_path"; "speaker"; "audio_source"]
                                   [mkRow "wavs/a.wav" "bob" "yt" [];
                                    mkRow "wavs/b.wav" "amy" "yt" []]))
                          (Some ["a.wav"; "b.wav"]))
                       (mkTree None [] []) (Some "batch_2026_01") 1 false)))
            (Some "batch_2026_01") 10000 false))
  = Pack.tree
      (snd (Pack.pack
              (mkSource
                 (Some (mkFrame ["audio_path"; "speaker"; "audio_source"]
                          [mkRow "wavs/a.wav" "bob" "yt" [];
                           mkRow "wavs/b.wav" "amy" "yt" []]))
                 (Some ["a.wav"; "b.wav"]))
              (mkTree None [] []) (Some "batch_2026_01") 1 false)).
Proof.
  apply (explicit_label_rerun_changes_nothing
           (mkSource
              (Some (mkFrame ["audio_path"; "speaker"; "audio_source"]
                       [mkRow "wavs/a.wav" "bob" "yt" [];
                        mkRow "wavs/b.wav" "amy" "yt" []]))
              (Some ["a.wav"; "b.wav"]))
           (mkTree None [] []) "batch_2026_01" 1 10000
           (mkFrame ["audio_path"; "speaker"; "audio_source"]
              [mkRow "wavs/a.wav" "bob" "yt" [];
               mkRow "wavs/b.wav" "amy" "yt" []])
           ["a.wav"; "b.wav"]).
  - reflexivity.
  - intros c Hc. exact Hc.
  - reflexivity.
  - discriminate.
  - simpl. apply NoDup_nil.
Defined.

(** ** Unpacking again into the same output *)

Section UnpackAgain.

Variables (dataset : Tree) (dataset_dir : string).

Lemma unpack_row_stays (s : Unpack.State) (r : Row) :
  flat_root_exists (Unpack.flat s) = true ->
  (Plan.src_present dataset r = true ->
   Shape.has_wav (Unpack.flat s)
                 (PyPath.join_name dataset_dir (audio_path r))) ->
  Unpack.flat (Unpack.unpack_row dataset dataset_dir false s r)
  = Unpack.flat s.
Proof.
  intros Hroot H. unfold Unpack.unpack_row. unfold Plan.src_present in H.
  destruct (FS.path_exists dataset _); cbn [negb Unpack.flat]; [|reflexivity].
  specialize (H eq_refl). unfold Shape.has_wav in H.
  unfold Unpack.copy_wav, Unpack.mkdir_wavs.
  destruct (Unpack.flat s) as [e c w]. cbn [flat_root_exists flat_csv flat_wavs] in *.
  destruct w as [l|]; [|destruct H]. cbn [option_map]. subst e.
  replace (existsb (String.eqb (PyPath.join_name dataset_dir (audio_path r))) l)
    with true; [reflexivity|].
  symmetry. apply existsb_exists. eexists. split; [exact H|].
  apply String.eqb_refl.
Qed.

Lemma unpack_rows_stay (rs : list Row) (s : Unpack.State) :
  flat_root_exists (Unpack.flat s) = true ->
  (forall r, In r rs -> Plan.src_present dataset r = true ->
             Shape.has_wav (Unpack.flat s)
                           (PyPath.join_name dataset_dir (audio_path r))) ->
  Unpack.flat (fold_left (Unpack.unpack_row dataset dataset_dir false) rs s)
  = Unpack.flat s.
Proof.
  revert s. induction rs as [|r rs IH]; intros s Hroot H; [reflexivity|].
  cbn [fold_left].
  assert (E : Unpack.flat (Unpack.unpack_row dataset dataset_dir false s r)
              = Unpack.flat s).
  { apply unpack_row_stays; [exact Hroot|]. apply H. now left. }
  rewrite IH; [exact E | now rewrite E |].
  rewrite E. intros x Hx. apply H. now right.
Qed.

End UnpackAgain.

(** X19. Unpacking a second time with the same arguments into the output
    of the first real run changes nothing: the flat output after the second
    run, with its metadata.csv and the files of wavs/, is what the first
    run left. *)
Theorem unpack_rerun_changes_nothing :
  forall (dataset : Tree) (dataset_dir : string) (out : Flat)
         (speaker_f audio_source_f batch_f : option string),
    Unpack.flat
      (snd (Unpack.unpack dataset dataset_dir
              (Unpack.flat
                 (snd (Unpack.unpack dataset dataset_dir out speaker_f
                                     audio_source_f batch_f false)))
              speaker_f audio_source_f batch_f false))
    = Unpack.flat
        (snd (Unpack.unpack dataset dataset_dir out speaker_f audio_source_f
                            batch_f false)).
Proof.
  intros dataset dataset_dir out sp au ba. unfold Unpack.unpack.
  destruct (metadata dataset) as [meta|]; [|reflexivity].
  destruct (Unpack.load_all_metadata meta) as [[df0|msg] l1]; [|reflexivity].
  destruct (Unpack.apply_filters df0 sp au ba) as [[df|msg] l2];
    [|reflexivity].
  cbn [snd Unpack.flat].
  set (s := fold_left _ (rows df) (Unpack.mkState out (l1 ++ l2) 0 0 [])).
  set (f1 := Unpack.write_csv _ (Unpack.flat s)).
  set (s' := fold_left _ (rows df) (Unpack.mkState f1 (l1 ++ l2) 0 0 [])).
  destruct (unpack_rows_fold dataset dataset_dir false (rows df)
              (Unpack.mkState out (l1 ++ l2) 0 0 [])) as (Hp & _).
  destruct (unpack_rows_fold dataset dataset_dir false (rows df)
              (Unpack.mkState f1 (l1 ++ l2) 0 0 [])) as (Hp' & _).
  cbv zeta in Hp, Hp'. fold s in Hp. fold s' in Hp'.
  cbn [Unpack.flat_audio_paths] in Hp, Hp'.
  assert (E : Unpack.flat s' = f1).
  { unfold s'.
    rewrite unpack_rows_stay; [reflexivity | reflexivity |].
    cbn [Unpack.flat]. intros r Hr Hpres.
    destruct (unpack_rows_wavs dataset dataset_dir (rows df)
                (Unpack.mkState out (l1 ++ l2) 0 0 [])) as (_ & H2 & _).
    cbv zeta in H2. specialize (H2 r Hr Hpres). exact H2. }
  rewrite E, Hp', <- Hp. reflexivity.
Qed.
